(** * deepsphere/gnn_transformers.py: the graph vision transformer layers

    A shallow embedding of [scaled_dot_product_attention] and of the layers
    [AddPositionEmbs], [MultiHeadAttention] and [Graph_ViT].

    Conventions of the embedding:
    - tensor entries are real numbers (the floating-point entries of
      TensorFlow idealised); a tensor carries its dtype as a tag;
    - a Python exception is a value of [exn]; code that can raise lives in
      the [result] monad;
    - a layer object is a record of its attributes; an attribute that the
      constructor may leave unset is an [option], and reading it when unset
      raises [AttributeError];
    - a method that runs Keras sublayers returns the updated object next to
      its value, since Keras creates the weights of a sublayer the first
      time the sublayer is called. *)

From Stdlib Require Import String List ZArith Reals Lra Lia Bool.
Import ListNotations.

Set Warnings "-register-all".
Local Open Scope R_scope.

(** ** Exceptions and the result monad *)

Inductive exn : Type :=
| IOError (msg : string)
| AssertionError (msg : string)
| AttributeError (attr : string)
| ZeroDivisionError
| IndexError
| ValueError
| InvalidArgumentError.

Inductive result (A : Type) : Type :=
| Ok (a : A)
| Raise (e : exn).

Arguments Ok {A} a.
Arguments Raise {A} e.

Definition bind {A B : Type} (m : result A) (f : A -> result B) : result B :=
  match m with
  | Ok a => f a
  | Raise e => Raise e
  end.

Notation "x <- m ;; k" := (bind m (fun x => k))
  (at level 61, m at next level, right associativity).
Notation "' pat <- m ;; k" := (bind m (fun x => match x with pat => k end))
  (at level 61, pat pattern, m at next level, right associativity).

Definition is_ok {A : Type} (m : result A) : bool :=
  match m with Ok _ => true | Raise _ => false end.

Definition guard (b : bool) (e : exn) : result unit :=
  if b then Ok tt else Raise e.

(** ** Python numbers

    [p] of [Graph_ViT] is compared, used as an exponent and passed to
    [int]; it may be an [int] or a [float]. *)

Inductive PyNum : Type :=
| PyInt (z : Z)
| PyFloat (r : R).

Definition PyNum_to_R (x : PyNum) : R :=
  match x with
  | PyInt z => IZR z
  | PyFloat r => r
  end.

(** [x > 1] *)
Definition py_gt_1 (x : PyNum) : Prop := 1 < PyNum_to_R x.

(** The comparison is decided on the integer for an [int], so that it
    evaluates there. *)
Definition py_gt_1_dec (x : PyNum) : {py_gt_1 x} + {~ py_gt_1 x} :=
  match x with
  | PyInt z =>
      match Z_lt_dec 1 z with
      | left H => left (IZR_lt 1 z H)
      | right H => right (fun H' : 1 < IZR z => H (lt_IZR 1 z H'))
      end
  | PyFloat r => Rlt_dec 1 r
  end.

(** [int(r)] of a float: truncation toward zero. *)
Definition R_trunc (r : R) : Z :=
  if Rle_dec 0 r then Int_part r else (- Int_part (- r))%Z.

(** [int(4 ** p)], for [p > 0]. [4 ** p] is an [int] for an [int] exponent
    and a [float] for a [float] one. *)
Definition int_four_pow (p : PyNum) : Z :=
  match p with
  | PyInt z => (4 ^ z)%Z
  | PyFloat r => R_trunc (Rpower 4 r)
  end.

(** [a % b] and [a // b] on Python ints: floor division, the sign of the
    remainder follows the divisor, and a zero divisor raises. *)
Definition py_mod (a b : Z) : result Z :=
  if (b =? 0)%Z then Raise ZeroDivisionError else Ok (a mod b)%Z.

Definition py_floordiv (a b : Z) : result Z :=
  if (b =? 0)%Z then Raise ZeroDivisionError else Ok (a / b)%Z.

(** ** Tensors *)

Inductive DType : Type := float16 | bfloat16 | float32 | float64.

Definition DType_eqb (a b : DType) : bool :=
  match a, b with
  | float16, float16 | bfloat16, bfloat16
  | float32, float32 | float64, float64 => true
  | _, _ => false
  end.

Abbreviation vector := (list R).
Abbreviation matrix := (list (list R)).

(** The entries of a tensor of rank at least two: a matrix, or a stack of
    tensors along a new leading axis. *)
Inductive tdata : Type :=
| Mat (m : matrix)
| Batch (ts : list tdata).

Record Tensor : Type := mkTensor { dtype : DType; data : tdata }.

Definition width (m : matrix) : nat := length (hd [] m).

(** Every row of [m] has the length of the first one. *)
Definition rectangular (m : matrix) : bool :=
  forallb (fun r => Nat.eqb (length r) (width m)) m.

(** [tf.shape(t)], read off the first entry along each axis. *)
Fixpoint shape (t : tdata) : list nat :=
  match t with
  | Mat m => [length m; width m]
  | Batch ts =>
      length ts :: match ts with
                   | [] => []
                   | t0 :: _ => shape t0
                   end
  end.

(** [t] is a rectangular array of shape [s]. *)
Fixpoint has_shape (s : list nat) (t : tdata) {struct t} : bool :=
  match t with
  | Mat m =>
      match s with
      | [r; c] =>
          Nat.eqb (length m) r && forallb (fun v => Nat.eqb (length v) c) m
      | _ => false
      end
  | Batch ts =>
      match s with
      | n :: ((_ :: _ :: _) as s') =>
          Nat.eqb (length ts) n && forallb (has_shape s') ts
      | _ => false
      end
  end.

(** Apply [f] to every matrix of the stack. *)
Fixpoint tmap (f : matrix -> matrix) (t : tdata) : tdata :=
  match t with
  | Mat m => Mat (f m)
  | Batch ts => Batch (map (tmap f) ts)
  end.

(** Combine two stacks of the same leading structure matrix by matrix. *)
Fixpoint tzip (f : matrix -> matrix -> matrix) (a b : tdata) {struct a}
  : tdata :=
  match a, b with
  | Mat x, Mat y => Mat (f x y)
  | Batch xs, Batch ys =>
      Batch ((fix go (xs : list tdata) (ys : list tdata) : list tdata :=
                match xs, ys with
                | x :: xs', y :: ys' => tzip f x y :: go xs' ys'
                | _, _ => []
                end) xs ys)
  | _, _ => a
  end.

(** [ok] holds of every pair of matrices at the same position, and the two
    stacks have the same leading structure. *)
Fixpoint tall2 (ok : matrix -> matrix -> bool) (a b : tdata) {struct a}
  : bool :=
  match a, b with
  | Mat x, Mat y => ok x y
  | Batch xs, Batch ys =>
      (fix go (xs : list tdata) (ys : list tdata) : bool :=
         match xs, ys with
         | [], [] => true
         | x :: xs', y :: ys' => tall2 ok x y && go xs' ys'
         | _, _ => false
         end) xs ys
  | _, _ => false
  end.

(** *** Linear algebra on lists *)

Definition Rsum (v : vector) : R := fold_right Rplus 0 v.

Fixpoint dot (u v : vector) : R :=
  match u, v with
  | x :: u', y :: v' => x * y + dot u' v'
  | _, _ => 0
  end.

Definition mat_transpose (m : matrix) : matrix :=
  map (fun j => map (fun row => nth j row 0) m) (seq 0 (width m)).

(** [a . b^T]: entry (i, j) is the product of row i of [a] and row j of
    [b]. *)
Definition mat_mul_tb (a b : matrix) : matrix :=
  map (fun r => map (fun c => dot r c) b) a.

(** [a . b] *)
Definition mat_mul (a b : matrix) : matrix := mat_mul_tb a (mat_transpose b).

Definition mat_map (f : R -> R) (m : matrix) : matrix := map (map f) m.

(** softmax of one row: [exp x_i / sum_j exp x_j]. *)
Definition softmax_row (v : vector) : vector :=
  map (fun x => exp x / Rsum (map exp v)) v.

(** *** Broadcasting

    Two axes are compatible when they have the same length or one of them
    has length one; the operand of lower rank is repeated along the leading
    axes of the other. *)

Fixpoint zipwith {A B C : Type} (f : A -> B -> C) (xs : list A) (ys : list B)
  : list C :=
  match xs, ys with
  | x :: xs', y :: ys' => f x y :: zipwith f xs' ys'
  | _, _ => []
  end.

Definition bcast2 {A B : Type} (f : A -> A -> B) (xs ys : list A) : list B :=
  match xs, ys with
  | [x], _ => map (f x) ys
  | _, [y] => map (fun x => f x y) xs
  | _, _ => zipwith f xs ys
  end.

Definition bcast_len_ok (n m : nat) : bool :=
  Nat.eqb n m || Nat.eqb n 1 || Nat.eqb m 1.

Definition bcast_ok {A : Type} (ok : A -> A -> bool) (xs ys : list A) : bool :=
  bcast_len_ok (length xs) (length ys) && forallb (fun b => b) (bcast2 ok xs ys).

Definition mat_bc_add (a b : matrix) : matrix := bcast2 (bcast2 Rplus) a b.

Definition mat_bc_ok (a b : matrix) : bool :=
  bcast_ok (bcast_ok (fun _ _ => true)) a b.

Fixpoint rank (t : tdata) : nat :=
  match t with
  | Mat _ => 2
  | Batch [] => 3
  | Batch (t0 :: _) => S (rank t0)
  end.

Fixpoint bc_add (a : tdata) : tdata -> tdata :=
  fix inner (b : tdata) : tdata :=
    match a, b with
    | Mat x, Mat y => Mat (mat_bc_add x y)
    | Mat _, Batch ys => Batch (map inner ys)
    | Batch xs, Mat _ => Batch (map (fun x => bc_add x b) xs)
    | Batch xs, Batch ys =>
        if Nat.ltb (rank a) (rank b) then Batch (map inner ys)
        else if Nat.ltb (rank b) (rank a)
             then Batch (map (fun x => bc_add x b) xs)
             else Batch
                    match xs, ys with
                    | [x], _ => map (bc_add x) ys
                    | _, [y] => map (fun x => bc_add x y) xs
                    | _, _ =>
                        (fix go (xs : list tdata) (ys : list tdata)
                           : list tdata :=
                           match xs, ys with
                           | x :: xs', y :: ys' => bc_add x y :: go xs' ys'
                           | _, _ => []
                           end) xs ys
                    end
    end.

Fixpoint bc_ok (a : tdata) : tdata -> bool :=
  fix inner (b : tdata) : bool :=
    match a, b with
    | Mat x, Mat y => mat_bc_ok x y
    | Mat _, Batch ys => forallb inner ys
    | Batch xs, Mat _ => forallb (fun x => bc_ok x b) xs
    | Batch xs, Batch ys =>
        if Nat.ltb (rank a) (rank b) then forallb inner ys
        else if Nat.ltb (rank b) (rank a)
             then forallb (fun x => bc_ok x b) xs
             else bcast_len_ok (length xs) (length ys) &&
                  match xs, ys with
                  | [x], _ => forallb (bc_ok x) ys
                  | _, [y] => forallb (fun x => bc_ok x y) xs
                  | _, _ =>
                      (fix go (xs : list tdata) (ys : list tdata) : bool :=
                         match xs, ys with
                         | x :: xs', y :: ys' => bc_ok x y && go xs' ys'
                         | _, _ => true
                         end) xs ys
                  end
    end.

(** ** The TensorFlow operations the module uses

    Each operation checks its operands and then applies a total function
    to the entries. An operation on two tensors raises
    [InvalidArgumentError] when their dtypes differ: TensorFlow never
    converts a dtype silently. *)

Record ScalarT : Type := mkScalar { sdtype : DType; sval : R }.

Definition isnil {A : Type} (l : list A) : bool :=
  match l with [] => true | _ => false end.

(** The inner dimensions of a matrix product agree. A matrix without rows
    has no width in this representation and multiplies with anything. *)
Definition matmul_ok (transpose_b : bool) (x y : matrix) : bool :=
  rectangular x && rectangular y &&
  (isnil x ||
   if transpose_b then isnil y || Nat.eqb (width x) (width y)
   else Nat.eqb (width x) (length y)).

(** [tf.matmul(a, b, transpose_b=...)]: the product of the innermost
    matrices, [b] transposed first when [transpose_b] is set. *)
Definition tf_matmul (a b : Tensor) (transpose_b : bool) : result Tensor :=
  _ <- guard (DType_eqb (dtype a) (dtype b)) InvalidArgumentError ;;
  _ <- guard (tall2 (matmul_ok transpose_b) (data a) (data b))
             InvalidArgumentError ;;
  Ok (mkTensor (dtype a)
        (tzip (if transpose_b then mat_mul_tb else mat_mul) (data a) (data b))).

(** [tf.cast(tf.shape(t)[-1], d)] *)
Definition tf_last_dim (t : Tensor) (d : DType) : ScalarT :=
  mkScalar d (INR (last (shape (data t)) 0%nat)).

Definition tf_sqrt (s : ScalarT) : ScalarT :=
  mkScalar (sdtype s) (sqrt (sval s)).

(** [t / s] for a scalar tensor [s] *)
Definition tf_truediv (t : Tensor) (s : ScalarT) : result Tensor :=
  _ <- guard (DType_eqb (dtype t) (sdtype s)) InvalidArgumentError ;;
  Ok (mkTensor (dtype t) (tmap (mat_map (fun x => x / sval s)) (data t))).

(** [t * c] for a Python float [c], which takes the dtype of [t] *)
Definition tf_mul_const (t : Tensor) (c : R) : Tensor :=
  mkTensor (dtype t) (tmap (mat_map (fun x => x * c)) (data t)).

(** [a + b], with broadcasting *)
Definition tf_add (a b : Tensor) : result Tensor :=
  _ <- guard (DType_eqb (dtype a) (dtype b)) InvalidArgumentError ;;
  _ <- guard (bc_ok (data a) (data b)) InvalidArgumentError ;;
  Ok (mkTensor (dtype a) (bc_add (data a) (data b))).

(** [tf.nn.softmax(t, axis=-1)] *)
Definition tf_softmax (t : Tensor) : Tensor :=
  mkTensor (dtype t) (tmap (map softmax_row) (data t)).

(** [tf.cast(t, d)]: entries being idealised, only the tag changes. *)
Definition tf_cast (t : Tensor) (d : DType) : Tensor :=
  mkTensor d (data t).

(** ** scaled_dot_product_attention *)

Definition scaled_dot_product_attention (q k v : Tensor) (mask : option Tensor)
  : result (Tensor * Tensor) :=
  matmul_qk <- tf_matmul q k true ;;
  let dk := tf_last_dim k float32 in
  scaled_attention_logits <- tf_truediv matmul_qk (tf_sqrt dk) ;;
  scaled_attention_logits <-
    match mask with
    | Some m => tf_add scaled_attention_logits (tf_mul_const m (-1000000000))
    | None => Ok scaled_attention_logits
    end ;;
  let attention_weights := tf_softmax scaled_attention_logits in
  output <- tf_matmul attention_weights v false ;;
  Ok (output, attention_weights).

(** ** Reshaping *)

Fixpoint flatten (t : tdata) : list R :=
  match t with
  | Mat m => concat m
  | Batch ts => flat_map flatten ts
  end.

(** The first [count] consecutive pieces of length [size]. *)
Fixpoint chunk_n {A : Type} (count size : nat) (l : list A) : list (list A) :=
  match count with
  | O => []
  | S count' => firstn size l :: chunk_n count' size (skipn size l)
  end.

Definition prod_dims (s : list nat) : nat := fold_right Nat.mul 1%nat s.

(** The row-major array of shape [s] over the entries [l]. *)
Fixpoint build_shape (s : list nat) (l : list R) : tdata :=
  match s with
  | [] | [_] => Mat [l]
  | [r; c] => Mat (chunk_n r c l)
  | n :: s' => Batch (map (build_shape s') (chunk_n n (prod_dims s') l))
  end.

(** The requested dimensions of [tf.reshape]: a size, or [-1] for the one
    dimension to infer. *)
Definition known_dims (dims : list Z) : list Z :=
  filter (fun d => negb (d =? -1)%Z) dims.

Definition infer_dims (total : nat) (dims : list Z) : result (list nat) :=
  let known := fold_right Z.mul 1%Z (known_dims dims) in
  _ <- guard (forallb (fun d => (0 <=? d)%Z) (known_dims dims))
             InvalidArgumentError ;;
  _ <- guard (Nat.leb (length dims) (S (length (known_dims dims))))
             InvalidArgumentError ;;
  if Nat.eqb (length dims) (length (known_dims dims)) then
    _ <- guard (Z.of_nat total =? known)%Z InvalidArgumentError ;;
    Ok (map Z.to_nat dims)
  else
    _ <- guard (negb (known =? 0)%Z && (Z.of_nat total mod known =? 0)%Z)
               InvalidArgumentError ;;
    Ok (map (fun d => if (d =? -1)%Z then Z.to_nat (Z.of_nat total / known)
                      else Z.to_nat d) dims).

(** [tf.reshape(t, dims)], for a target of rank at least two. *)
Definition tf_reshape (t : Tensor) (dims : list Z) : result Tensor :=
  _ <- guard (Nat.leb 2 (length dims)) InvalidArgumentError ;;
  s <- infer_dims (length (flatten (data t))) dims ;;
  Ok (mkTensor (dtype t) (build_shape s (flatten (data t)))).

Definition ltranspose {A : Type} (d : A) (xss : list (list A)) : list (list A) :=
  map (fun j => map (fun xs => nth j xs d) xss)
      (seq 0 (length (hd [] xss))).

Definition unMat (t : tdata) : result matrix :=
  match t with
  | Mat m => Ok m
  | Batch _ => Raise InvalidArgumentError
  end.

Fixpoint mapM {A B : Type} (f : A -> result B) (xs : list A)
  : result (list B) :=
  match xs with
  | [] => Ok []
  | x :: xs' => y <- f x ;; ys <- mapM f xs' ;; Ok (y :: ys)
  end.

(** Exchange the two middle axes of one element of a rank-4 batch. *)
Definition swap_middle (t : tdata) : result tdata :=
  match t with
  | Mat _ => Raise InvalidArgumentError
  | Batch ms =>
      rows <- mapM unMat ms ;;
      Ok (Batch (map Mat (ltranspose [] rows)))
  end.

(** [tf.transpose(t, perm=[0, 2, 1, 3])] *)
Definition tf_transpose_0213 (t : Tensor) : result Tensor :=
  match data t with
  | Mat _ => Raise InvalidArgumentError
  | Batch bs =>
      bs' <- mapM swap_middle bs ;;
      Ok (mkTensor (dtype t) (Batch bs'))
  end.

(** ** The Keras sublayers

    A Keras layer creates its weights when it is first called (or when
    [build] is called on it) and keeps them afterwards; [None] is a layer
    that has not been built. Called as [layer(x)], it first casts a
    floating-point input to its compute dtype, [float32] under the default
    policy. What the Keras constructors check of their own arguments is not
    part of this module and is not modelled.

    An initializer gives the value of each entry of a new weight from the
    shape of the weight and the position of the entry. *)

Definition Initializer : Type := list nat -> nat -> R.

Definition zeros : Initializer := fun _ _ => 0.
Definition ones : Initializer := fun _ _ => 1.

Definition fill (init : Initializer) (s : list nat) : list R :=
  map (init s) (seq 0 (prod_dims s)).

Definition init_vector (init : Initializer) (n : nat) : vector :=
  fill init [n].

Definition init_matrix (init : Initializer) (r c : nat) : matrix :=
  chunk_n r c (fill init [r; c]).

Definition init_kernel3 (init : Initializer) (k c f : nat) : list matrix :=
  map (chunk_n c f) (chunk_n k (c * f) (fill init [k; c; f])).

Definition keras_autocast (x : Tensor) : Tensor := tf_cast x float32.

Definition vadd (u v : vector) : vector := zipwith Rplus u v.

Inductive Activation : Type := relu | linear | tanh_act | sigmoid.

Definition activation_fn (a : Activation) (x : R) : R :=
  match a with
  | relu => Rmax 0 x
  | linear => x
  | tanh_act => tanh x
  | sigmoid => 1 / (1 + exp (- x))
  end.

(** [tf.keras.layers.Activation(a)(x)] *)
Definition Activation_call (a : Activation) (x : Tensor) : Tensor :=
  let x := keras_autocast x in
  mkTensor (dtype x) (tmap (mat_map (activation_fn a)) (data x)).

Record Dense : Type := mkDense {
  units : Z;
  dense_weights : option (matrix * vector)   (* kernel, bias *)
}.

Record LayerNormalization : Type := mkLayerNormalization {
  epsilon : R;
  ln_weights : option (vector * vector)      (* gamma, beta *)
}.

Record Conv1D : Type := mkConv1D {
  filters : Z;
  kernel_size : Z;
  strides : Z;
  conv_weights : option (list matrix * vector)  (* kernel, bias *)
}.

(** Every innermost vector of [t] has length [n]. *)
Fixpoint last_dim_is (n : nat) (t : tdata) : bool :=
  match t with
  | Mat m => forallb (fun r => Nat.eqb (length r) n) m
  | Batch ts => forallb (last_dim_is n) ts
  end.

Definition layer_norm_row (eps : R) (gamma beta : vector) (row : vector)
  : vector :=
  let n := INR (length row) in
  let mean := Rsum row / n in
  let var := Rsum (map (fun x => (x - mean) * (x - mean)) row) / n in
  vadd (zipwith Rmult (map (fun x => (x - mean) / sqrt (var + eps)) row) gamma)
       beta.

(** [acc + row . w]: the rows of [w] scaled by the entries of [row] and
    added to [acc]. *)
Fixpoint axpy_rows (row : vector) (w : matrix) (acc : vector) : vector :=
  match row, w with
  | x :: row', wr :: w' => axpy_rows row' w' (vadd acc (map (Rmult x) wr))
  | _, _ => acc
  end.

(** One output position of the convolution: the bias plus, for every row
    of the window, that row times the matching slice of the kernel. *)
Fixpoint conv_window (window : matrix) (kernel : list matrix) (acc : vector)
  : vector :=
  match window, kernel with
  | row :: window', kj :: kernel' =>
      conv_window window' kernel' (axpy_rows row kj acc)
  | _, _ => acc
  end.

(** Output length of a convolution with [padding='valid']. *)
Definition conv_out_len (n k s : nat) : nat :=
  if Nat.ltb n k then 0%nat else S ((n - k) / s).

Definition conv1d_mat (k s : nat) (kernel : list matrix) (bias : vector)
  (m : matrix) : matrix :=
  map (fun i => conv_window (firstn k (skipn (i * s) m)) kernel bias)
      (seq 0 (conv_out_len (length m) k s)).

Section Layers.

(** The initializer Keras uses when none is given. It draws its values at
    random; here it is any fixed initializer. *)
Variable glorot_uniform : Initializer.

Definition Dense_init (n : Z) : Dense := mkDense n None.

Definition Dense_build (d : Dense) (in_dim : nat) : Dense :=
  mkDense (units d)
    (Some (init_matrix glorot_uniform in_dim (Z.to_nat (units d)),
           init_vector zeros (Z.to_nat (units d)))).

(** [d(x)]: [x . kernel + bias] along the last axis. *)
Definition Dense_call (d : Dense) (x : Tensor) : result (Tensor * Dense) :=
  let x := keras_autocast x in
  let d := match dense_weights d with
           | Some _ => d
           | None => Dense_build d (last (shape (data x)) 0%nat)
           end in
  match dense_weights d with
  | None => Raise ValueError
  | Some (kernel, bias) =>
      _ <- guard (last_dim_is (length kernel) (data x)) ValueError ;;
      Ok (mkTensor (dtype x)
            (tmap (map (fun r => axpy_rows r kernel bias)) (data x)),
          d)
  end.

Definition LayerNormalization_init : LayerNormalization :=
  mkLayerNormalization (1 / 1000) None.

Definition LayerNormalization_build (l : LayerNormalization) (dim : nat)
  : LayerNormalization :=
  mkLayerNormalization (epsilon l)
    (Some (init_vector ones dim, init_vector zeros dim)).

(** [l(x)]: normalisation along the last axis. *)
Definition LayerNormalization_call (l : LayerNormalization) (x : Tensor)
  : result (Tensor * LayerNormalization) :=
  let x := keras_autocast x in
  let l := match ln_weights l with
           | Some _ => l
           | None => LayerNormalization_build l (last (shape (data x)) 0%nat)
           end in
  match ln_weights l with
  | None => Raise ValueError
  | Some (gamma, beta) =>
      _ <- guard (last_dim_is (length gamma) (data x)) ValueError ;;
      Ok (mkTensor (dtype x)
            (tmap (map (layer_norm_row (epsilon l) gamma beta)) (data x)),
          l)
  end.

Definition Conv1D_init (n_filters size stride : Z) : Conv1D :=
  mkConv1D n_filters size stride None.

(** [c.build(input_shape)]: the kernel has shape
    (kernel_size, channels, filters). *)
Definition Conv1D_build (c : Conv1D) (input_shape : list nat) : result Conv1D :=
  _ <- guard (Nat.eqb (length input_shape) 3) ValueError ;;
  let channels := last input_shape 0%nat in
  Ok (mkConv1D (filters c) (kernel_size c) (strides c)
        (Some (init_kernel3 glorot_uniform (Z.to_nat (kernel_size c)) channels
                 (Z.to_nat (filters c)),
               init_vector zeros (Z.to_nat (filters c))))).

Definition is_rank3 (t : tdata) : bool :=
  match t with
  | Batch ts => forallb (fun t' => match t' with Mat _ => true | _ => false end) ts
  | Mat _ => false
  end.

(** [c(x)] for [x] of shape (batch, steps, channels), [padding='valid']. *)
Definition Conv1D_call (c : Conv1D) (x : Tensor) : result (Tensor * Conv1D) :=
  let x := keras_autocast x in
  _ <- guard (is_rank3 (data x)) ValueError ;;
  c <- match conv_weights c with
       | Some _ => Ok c
       | None => Conv1D_build c (shape (data x))
       end ;;
  match conv_weights c with
  | None => Raise ValueError
  | Some (kernel, bias) =>
      _ <- guard (last_dim_is (length (hd [] kernel)) (data x)) ValueError ;;
      Ok (mkTensor (dtype x)
            (tmap (conv1d_mat (Z.to_nat (kernel_size c)) (Z.to_nat (strides c))
                     kernel bias) (data x)),
          c)
  end.

(** ** AddPositionEmbs *)

Record AddPositionEmbs : Type := mkAddPositionEmbs {
  posemb_init : option Initializer;
  pos_embedding : option Tensor
}.

(** [l[i]] on a shape *)
Definition py_index (l : list nat) (i : nat) : result nat :=
  match nth_error l i with
  | Some n => Ok n
  | None => Raise IndexError
  end.

Definition getattr {A : Type} (name : string) (field : option A) : result A :=
  match field with
  | Some a => Ok a
  | None => Raise (AttributeError name)
  end.

Definition AddPositionEmbs_init (init : option Initializer) : AddPositionEmbs :=
  mkAddPositionEmbs init None.

(** [add_weight(name, shape, initializer=...)], of dtype [float32] *)
Definition add_weight (s : list nat) (init : option Initializer) : Tensor :=
  let i := match init with Some i => i | None => glorot_uniform end in
  mkTensor float32 (build_shape s (fill i s)).

Definition AddPositionEmbs_build (self : AddPositionEmbs)
  (inputs_shape : list nat) : result AddPositionEmbs :=
  s1 <- py_index inputs_shape 1 ;;
  s2 <- py_index inputs_shape 2 ;;
  let pos_emb_shape := [1%nat; s1; s2] in
  Ok (mkAddPositionEmbs (posemb_init self)
        (Some (add_weight pos_emb_shape (posemb_init self)))).

Definition AddPositionEmbs_call (self : AddPositionEmbs) (inputs : Tensor)
  : result (Tensor * AddPositionEmbs) :=
  w <- getattr "pos_embedding" (pos_embedding self) ;;
  let pos_embedding := tf_cast w (dtype inputs) in
  out <- tf_add inputs pos_embedding ;;
  Ok (out, self).

(** ** MultiHeadAttention *)

Record MultiHeadAttention : Type := mkMultiHeadAttention {
  mha_num_heads : Z;
  d_model : Z;
  use_norm : bool;
  depth : Z;
  wq : Dense;
  wk : Dense;
  wv : Dense;
  layer_norm1 : option LayerNormalization;
  layer_norm2 : option LayerNormalization;
  activation_layer : Activation;
  dense : Dense
}.

Definition MultiHeadAttention_init (d_model num_heads : Z) (use_norm : bool)
  (activation : Activation) : result MultiHeadAttention :=
  r <- py_mod d_model num_heads ;;
  _ <- guard (r =? 0)%Z (AssertionError "") ;;
  depth <- py_floordiv d_model num_heads ;;
  let wq := Dense_init d_model in
  let wk := Dense_init d_model in
  let wv := Dense_init d_model in
  let norms := if use_norm
               then (Some LayerNormalization_init, Some LayerNormalization_init)
               else (None, None) in
  Ok (mkMultiHeadAttention num_heads d_model use_norm depth wq wk wv
        (fst norms) (snd norms) activation (Dense_init d_model)).

Definition split_heads (self : MultiHeadAttention) (x : Tensor)
  (batch_size : nat) : result Tensor :=
  x <- tf_reshape x [Z.of_nat batch_size; (-1)%Z; mha_num_heads self; depth self] ;;
  tf_transpose_0213 x.

(** [tf.shape(t)[0]] *)
Definition tf_shape_0 (t : Tensor) : nat := hd 0%nat (shape (data t)).

Definition MultiHeadAttention_call (self : MultiHeadAttention)
  (inputs : Tensor) (mask : option Tensor)
  : result (Tensor * MultiHeadAttention) :=
  let batch_size := tf_shape_0 inputs in
  ln1 <- getattr "layer_norm1" (layer_norm1 self) ;;
  '(inputs, ln1) <- LayerNormalization_call ln1 inputs ;;
  '(q, wq') <- Dense_call (wq self) inputs ;;
  '(k, wk') <- Dense_call (wk self) inputs ;;
  '(v, wv') <- Dense_call (wv self) inputs ;;
  q <- split_heads self q batch_size ;;
  k <- split_heads self k batch_size ;;
  v <- split_heads self v batch_size ;;
  '(scaled_attention, attention_weights) <-
     scaled_dot_product_attention q k v mask ;;
  scaled_attention <- tf_transpose_0213 scaled_attention ;;
  concat_attention <-
    tf_reshape scaled_attention [Z.of_nat batch_size; (-1)%Z; d_model self] ;;
  concat_attention <- tf_add inputs concat_attention ;;
  ln2 <- getattr "layer_norm2" (layer_norm2 self) ;;
  '(output, ln2) <- LayerNormalization_call ln2 concat_attention ;;
  '(output, dense') <- Dense_call (dense self) output ;;
  let output := Activation_call (activation_layer self) output in
  output <- tf_add output concat_attention ;;
  Ok (output,
      mkMultiHeadAttention (mha_num_heads self) (d_model self) (use_norm self)
        (depth self) wq' wk' wv' (Some ln1) (Some ln2)
        (activation_layer self) dense').

(** [mha(x)]: the Keras wrapper casts the input and runs [call] with the
    default [mask=None]; the class has no [build] of its own. *)
Definition MultiHeadAttention___call__ (self : MultiHeadAttention) (x : Tensor)
  : result (Tensor * MultiHeadAttention) :=
  MultiHeadAttention_call self (keras_autocast x) None.

(** ** Graph_ViT *)

Record Graph_ViT : Type := mkGraph_ViT {
  vit_p : PyNum;
  embed_filter_size : Z;
  key_dim : Z;
  num_heads : Z;
  embedding_size : Z;
  positional_encoding : bool;
  n_layers : Z;
  activation : Activation;
  layer_norm : bool;
  embed : Conv1D;
  pos_encoder : option AddPositionEmbs;
  mha_layers : list MultiHeadAttention
}.

(** [for i in range(n): layers.append(make())] *)
Fixpoint append_layers {A : Type} (n : nat) (make : result A) (layers : list A)
  : result (list A) :=
  match n with
  | O => Ok layers
  | S n' => l <- make ;; append_layers n' make (layers ++ [l])
  end.

Definition Graph_ViT_init (p : PyNum) (key_dim num_heads : Z)
  (positional_encoding : bool) (n_layers : Z) (activation : Activation)
  (layer_norm : bool) : result Graph_ViT :=
  if py_gt_1_dec p then
    let embed_filter_size := int_four_pow p in
    let embedding_size := (key_dim * num_heads)%Z in
    let embed := Conv1D_init embedding_size embed_filter_size
                   embed_filter_size in
    let pos_encoder := if positional_encoding
                       then Some (AddPositionEmbs_init None) else None in
    _ <- guard (1 <=? n_layers)%Z
           (AssertionError "Number of attention layers should be at least 1") ;;
    mha_layers <-
      append_layers (Z.to_nat n_layers)
        (MultiHeadAttention_init embedding_size num_heads layer_norm activation)
        [] ;;
    Ok (mkGraph_ViT p embed_filter_size key_dim num_heads embedding_size
          positional_encoding n_layers activation layer_norm embed pos_encoder
          mha_layers)
  else
    Raise (IOError "The super pixel size factor p has to be at least 1!").

(** The message of the [IOError] of [build] is formatted from the shape
    and the filter size in the source; it is a fixed string here. *)
Definition Graph_ViT_build (self : Graph_ViT) (input_shape : list nat)
  : result Graph_ViT :=
  n_nodes <- py_index input_shape 1 ;;
  r <- py_mod (Z.of_nat n_nodes) (embed_filter_size self) ;;
  _ <- guard (r =? 0)%Z
         (IOError "Input shape not compatible with the embedding filter size") ;;
  embed' <- Conv1D_build (embed self) input_shape ;;
  pos_encoder' <-
    (if positional_encoding self then
       pe <- getattr "pos_encoder" (pos_encoder self) ;;
       pe' <- AddPositionEmbs_build pe input_shape ;;
       Ok (Some pe')
     else Ok (pos_encoder self)) ;;
  Ok (mkGraph_ViT (vit_p self) (embed_filter_size self) (key_dim self)
        (num_heads self) (embedding_size self) (positional_encoding self)
        (n_layers self) (activation self) (layer_norm self) embed'
        pos_encoder' (mha_layers self)).

(** [for mha in layers: x = mha(x)] *)
Fixpoint apply_layers (layers : list MultiHeadAttention) (x : Tensor)
  : result (Tensor * list MultiHeadAttention) :=
  match layers with
  | [] => Ok (x, [])
  | mha :: rest =>
      '(x, mha') <- MultiHeadAttention___call__ mha x ;;
      '(x, rest') <- apply_layers rest x ;;
      Ok (x, mha' :: rest')
  end.

Definition Graph_ViT_call (self : Graph_ViT) (inputs : Tensor)
  : result (Tensor * Graph_ViT) :=
  '(x, embed') <- Conv1D_call (embed self) inputs ;;
  '(x, mha_layers') <- apply_layers (mha_layers self) x ;;
  Ok (x,
      mkGraph_ViT (vit_p self) (embed_filter_size self) (key_dim self)
        (num_heads self) (embedding_size self) (positional_encoding self)
        (n_layers self) (activation self) (layer_norm self) embed'
        (pos_encoder self) mha_layers').

End Layers.

(** ** The objects the constructors return when they succeed *)

Definition new_MultiHeadAttention (d_model num_heads : Z) (use_norm : bool)
  (activation : Activation) : MultiHeadAttention :=
  mkMultiHeadAttention num_heads d_model use_norm (d_model / num_heads)
    (Dense_init d_model) (Dense_init d_model) (Dense_init d_model)
    (if use_norm then Some LayerNormalization_init else None)
    (if use_norm then Some LayerNormalization_init else None)
    activation (Dense_init d_model).

Definition new_Graph_ViT (p : PyNum) (key_dim num_heads : Z)
  (positional_encoding : bool) (n_layers : Z) (activation : Activation)
  (layer_norm : bool) : Graph_ViT :=
  mkGraph_ViT p (int_four_pow p) key_dim num_heads (key_dim * num_heads)
    positional_encoding n_layers activation layer_norm
    (Conv1D_init (key_dim * num_heads) (int_four_pow p) (int_four_pow p))
    (if positional_encoding then Some (AddPositionEmbs_init None) else None)
    (repeat (new_MultiHeadAttention (key_dim * num_heads) num_heads layer_norm
               activation) (Z.to_nat n_layers)).

(** ** Built layers

    A layer is built when the weights of all its sublayers exist. *)

Definition is_some {A : Type} (o : option A) : bool :=
  match o with Some _ => true | None => false end.

Definition Dense_built (d : Dense) : bool := is_some (dense_weights d).

Definition LayerNormalization_built (l : option LayerNormalization) : bool :=
  match l with
  | Some l => is_some (ln_weights l)
  | None => false
  end.

Definition Conv1D_built (c : Conv1D) : bool := is_some (conv_weights c).

Definition MultiHeadAttention_built (m : MultiHeadAttention) : bool :=
  Dense_built (wq m) && Dense_built (wk m) && Dense_built (wv m) &&
  LayerNormalization_built (layer_norm1 m) &&
  LayerNormalization_built (layer_norm2 m) && Dense_built (dense m).

Definition Graph_ViT_built (g : Graph_ViT) : bool :=
  Conv1D_built (embed g) && forallb MultiHeadAttention_built (mha_layers g).

(** The object a method returns is the object it was called on. *)
Definition unchanged {A S : Type} (r : result (A * S)) (s : S) : Prop :=
  match r with
  | Ok (_, s') => s' = s
  | Raise _ => True
  end.

(** ** The forward pass as the documentation describes it

    The docstring of [Graph_ViT] says of [positional_encoding]: "If True,
    add positional encoding to the superpixel embedding in the beginning".
    [Graph_ViT_call_as_documented] is that pipeline: patch embedding, then
    the positional encoder, then the attention layers. It is stated to be
    compared with [Graph_ViT_call]. *)

Section Documented.

Variable glorot_uniform : Initializer.

(** [pos_encoder(x)]: the Keras wrapper casts the input and builds the
    layer on the shape of its first input. *)
Definition AddPositionEmbs___call__ (self : AddPositionEmbs) (x : Tensor)
  : result (Tensor * AddPositionEmbs) :=
  let x := keras_autocast x in
  self <- match pos_embedding self with
          | Some _ => Ok self
          | None => AddPositionEmbs_build glorot_uniform self (shape (data x))
          end ;;
  AddPositionEmbs_call self x.

Definition Graph_ViT_call_as_documented (self : Graph_ViT) (inputs : Tensor)
  : result (Tensor * Graph_ViT) :=
  '(x, embed') <- Conv1D_call glorot_uniform (embed self) inputs ;;
  '(x, pos_encoder') <-
     (if positional_encoding self then
        pe <- getattr "pos_encoder" (pos_encoder self) ;;
        '(x, pe') <- AddPositionEmbs___call__ pe x ;;
        Ok (x, Some pe')
      else Ok (x, pos_encoder self)) ;;
  '(x, mha_layers') <- apply_layers glorot_uniform (mha_layers self) x ;;
  Ok (x,
      mkGraph_ViT (vit_p self) (embed_filter_size self) (key_dim self)
        (num_heads self) (embedding_size self) (positional_encoding self)
        (n_layers self) (activation self) (layer_norm self) embed'
        pos_encoder' mha_layers').

End Documented.

(** [self] with another positional encoder, or none. *)
Definition with_pos_encoder (self : Graph_ViT) (enabled : bool)
  (pe : option AddPositionEmbs) : Graph_ViT :=
  mkGraph_ViT (vit_p self) (embed_filter_size self) (key_dim self)
    (num_heads self) (embedding_size self) enabled
    (n_layers self) (activation self) (layer_norm self) (embed self)
    pe (mha_layers self).

(** The tensor a method returns, without the object. *)
Definition returned {A S : Type} (r : result (A * S)) : result A :=
  match r with
  | Ok (a, _) => Ok a
  | Raise e => Raise e
  end.

Definition returned_shape {S : Type} (r : result (Tensor * S))
  : result (list nat) :=
  match r with
  | Ok (t, _) => Ok (shape (data t))
  | Raise e => Raise e
  end.

(** ** Example layers, with every weight zero except the normalisation
    gains *)

Definition example_dense : Dense := Dense_build zeros (Dense_init 2) 2.

Definition example_norm : LayerNormalization :=
  LayerNormalization_build LayerNormalization_init 2.

Definition example_mha : MultiHeadAttention :=
  mkMultiHeadAttention 2 2 true 1 example_dense example_dense example_dense
    (Some example_norm) (Some example_norm) relu example_dense.

Definition example_input : Tensor :=
  mkTensor float32 (Batch [Mat (map (fun i => [INR i]) (seq 0 16))]).

Definition example_conv : Conv1D :=
  mkConv1D 2 16 16 (Some (init_kernel3 zeros 16 1 2, init_vector zeros 2)).

Definition example_vit : Graph_ViT :=
  mkGraph_ViT (PyInt 2) 16 1 2 2 false 1 relu true example_conv None
    [example_mha].

(** ** Attention as the specification states it

    [attention_weights_spec] and [attention_output_spec] follow the words
    of the specification: the weights are the softmax over the last axis of
    [Q K^T / sqrt(depth) + mask * -1e9], with [depth] the last dimension of
    [K] and the mask term left out when there is no mask; the output is the
    weights times [V]. They are stated to be compared with
    [scaled_dot_product_attention]. *)

Definition attention_logits_spec (q k : tdata) : tdata :=
  let depth := INR (last (shape k) 0%nat) in
  tmap (mat_map (fun x => x / sqrt depth))
       (tzip (fun x y => mat_mul x (mat_transpose y)) q k).

Definition masked_logits_spec (q k : tdata) (mask : option tdata) : tdata :=
  match mask with
  | None => attention_logits_spec q k
  | Some m =>
      bc_add (attention_logits_spec q k)
             (tmap (mat_map (fun x => x * (-1000000000))) m)
  end.

Definition attention_weights_spec (q k : tdata) (mask : option tdata) : tdata :=
  tmap (map softmax_row) (masked_logits_spec q k mask).

Definition attention_output_spec (w v : tdata) : tdata := tzip mat_mul w v.

(** The vectors along the last axis. *)
Fixpoint rows (t : tdata) : list vector :=
  match t with
  | Mat m => m
  | Batch ts => flat_map rows ts
  end.

(** A mask that [scaled_dot_product_attention] accepts for logits of shape
    [s]: a [float32] tensor that broadcasts to that shape. *)
Definition mask_ok (s : list nat) (logits : tdata) (mask : option Tensor)
  : bool :=
  match mask with
  | None => true
  | Some m =>
      DType_eqb (dtype m) float32 &&
      bc_ok logits (tmap (mat_map (fun x => x * (-1000000000))) (data m)) &&
      has_shape s
        (bc_add logits (tmap (mat_map (fun x => x * (-1000000000))) (data m)))
  end.

Definition example_q : Tensor := mkTensor float32 (Mat [[1; 0]; [0; 1]]).
Definition example_k : Tensor := mkTensor float32 (Mat [[1; 2]; [3; 4]]).
Definition example_v : Tensor := mkTensor float32 (Mat [[5; 6]; [7; 8]]).
Definition example_mask : Tensor := mkTensor float32 (Mat [[0; 1]; [0; 0]]).

(** The entrywise sum of two matrices. *)
Definition mat_add (a b : matrix) : matrix := zipwith (zipwith Rplus) a b.

(** ** The heads of a matrix

    Head [h] of a matrix of rows of width [heads * depth] keeps the columns
    [h * depth] to [(h + 1) * depth - 1] of every row. *)

Definition head_slice (depth h : nat) (m : matrix) : matrix :=
  map (fun r => firstn depth (skipn (h * depth) r)) m.

Definition heads (n_heads depth : nat) (m : matrix) : tdata :=
  Batch (map (fun h => Mat (head_slice depth h m)) (seq 0 n_heads)).

(** ** Sublayers that fit an input width

    A Keras sublayer fits the width [c] of the last axis of its input when
    it has no weights yet, or when its weights were created for that
    width. *)

Definition LayerNormalization_fits (c : nat) (l : LayerNormalization) : Prop :=
  match ln_weights l with
  | None => True
  | Some (gamma, beta) => length gamma = c /\ length beta = c
  end.

Definition Dense_fits (c : nat) (d : Dense) : Prop :=
  match dense_weights d with
  | None => True
  | Some (kernel, bias) =>
      length kernel = c /\
      Forall (fun r => length r = Z.to_nat (units d)) kernel /\
      length bias = Z.to_nat (units d)
  end.

(** A [MultiHeadAttention] with both normalisations, whose sublayers all
    have [d_model] units and fit inputs of width [d_model]. *)
Definition MultiHeadAttention_fits (m : MultiHeadAttention) : Prop :=
  let c := Z.to_nat (d_model m) in
  units (wq m) = d_model m /\ units (wk m) = d_model m /\
  units (wv m) = d_model m /\ units (dense m) = d_model m /\
  Dense_fits c (wq m) /\ Dense_fits c (wk m) /\ Dense_fits c (wv m) /\
  Dense_fits c (dense m) /\
  (exists l, layer_norm1 m = Some l /\ LayerNormalization_fits c l) /\
  (exists l, layer_norm2 m = Some l /\ LayerNormalization_fits c l).

(** * Properties *)

Lemma DType_eqb_eq (a b : DType) : DType_eqb a b = true <-> a = b.
Proof. destruct a, b; simpl; split; congruence. Qed.

Lemma DType_eqb_refl (a : DType) : DType_eqb a a = true.
Proof. destruct a; reflexivity. Qed.

(** ** Construction *)

Lemma bind_Ok {A B : Type} (m : result A) (f : A -> result B) (b : B) :
  bind m f = Ok b -> exists a, m = Ok a /\ f a = Ok b.
Proof. destruct m as [a|e]; simpl; intros H; [eauto | discriminate]. Qed.

Lemma guard_Ok (b : bool) (e : exn) (u : unit) :
  guard b e = Ok u -> b = true.
Proof. destruct b; simpl; [reflexivity | discriminate]. Qed.

Lemma R_trunc_spec (r : R) :
  0 <= r -> IZR (R_trunc r) <= r < IZR (R_trunc r) + 1.
Proof.
  intros Hr. unfold R_trunc. destruct (Rle_dec 0 r) as [_|Hn]; [|contradiction].
  destruct (base_Int_part r) as [H1 H2]. split; lra.
Qed.


Lemma four_pow_gt (r : R) : 1 < r -> 4 < Rpower 4 r.
Proof.
  intros Hr. rewrite <- (Rpower_1 4) at 1 by lra.
  apply Rpower_lt; lra.
Qed.

Lemma int_four_pow_pos (p : PyNum) : py_gt_1 p -> (0 < int_four_pow p)%Z.
Proof.
  unfold py_gt_1. destruct p as [z|r]; simpl; intros Hp.
  - apply lt_IZR in Hp. apply Z.pow_pos_nonneg; lia.
  - pose proof (four_pow_gt r Hp) as H4.
    destruct (R_trunc_spec (Rpower 4 r)) as [_ Hlt]; [lra|].
    apply lt_IZR. lra.
Qed.

Lemma append_layers_Ok {A : Type} (n : nat) (l : A) (acc : list A) :
  append_layers n (Ok l) acc = Ok (acc ++ repeat l n).
Proof.
  revert acc. induction n as [|n IH]; intros acc; simpl.
  - now rewrite app_nil_r.
  - rewrite IH, <- app_assoc. reflexivity.
Qed.

Lemma append_layers_Raise {A : Type} (n : nat) (e : exn) (acc : list A) :
  (0 < n)%nat -> append_layers n (Raise e) acc = Raise e.
Proof. destruct n; [lia | reflexivity]. Qed.

Lemma MultiHeadAttention_init_Ok (d h : Z) (un : bool) (act : Activation) :
  h <> 0%Z -> (d mod h = 0)%Z ->
  MultiHeadAttention_init d h un act = Ok (new_MultiHeadAttention d h un act).
Proof.
  intros Hh Hm. unfold MultiHeadAttention_init, py_mod, py_floordiv.
  apply Z.eqb_neq in Hh. rewrite Hh. simpl. rewrite Hm. simpl.
  destruct un; reflexivity.
Qed.

Lemma MultiHeadAttention_init_inv (d h : Z) (un : bool) (act : Activation)
  (m : MultiHeadAttention) :
  MultiHeadAttention_init d h un act = Ok m ->
  h <> 0%Z /\ (d mod h = 0)%Z /\ m = new_MultiHeadAttention d h un act.
Proof.
  unfold MultiHeadAttention_init, py_mod, py_floordiv.
  destruct (h =? 0)%Z eqn:Hh; simpl; [discriminate|].
  destruct (d mod h =? 0)%Z eqn:Hm; simpl; [|discriminate].
  apply Z.eqb_neq in Hh. apply Z.eqb_eq in Hm.
  intros H. injection H as <-. repeat split; auto. destruct un; reflexivity.
Qed.


Lemma Graph_ViT_init_Ok (p : PyNum) (kd nh : Z) (pe : bool) (nl : Z)
  (act : Activation) (ln : bool) :
  py_gt_1 p -> (1 <= nl)%Z -> nh <> 0%Z ->
  Graph_ViT_init p kd nh pe nl act ln = Ok (new_Graph_ViT p kd nh pe nl act ln).
Proof.
  intros Hp Hn Hh. unfold Graph_ViT_init.
  destruct (py_gt_1_dec p) as [_|Hc]; [|contradiction].
  apply Z.leb_le in Hn. rewrite Hn. simpl.
  rewrite MultiHeadAttention_init_Ok; auto using Z.mod_mul.
  rewrite append_layers_Ok. reflexivity.
Qed.

Lemma Graph_ViT_init_inv (p : PyNum) (kd nh : Z) (pe : bool) (nl : Z)
  (act : Activation) (ln : bool) (g : Graph_ViT) :
  Graph_ViT_init p kd nh pe nl act ln = Ok g ->
  py_gt_1 p /\ (1 <= nl)%Z /\ nh <> 0%Z /\
  g = new_Graph_ViT p kd nh pe nl act ln.
Proof.
  intros H. assert (H' := H). unfold Graph_ViT_init in H.
  destruct (py_gt_1_dec p) as [Hp|_]; [|discriminate].
  destruct (1 <=? nl)%Z eqn:Hn; simpl in H; [|discriminate].
  apply Z.leb_le in Hn.
  destruct (Z.eq_dec nh 0) as [->|Hh].
  - exfalso. unfold MultiHeadAttention_init, py_mod in H. simpl in H.
    rewrite append_layers_Raise in H by lia. discriminate.
  - rewrite Graph_ViT_init_Ok in H' by assumption.
    injection H' as <-. auto.
Qed.













(** ** MultiHeadAttention without normalisation *)

(** C2, on the code. Constructed with [use_norm=False], the layer has no
    [layer_norm1] attribute, and [call] reads it first: every call raises
    [AttributeError] and returns no tensor. *)
Theorem MultiHeadAttention_call_without_norm (glorot_uniform : Initializer)
  (d h : Z) (act : Activation) (m : MultiHeadAttention) (x : Tensor)
  (mask : option Tensor) :
  MultiHeadAttention_init d h false act = Ok m ->
  MultiHeadAttention_call glorot_uniform m x mask
  = Raise (AttributeError "layer_norm1").
Proof.
  intros H. apply MultiHeadAttention_init_inv in H.
  destruct H as (_ & _ & ->). reflexivity.
Qed.

Lemma MultiHeadAttention_call_without_norm_witness :
  exists m, MultiHeadAttention_init 4 2 false relu = Ok m /\
            MultiHeadAttention_call zeros m
              (mkTensor float32 (Batch [Mat [[1; 2; 3; 4]]])) None
            = Raise (AttributeError "layer_norm1").
Proof.
  exists (new_MultiHeadAttention 4 2 false relu).
  assert (E : MultiHeadAttention_init 4 2 false relu
              = Ok (new_MultiHeadAttention 4 2 false relu)) by reflexivity.
  split; [exact E|].
  exact (MultiHeadAttention_call_without_norm zeros 4 2 relu _ _ None E).
Defined.

(** ** Broadcasting against a single stored matrix *)

Lemma forallb_map_comp {A B : Type} (f : A -> B) (g : B -> bool)
  (l : list A) :
  forallb g (map f l) = forallb (fun x => g (f x)) l.
Proof. induction l as [|x l IH]; simpl; [reflexivity | now rewrite IH]. Qed.

Lemma forallb_zipwith {A : Type} (f : A -> A -> bool) (a b : list A) :
  (forall u v, In u a -> In v b -> f u v = true) ->
  forallb (fun x => x) (zipwith f a b) = true.
Proof.
  revert b. induction a as [|x a IH]; intros [|y b] H; simpl; auto.
  rewrite H by (simpl; auto). apply IH. intros u v Hu Hv.
  apply H; simpl; auto.
Qed.

Lemma forallb_bcast2 {A : Type} (f : A -> A -> bool) (a b : list A) :
  (forall u v, In u a -> In v b -> f u v = true) ->
  forallb (fun x => x) (bcast2 f a b) = true.
Proof.
  intros H.
  assert (Hl : forall x, In x a ->
                 forallb (fun x => x) (map (f x) b) = true).
  { intros x Hx. rewrite forallb_map_comp. apply forallb_forall.
    intros y Hy. now apply H. }
  assert (Hr : forall y, In y b ->
                 forallb (fun x => x) (map (fun x => f x y) a) = true).
  { intros y Hy. rewrite forallb_map_comp. apply forallb_forall.
    intros x Hx. now apply H. }
  unfold bcast2.
  destruct a as [|x [|x' a']].
  - destruct b as [|y [|y' b']]; reflexivity.
  - apply Hl. simpl; auto.
  - destruct b as [|y [|y' b']].
    + reflexivity.
    + apply Hr. simpl; auto.
    + now apply forallb_zipwith.
Qed.

Lemma bcast_len_ok_refl (n : nat) : bcast_len_ok n n = true.
Proof. unfold bcast_len_ok. now rewrite Nat.eqb_refl. Qed.

Lemma bcast_len_ok_1 (n : nat) : bcast_len_ok n 1 = true.
Proof. unfold bcast_len_ok. simpl. now rewrite !orb_true_r. Qed.

Lemma mat_bc_ok_same_shape (s c : nat) (a b : matrix) :
  has_shape [s; c] (Mat a) = true -> has_shape [s; c] (Mat b) = true ->
  mat_bc_ok a b = true.
Proof.
  intros Ha Hb. simpl in Ha, Hb.
  apply andb_prop in Ha. destruct Ha as [Ha1 Ha2].
  apply andb_prop in Hb. destruct Hb as [Hb1 Hb2].
  apply Nat.eqb_eq in Ha1, Hb1.
  rewrite forallb_forall in Ha2, Hb2.
  unfold mat_bc_ok, bcast_ok in *.
  rewrite Ha1, Hb1, bcast_len_ok_refl. simpl.
  apply forallb_bcast2. intros u v Hu Hv.
  apply Ha2 in Hu. apply Hb2 in Hv. apply Nat.eqb_eq in Hu, Hv.
  rewrite Hu, Hv, bcast_len_ok_refl. simpl.
  apply forallb_bcast2. reflexivity.
Qed.

Lemma has_shape_rank3_inv (b s c : nat) (t : tdata) :
  has_shape [b; s; c] t = true ->
  exists ms, t = Batch (map Mat ms) /\ length ms = b /\
             Forall (fun m => has_shape [s; c] (Mat m) = true) ms.
Proof.
  destruct t as [m|ts]; simpl.
  - discriminate.
  - intros H. apply andb_prop in H. destruct H as [H1 H2].
    apply Nat.eqb_eq in H1. subst b.
    induction ts as [|t ts IH].
    + exists []. simpl. auto.
    + simpl in H2. apply andb_prop in H2. destruct H2 as [Ht Hts].
      destruct (IH Hts) as (ms & E & Hl & Hf).
      destruct t as [m|ts']; [|discriminate Ht].
      exists (m :: ms). simpl. injection E as ->.
      repeat split; auto.
Qed.

Lemma bc_ok_batch_single (b s c : nat) (x w : tdata) :
  has_shape [b; s; c] x = true -> has_shape [1%nat; s; c] w = true ->
  bc_ok x w = true.
Proof.
  intros Hx Hw.
  apply has_shape_rank3_inv in Hx. destruct Hx as (ms & -> & Hl & Hms).
  apply has_shape_rank3_inv in Hw. destruct Hw as (ws & -> & Hlw & Hws).
  destruct ws as [|mw [|? ?]]; try discriminate. clear Hlw.
  apply Forall_inv in Hws.
  assert (Hall : forallb (fun x => bc_ok x (Mat mw)) (map Mat ms) = true).
  { rewrite forallb_map_comp. apply forallb_forall. intros m Hm.
    rewrite Forall_forall in Hms.
    exact (mat_bc_ok_same_shape s c m mw (Hms m Hm) Hws). }
  destruct ms as [|m0 [|m1 ms']].
  - reflexivity.
  - simpl in Hall |- *. exact Hall.
  - cbn -[mat_bc_ok] in Hall |- *. exact Hall.
Qed.

(** ** AddPositionEmbs.call *)

(** C10. [call] casts the stored embedding to the dtype of the input
    before adding: on an input whose (seq_len, channels) match the stored
    embedding it returns a tensor of the input's dtype, whatever the dtype
    of the stored parameter. *)
Theorem AddPositionEmbs_call_dtype (self : AddPositionEmbs)
  (inputs w : Tensor) (b s c : nat) :
  pos_embedding self = Some w ->
  has_shape [b; s; c] (data inputs) = true ->
  has_shape [1%nat; s; c] (data w) = true ->
  exists out, AddPositionEmbs_call self inputs = Ok (out, self) /\
              dtype out = dtype inputs.
Proof.
  intros Hw Hi Hs. unfold AddPositionEmbs_call. rewrite Hw. simpl.
  unfold tf_add. simpl. rewrite DType_eqb_refl. simpl.
  rewrite (bc_ok_batch_single b s c) by assumption. simpl.
  eexists. split; reflexivity.
Qed.

Lemma AddPositionEmbs_call_dtype_witness :
  exists out,
    AddPositionEmbs_call
      (mkAddPositionEmbs None (Some (mkTensor float32 (Batch [Mat [[1; 2]]]))))
      (mkTensor float64 (Batch [Mat [[3; 4]]; Mat [[5; 6]]]))
    = Ok (out, mkAddPositionEmbs None
                 (Some (mkTensor float32 (Batch [Mat [[1; 2]]])))) /\
    dtype out = float64.
Proof.
  exact (AddPositionEmbs_call_dtype
           (mkAddPositionEmbs None
              (Some (mkTensor float32 (Batch [Mat [[1; 2]]]))))
           (mkTensor float64 (Batch [Mat [[3; 4]]; Mat [[5; 6]]]))
           (mkTensor float32 (Batch [Mat [[1; 2]]]))
           2 1 2 eq_refl eq_refl eq_refl).
Defined.

(** Without the cast the sum of tensors of two dtypes raises. *)
Lemma tf_add_dtype_mismatch (a b : Tensor) :
  dtype a <> dtype b -> tf_add a b = Raise InvalidArgumentError.
Proof.
  intros H. unfold tf_add.
  destruct (DType_eqb (dtype a) (dtype b)) eqn:E; [|reflexivity].
  apply DType_eqb_eq in E. contradiction.
Qed.

(** ** The forward pass does not write the layer *)

Section Frame.

Variable glorot_uniform : Initializer.

Lemma Dense_call_built (d d' : Dense) (x y : Tensor) :
  Dense_built d = true ->
  Dense_call glorot_uniform d x = Ok (y, d') -> d' = d.
Proof.
  unfold Dense_built, Dense_call. destruct (dense_weights d) as [[k b]|] eqn:E;
    [|discriminate].
  intros _. rewrite E.
  destruct (guard _ _); simpl; [|discriminate].
  intros H. now injection H as _ <-.
Qed.

Lemma LayerNormalization_call_built (l l' : LayerNormalization)
  (x y : Tensor) :
  LayerNormalization_built (Some l) = true ->
  LayerNormalization_call l x = Ok (y, l') -> l' = l.
Proof.
  unfold LayerNormalization_built, LayerNormalization_call.
  destruct (ln_weights l) as [[g b]|] eqn:E; [|discriminate].
  intros _. rewrite E.
  destruct (guard _ _); simpl; [|discriminate].
  intros H. now injection H as _ <-.
Qed.

Lemma Conv1D_call_built (c c' : Conv1D) (x y : Tensor) :
  Conv1D_built c = true ->
  Conv1D_call glorot_uniform c x = Ok (y, c') -> c' = c.
Proof.
  unfold Conv1D_built, Conv1D_call.
  destruct (conv_weights c) as [[k b]|] eqn:E; [|discriminate].
  intros _.
  destruct (guard (is_rank3 _) _); simpl; [|discriminate].
  rewrite E.
  destruct (guard _ _); simpl; [|discriminate].
  intros H. now injection H as _ <-.
Qed.

Ltac frame_step :=
  match goal with
  | |- unchanged (bind ?m _) _ =>
      let E := fresh "E" in
      first [ destruct m as [[? ?]|?] eqn:E | destruct m as [?|?] eqn:E ];
      cbn [bind]; [|exact I]
  end.

Lemma MultiHeadAttention_call_unchanged (self : MultiHeadAttention)
  (x : Tensor) (mask : option Tensor) :
  MultiHeadAttention_built self = true ->
  unchanged (MultiHeadAttention_call glorot_uniform self x mask) self.
Proof.
  destruct self as [nh dm un dp q k v l1 l2 act dn].
  unfold MultiHeadAttention_built. cbn [wq wk wv layer_norm1 layer_norm2 dense].
  intros H.
  repeat (apply andb_prop in H; let H' := fresh "B" in destruct H as [H H']).
  destruct l1 as [l1|]; [|discriminate]. destruct l2 as [l2|]; [|discriminate].
  unfold MultiHeadAttention_call.
  cbn [wq wk wv layer_norm1 layer_norm2 dense getattr bind mha_num_heads
       d_model use_norm depth activation_layer].
  repeat frame_step.
  repeat match goal with
         | E : Dense_call _ _ _ = Ok _ |- _ =>
             apply Dense_call_built in E; [subst | assumption]
         | E : LayerNormalization_call _ _ = Ok _ |- _ =>
             apply LayerNormalization_call_built in E; [subst | assumption]
         end.
  reflexivity.
Qed.

Lemma apply_layers_unchanged (layers : list MultiHeadAttention) (x : Tensor) :
  forallb MultiHeadAttention_built layers = true ->
  unchanged (apply_layers glorot_uniform layers x) layers.
Proof.
  revert x. induction layers as [|m rest IH]; intros x H; simpl.
  - reflexivity.
  - simpl in H. apply andb_prop in H. destruct H as [Hm Hr].
    pose proof (MultiHeadAttention_call_unchanged m (keras_autocast x) None Hm)
      as Hc.
    unfold MultiHeadAttention___call__.
    destruct (MultiHeadAttention_call _ m _ None) as [[y m']|e];
      cbn [bind]; [|exact I].
    simpl in Hc. subst m'.
    specialize (IH y Hr).
    destruct (apply_layers _ rest y) as [[z rest']|e]; cbn [bind]; [|exact I].
    simpl in IH. subst rest'. reflexivity.
Qed.

Lemma Graph_ViT_call_unchanged (self : Graph_ViT) (x : Tensor) :
  Graph_ViT_built self = true ->
  unchanged (Graph_ViT_call glorot_uniform self x) self.
Proof.
  unfold Graph_ViT_built. intros H. apply andb_prop in H.
  destruct H as [Hc Hl]. unfold Graph_ViT_call.
  destruct (Conv1D_call _ (embed self) x) as [[y c']|e] eqn:E;
    cbn [bind]; [|exact I].
  apply Conv1D_call_built in E; [subst c' | assumption].
  pose proof (apply_layers_unchanged (mha_layers self) y Hl) as Ha.
  destruct (apply_layers _ (mha_layers self) y) as [[z ls]|e];
    cbn [bind]; [|exact I].
  simpl in Ha. subst ls. destruct self; reflexivity.
Qed.

(** C8. A call leaves a built layer as it was: weights and hyperparameters
    of [AddPositionEmbs], [MultiHeadAttention] and [Graph_ViT] are the same
    after [call] as before. *)
Theorem call_leaves_layer_unchanged :
  (forall (self : AddPositionEmbs) x,
      unchanged (AddPositionEmbs_call self x) self) /\
  (forall (self : MultiHeadAttention) x mask,
      MultiHeadAttention_built self = true ->
      unchanged (MultiHeadAttention_call glorot_uniform self x mask) self) /\
  (forall (self : Graph_ViT) x,
      Graph_ViT_built self = true ->
      unchanged (Graph_ViT_call glorot_uniform self x) self).
Proof.
  split; [|split].
  - intros self x. unfold AddPositionEmbs_call.
    destruct (getattr _ _); cbn [bind]; [|exact I].
    destruct (tf_add _ _); cbn [bind]; [reflexivity | exact I].
  - apply MultiHeadAttention_call_unchanged.
  - apply Graph_ViT_call_unchanged.
Qed.

End Frame.

Lemma call_leaves_layer_unchanged_witness :
  (exists out,
      MultiHeadAttention_call zeros example_mha
        (mkTensor float32 (Batch [Mat [[1; 2]; [3; 4]]])) None
      = Ok (out, example_mha)) /\
  (exists out,
      Graph_ViT_call zeros example_vit example_input = Ok (out, example_vit)).
Proof.
  destruct (call_leaves_layer_unchanged zeros) as (_ & Hm & Hv).
  split.
  - pose proof (Hm example_mha
                  (mkTensor float32 (Batch [Mat [[1; 2]; [3; 4]]])) None
                  eq_refl) as H.
    assert (Hok : is_ok (MultiHeadAttention_call zeros example_mha
                     (mkTensor float32 (Batch [Mat [[1; 2]; [3; 4]]])) None)
                  = true) by (vm_compute; reflexivity).
    destruct (MultiHeadAttention_call zeros example_mha _ None)
      as [[out m]|e]; [|discriminate Hok].
    exists out. simpl in H. now rewrite H.
  - pose proof (Hv example_vit example_input eq_refl) as H.
    assert (Hok : is_ok (Graph_ViT_call zeros example_vit example_input)
                  = true) by (vm_compute; reflexivity).
    destruct (Graph_ViT_call zeros example_vit example_input)
      as [[out g]|e]; [|discriminate Hok].
    exists out. simpl in H. now rewrite H.
Defined.

(** The layer has to be built for that: the first call of a layer that was
    only constructed creates the weights of its sublayers. *)
Lemma MultiHeadAttention_first_call_builds :
  MultiHeadAttention_built (new_MultiHeadAttention 2 2 true relu) = false /\
  match MultiHeadAttention_call zeros (new_MultiHeadAttention 2 2 true relu)
          (mkTensor float32 (Batch [Mat [[1; 2]; [3; 4]]])) None with
  | Ok (_, m) => MultiHeadAttention_built m
  | Raise _ => false
  end = true.
Proof. split; vm_compute; reflexivity. Qed.

(** ** Graph_ViT.call and the positional encoder *)

(** C1, on the code. [call] never reads [pos_encoder] nor
    [positional_encoding]: the tensor it returns is the same whatever the
    positional encoder is and whether it is enabled, so no positional
    embedding is added between the patch embedding and the first attention
    block. *)
Theorem Graph_ViT_call_ignores_pos_encoder (glorot_uniform : Initializer)
  (self : Graph_ViT) (enabled : bool) (pe : option AddPositionEmbs)
  (x : Tensor) :
  returned (Graph_ViT_call glorot_uniform (with_pos_encoder self enabled pe) x)
  = returned (Graph_ViT_call glorot_uniform self x).
Proof.
  unfold Graph_ViT_call, with_pos_encoder.
  cbn [embed mha_layers].
  destruct (Conv1D_call glorot_uniform (embed self) x) as [[y c]|e];
    cbn [bind]; [|reflexivity].
  destruct (apply_layers glorot_uniform (mha_layers self) y) as [[z ls]|e];
    reflexivity.
Qed.

(** What [call] computes: the patch embedding followed by the attention
    layers in construction order. *)
Lemma Graph_ViT_call_pipeline (glorot_uniform : Initializer)
  (self : Graph_ViT) (x : Tensor) :
  returned (Graph_ViT_call glorot_uniform self x)
  = ('(y, _) <- Conv1D_call glorot_uniform (embed self) x ;;
     returned (apply_layers glorot_uniform (mha_layers self) y)).
Proof.
  unfold Graph_ViT_call.
  destruct (Conv1D_call glorot_uniform (embed self) x) as [[y c]|e];
    cbn [bind]; [|reflexivity].
  destruct (apply_layers glorot_uniform (mha_layers self) y) as [[z ls]|e];
    reflexivity.
Qed.

(** A layer constructed with [positional_encoding=True] and built on an
    input of shape (1, 16, 1): [call] and the documented pipeline return
    tensors of different shapes. *)
Lemma Graph_ViT_call_not_as_documented :
  exists g0,
    Graph_ViT_init (PyInt 2) 1 2 true 1 relu true = Ok g0 /\
    (g1 <- Graph_ViT_build zeros g0 [1; 16; 1]%nat ;;
     returned_shape (Graph_ViT_call zeros g1 example_input))
    = Ok [1; 1; 2]%nat /\
    (g1 <- Graph_ViT_build zeros g0 [1; 16; 1]%nat ;;
     returned_shape (Graph_ViT_call_as_documented zeros g1 example_input))
    = Ok [1; 16; 2]%nat.
Proof.
  exists (new_Graph_ViT (PyInt 2) 1 2 true 1 relu true).
  split; [|split].
  - apply Graph_ViT_init_Ok; [unfold py_gt_1; simpl; lra | lia | lia].
  - vm_compute. reflexivity.
  - vm_compute. reflexivity.
Qed.

(** ** Shapes of new weights *)

Lemma chunk_n_length {A : Type} (n k : nat) (l : list A) :
  length (chunk_n n k l) = n.
Proof.
  revert l. induction n as [|n IH]; intros l; simpl; [reflexivity|].
  now rewrite IH.
Qed.

Lemma chunk_n_Forall {A : Type} (n k : nat) (l : list A) :
  (n * k <= length l)%nat ->
  Forall (fun ch => length ch = k) (chunk_n n k l).
Proof.
  revert l. induction n as [|n IH]; intros l H; simpl; constructor.
  - rewrite length_firstn. simpl in H. lia.
  - apply IH. rewrite length_skipn. simpl in H. lia.
Qed.

Lemma fill_length (init : Initializer) (s : list nat) :
  length (fill init s) = prod_dims s.
Proof. unfold fill. now rewrite length_map, length_seq. Qed.

Lemma has_shape_Mat_chunk (r c : nat) (l : list R) :
  (r * c <= length l)%nat -> has_shape [r; c] (Mat (chunk_n r c l)) = true.
Proof.
  intros H. simpl. rewrite chunk_n_length, Nat.eqb_refl. simpl.
  apply forallb_forall. intros v Hv.
  pose proof (chunk_n_Forall r c l H) as HF. rewrite Forall_forall in HF.
  apply Nat.eqb_eq. now apply HF.
Qed.

Lemma has_shape_build_shape3 (a r c : nat) (l : list R) :
  (a * (r * c) <= length l)%nat ->
  has_shape [a; r; c] (build_shape [a; r; c] l) = true.
Proof.
  intros H. cbn [build_shape has_shape].
  rewrite length_map, chunk_n_length, Nat.eqb_refl. cbn [andb].
  rewrite forallb_map_comp. apply forallb_forall. intros ch Hch.
  assert (Hp : prod_dims [r; c] = (r * c)%nat) by (simpl; lia).
  rewrite Hp in Hch.
  pose proof (chunk_n_Forall a (r * c) l H) as HF.
  rewrite Forall_forall in HF. apply HF in Hch.
  apply has_shape_Mat_chunk. lia.
Qed.

Lemma add_weight_shape (glorot_uniform : Initializer) (a r c : nat)
  (init : option Initializer) :
  has_shape [a; r; c] (data (add_weight glorot_uniform [a; r; c] init)) = true.
Proof.
  unfold add_weight. cbn [data]. apply has_shape_build_shape3.
  rewrite fill_length. simpl. lia.
Qed.

(** ** Graph_ViT.build *)

Lemma Graph_ViT_build_Ok (glorot_uniform : Initializer) p kd nh pe nl act ln
  (self : Graph_ViT) (b n c : nat) :
  Graph_ViT_init p kd nh pe nl act ln = Ok self ->
  (Z.of_nat n mod embed_filter_size self = 0)%Z ->
  Graph_ViT_build glorot_uniform self [b; n; c]
  = Ok (mkGraph_ViT p (int_four_pow p) kd nh (kd * nh) pe nl act ln
          (mkConv1D (kd * nh) (int_four_pow p) (int_four_pow p)
             (Some (init_kernel3 glorot_uniform (Z.to_nat (int_four_pow p)) c
                      (Z.to_nat (kd * nh)),
                    init_vector zeros (Z.to_nat (kd * nh)))))
          (if pe
           then Some (mkAddPositionEmbs None
                        (Some (add_weight glorot_uniform [1%nat; n; c] None)))
           else None)
          (repeat (new_MultiHeadAttention (kd * nh) nh ln act) (Z.to_nat nl))).
Proof.
  intros Hi Hm. apply Graph_ViT_init_inv in Hi.
  destruct Hi as (Hp & _ & _ & ->).
  pose proof (int_four_pow_pos p Hp) as Hpos.
  unfold Graph_ViT_build, new_Graph_ViT in *.
  cbn [embed_filter_size embed positional_encoding pos_encoder vit_p key_dim
       num_heads embedding_size n_layers activation layer_norm mha_layers] in *.
  cbn [py_index nth_error bind]. unfold py_mod.
  destruct (int_four_pow p =? 0)%Z eqn:Hz; [apply Z.eqb_eq in Hz; lia|].
  cbn [bind]. rewrite Hm. cbn [Z.eqb guard bind].
  unfold Conv1D_build. cbn [length Nat.eqb guard bind last Conv1D_init
                            filters kernel_size strides].
  destruct pe; reflexivity.
Qed.

Lemma Graph_ViT_build_Raise (glorot_uniform : Initializer) p kd nh pe nl act
  ln (self : Graph_ViT) (b n c : nat) :
  Graph_ViT_init p kd nh pe nl act ln = Ok self ->
  (Z.of_nat n mod embed_filter_size self <> 0)%Z ->
  Graph_ViT_build glorot_uniform self [b; n; c]
  = Raise (IOError
             "Input shape not compatible with the embedding filter size").
Proof.
  intros Hi Hm. apply Graph_ViT_init_inv in Hi.
  destruct Hi as (Hp & _ & _ & ->).
  pose proof (int_four_pow_pos p Hp) as Hpos.
  unfold Graph_ViT_build, new_Graph_ViT in *.
  cbn [embed_filter_size] in *.
  cbn [py_index nth_error bind]. unfold py_mod.
  destruct (int_four_pow p =? 0)%Z eqn:Hz; [apply Z.eqb_eq in Hz; lia|].
  cbn [bind]. apply Z.eqb_neq in Hm. rewrite Hm. reflexivity.
Qed.

(** C3, on the code. [build] hands the positional encoder the shape of the
    raw input, so the parameter of a layer built on (batch, n_nodes,
    channels) has shape (1, n_nodes, channels). *)
Theorem Graph_ViT_build_pos_embedding_shape (glorot_uniform : Initializer)
  p kd nh nl act ln (self self' : Graph_ViT) (b n c : nat) :
  Graph_ViT_init p kd nh true nl act ln = Ok self ->
  Graph_ViT_build glorot_uniform self [b; n; c] = Ok self' ->
  exists pe w, pos_encoder self' = Some pe /\ pos_embedding pe = Some w /\
               has_shape [1%nat; n; c] (data w) = true.
Proof.
  intros Hi Hb.
  destruct (Z.eq_dec (Z.of_nat n mod embed_filter_size self) 0) as [Hm|Hm].
  - rewrite (Graph_ViT_build_Ok _ _ _ _ _ _ _ _ _ _ _ _ Hi Hm) in Hb.
    injection Hb as <-. cbn [pos_encoder].
    eexists. eexists. split; [reflexivity|]. split; [reflexivity|].
    apply add_weight_shape.
  - rewrite (Graph_ViT_build_Raise _ _ _ _ _ _ _ _ _ _ _ _ Hi Hm) in Hb.
    discriminate.
Qed.

(** At the input shape (2, 256, 3) with [p=2], [key_dim=8], [num_heads=2]
    the parameter has shape (1, 256, 3) and not the shape (1, 16, 16) of
    the embedded patches. *)
Lemma Graph_ViT_build_pos_embedding_shape_witness :
  exists self self' pe w,
    Graph_ViT_init (PyInt 2) 8 2 true 1 relu true = Ok self /\
    Graph_ViT_build zeros self [2; 256; 3]%nat = Ok self' /\
    pos_encoder self' = Some pe /\ pos_embedding pe = Some w /\
    has_shape [1; 256; 3]%nat (data w) = true /\
    has_shape [1; 16; 16]%nat (data w) = false.
Proof.
  assert (Hi : Graph_ViT_init (PyInt 2) 8 2 true 1 relu true
               = Ok (new_Graph_ViT (PyInt 2) 8 2 true 1 relu true)).
  { apply Graph_ViT_init_Ok; [unfold py_gt_1; simpl; lra | lia | lia]. }
  pose proof (Graph_ViT_build_Ok zeros _ _ _ _ _ _ _ _ 2 256 3 Hi eq_refl)
    as Hb.
  destruct (Graph_ViT_build_pos_embedding_shape zeros _ _ _ _ _ _ _ _ _ _ _
              Hi Hb) as (pe & w & Hpe & Hw & Hs).
  eexists. eexists. exists pe, w.
  split; [exact Hi|]. split; [exact Hb|]. split; [exact Hpe|].
  split; [exact Hw|]. split; [exact Hs|].
  cbn [pos_encoder] in Hpe. injection Hpe as <-.
  cbn [pos_embedding] in Hw. injection Hw as <-.
  vm_compute. reflexivity.
Defined.

(** ** The patch embedding *)

Lemma vadd_length (u v : vector) (f : nat) :
  length u = f -> length v = f -> length (vadd u v) = f.
Proof.
  revert v f. unfold vadd.
  induction u as [|x u IH]; intros [|y v] f Hu Hv; simpl in *; try lia.
  destruct f; [discriminate|]. f_equal. apply IH; lia.
Qed.

Lemma axpy_rows_length (row : vector) (w : matrix) (acc : vector) (f : nat) :
  length acc = f -> Forall (fun wr => length wr = f) w ->
  length (axpy_rows row w acc) = f.
Proof.
  revert w acc. induction row as [|x row IH]; intros [|wr w] acc Ha Hw;
    simpl; auto.
  apply IH.
  - apply vadd_length; [assumption|]. rewrite length_map.
    now apply Forall_inv in Hw.
  - now apply Forall_inv_tail in Hw.
Qed.

Lemma conv_window_length (window : matrix) (kernel : list matrix)
  (acc : vector) (f : nat) :
  length acc = f ->
  Forall (Forall (fun wr => length wr = f)) kernel ->
  length (conv_window window kernel acc) = f.
Proof.
  revert kernel acc. induction window as [|row window IH];
    intros [|kj kernel] acc Ha Hk; simpl; auto.
  apply IH.
  - apply axpy_rows_length; [assumption|]. now apply Forall_inv in Hk.
  - now apply Forall_inv_tail in Hk.
Qed.

Lemma init_kernel3_spec (init : Initializer) (k c f : nat) :
  length (init_kernel3 init k c f) = k /\
  Forall (fun kj => length kj = c /\ Forall (fun wr => length wr = f) kj)
         (init_kernel3 init k c f).
Proof.
  unfold init_kernel3. split.
  - now rewrite length_map, chunk_n_length.
  - apply Forall_map.
    assert (H : (k * (c * f) <= length (fill init [k; c; f]))%nat).
    { rewrite fill_length. simpl. lia. }
    apply chunk_n_Forall in H. revert H. apply Forall_impl.
    intros ch Hch. split.
    + apply chunk_n_length.
    + apply chunk_n_Forall. lia.
Qed.

Lemma conv_out_len_exact (n k : nat) :
  (0 < k)%nat -> (n mod k = 0)%nat -> conv_out_len n k k = (n / k)%nat.
Proof.
  intros Hk Hm. unfold conv_out_len.
  apply Nat.Div0.div_exact in Hm.
  destruct (Nat.ltb n k) eqn:Hlt.
  - apply Nat.ltb_lt in Hlt. symmetry. now apply Nat.div_small.
  - apply Nat.ltb_ge in Hlt.
    remember (n / k)%nat as q. destruct q as [|q]; [lia|].
    f_equal. replace (n - k)%nat with (q * k)%nat by lia.
    apply Nat.div_mul. lia.
Qed.

Lemma conv1d_mat_shape (k f : nat) (kernel : list matrix) (bias : vector)
  (m : matrix) :
  (0 < k)%nat -> (length m mod k = 0)%nat ->
  length bias = f ->
  Forall (Forall (fun wr => length wr = f)) kernel ->
  has_shape [(length m / k)%nat; f] (Mat (conv1d_mat k k kernel bias m)) = true.
Proof.
  intros Hk Hm Hb Hker. unfold conv1d_mat. cbn [has_shape].
  rewrite length_map, length_seq, conv_out_len_exact, Nat.eqb_refl by assumption.
  cbn [andb]. rewrite forallb_map_comp. apply forallb_forall. intros i _.
  apply Nat.eqb_eq. now apply conv_window_length.
Qed.

Lemma init_vector_length (init : Initializer) (n : nat) :
  length (init_vector init n) = n.
Proof. unfold init_vector. rewrite fill_length. simpl. lia. Qed.

Lemma Conv1D_call_patches (glorot_uniform : Initializer) (fl ks : Z)
  (x : Tensor) (b n c : nat) :
  (0 < ks)%Z -> (Z.of_nat n mod ks = 0)%Z ->
  has_shape [b; n; c] (data x) = true ->
  exists y e',
    Conv1D_call glorot_uniform
      (mkConv1D fl ks ks
         (Some (init_kernel3 glorot_uniform (Z.to_nat ks) c (Z.to_nat fl),
                init_vector zeros (Z.to_nat fl)))) x = Ok (y, e') /\
    has_shape [b; (n / Z.to_nat ks)%nat; Z.to_nat fl] (data y) = true.
Proof.
  intros Hks Hm Hx.
  apply has_shape_rank3_inv in Hx. destruct Hx as (ms & Ex & Hl & Hms).
  destruct (init_kernel3_spec glorot_uniform (Z.to_nat ks) c (Z.to_nat fl))
    as [Hkl Hkf].
  set (kernel := init_kernel3 glorot_uniform (Z.to_nat ks) c (Z.to_nat fl))
    in *.
  assert (Hk0 : (0 < Z.to_nat ks)%nat) by lia.
  assert (Hnm : (n mod Z.to_nat ks = 0)%nat).
  { apply Nat2Z.inj. rewrite Nat2Z.inj_mod, Z2Nat.id by lia. exact Hm. }
  assert (Hhd : length (hd [] kernel) = c).
  { destruct kernel as [|kj kernel']; [simpl in Hkl; lia|].
    apply Forall_inv in Hkf. simpl. tauto. }
  unfold Conv1D_call. cbn [keras_autocast tf_cast data dtype].
  rewrite Ex.
  assert (Hr : is_rank3 (Batch (map Mat ms)) = true).
  { cbn [is_rank3]. rewrite forallb_map_comp. now apply forallb_forall. }
  rewrite Hr. cbn [guard bind conv_weights].
  assert (Hld : last_dim_is (length (hd [] kernel)) (Batch (map Mat ms)) = true).
  { rewrite Hhd. cbn [last_dim_is]. rewrite forallb_map_comp.
    apply forallb_forall. intros m Hin. rewrite Forall_forall in Hms.
    apply Hms in Hin. cbn [has_shape last_dim_is] in Hin |- *.
    apply andb_prop in Hin. tauto. }
  rewrite Hld. cbn [guard bind].
  eexists. eexists. split; [reflexivity|].
  cbn [data tmap has_shape kernel_size strides].
  rewrite !length_map, Hl, Nat.eqb_refl. cbn [andb].
  rewrite !forallb_map_comp. apply forallb_forall. intros m Hin.
  rewrite Forall_forall in Hms. apply Hms in Hin.
  cbn [has_shape] in Hin. apply andb_prop in Hin. destruct Hin as [Hlen _].
  apply Nat.eqb_eq in Hlen. cbn [tmap]. subst n.
  apply conv1d_mat_shape; auto using init_vector_length.
  revert Hkf. apply Forall_impl. tauto.
Qed.



(** ** Shaped tensors, by induction on the leading dimensions *)

Lemma has_shape_nil_inv (n d : nat) (t : tdata) :
  has_shape [n; d] t = true ->
  exists m, t = Mat m /\ length m = n /\ Forall (fun r => length r = d) m.
Proof.
  destruct t as [m|ts]; cbn [has_shape]; [|discriminate].
  intros H. apply andb_prop in H. destruct H as [H1 H2].
  apply Nat.eqb_eq in H1. exists m. repeat split; auto.
  apply Forall_forall. intros r Hr. rewrite forallb_forall in H2.
  apply Nat.eqb_eq. auto.
Qed.

Lemma has_shape_Batch (a : nat) (s : list nat) (ts : list tdata) :
  (2 <= length s)%nat ->
  has_shape (a :: s) (Batch ts)
  = Nat.eqb (length ts) a && forallb (has_shape s) ts.
Proof.
  destruct s as [|x [|y s']]; simpl; intros H; solve [lia | reflexivity].
Qed.

Lemma has_shape_Mat_lead (a : nat) (s : list nat) (m : matrix) :
  (2 <= length s)%nat -> has_shape (a :: s) (Mat m) = false.
Proof.
  destruct s as [|x [|y s']]; simpl; intros H; solve [lia | reflexivity].
Qed.

Lemma length_lead (lead : list nat) (n d : nat) :
  (2 <= length (lead ++ [n; d]))%nat.
Proof. rewrite length_app. simpl. lia. Qed.

Lemma has_shape_cons_inv (a : nat) (lead : list nat) (n d : nat) (t : tdata) :
  has_shape (a :: lead ++ [n; d]) t = true ->
  exists ts, t = Batch ts /\ length ts = a /\
             Forall (fun t' => has_shape (lead ++ [n; d]) t' = true) ts.
Proof.
  destruct t as [m|ts].
  - rewrite has_shape_Mat_lead by apply length_lead. discriminate.
  - rewrite has_shape_Batch by apply length_lead.
    intros H'. exists ts.
    apply andb_prop in H'. destruct H' as [H1 H2].
    apply Nat.eqb_eq in H1. repeat split; auto.
    apply Forall_forall. intros t' Ht'. rewrite forallb_forall in H2. auto.
Qed.

Lemma has_shape_nil_intro (n d : nat) (m : matrix) :
  length m = n -> Forall (fun r => length r = d) m ->
  has_shape [n; d] (Mat m) = true.
Proof.
  intros H1 H2. cbn [has_shape]. rewrite H1, Nat.eqb_refl. cbn [andb].
  apply forallb_forall. intros r Hr. rewrite Forall_forall in H2.
  apply Nat.eqb_eq. auto.
Qed.

Lemma has_shape_cons_intro (a : nat) (lead : list nat) (n d : nat)
  (ts : list tdata) :
  length ts = a ->
  Forall (fun t' => has_shape (lead ++ [n; d]) t' = true) ts ->
  has_shape (a :: lead ++ [n; d]) (Batch ts) = true.
Proof.
  intros H1 H2. rewrite has_shape_Batch by apply length_lead.
  rewrite H1, Nat.eqb_refl. cbn [andb]. apply forallb_forall.
  rewrite Forall_forall in H2. exact H2.
Qed.

Section Shaped.

Variables n1 d1 n2 d2 : nat.

Lemma shaped1_ind (P : list nat -> tdata -> Prop) :
  (forall x, has_shape [n1; d1] (Mat x) = true -> P [] (Mat x)) ->
  (forall a lead xs, length xs = a -> Forall (P lead) xs ->
                     P (a :: lead) (Batch xs)) ->
  forall lead t, has_shape (lead ++ [n1; d1]) t = true -> P lead t.
Proof.
  intros HM HB. induction lead as [|a lead IH]; intros t Ht.
  - cbn [app] in Ht. pose proof Ht as Ht'.
    apply has_shape_nil_inv in Ht'. destruct Ht' as (m & -> & _). now apply HM.
  - cbn [app] in Ht. apply has_shape_cons_inv in Ht.
    destruct Ht as (ts & -> & Hl & Hts). apply HB; [assumption|].
    revert Hts. apply Forall_impl. exact (IH).
Qed.

Lemma shaped2_ind (P : list nat -> tdata -> tdata -> Prop) :
  (forall x y, has_shape [n1; d1] (Mat x) = true ->
               has_shape [n2; d2] (Mat y) = true -> P [] (Mat x) (Mat y)) ->
  (forall a lead xs ys, length xs = a -> length ys = a ->
                        Forall2 (P lead) xs ys ->
                        P (a :: lead) (Batch xs) (Batch ys)) ->
  forall lead q k, has_shape (lead ++ [n1; d1]) q = true ->
                   has_shape (lead ++ [n2; d2]) k = true -> P lead q k.
Proof.
  intros HM HB. induction lead as [|a lead IH]; intros q k Hq Hk.
  - cbn [app] in Hq, Hk. pose proof Hq as Hq'. pose proof Hk as Hk'.
    apply has_shape_nil_inv in Hq'. destruct Hq' as (x & -> & _).
    apply has_shape_nil_inv in Hk'. destruct Hk' as (y & -> & _).
    now apply HM.
  - cbn [app] in Hq, Hk.
    apply has_shape_cons_inv in Hq. destruct Hq as (xs & -> & Hlx & Hxs).
    apply has_shape_cons_inv in Hk. destruct Hk as (ys & -> & Hly & Hys).
    apply HB; [assumption | assumption |].
    clear HB. subst a. revert ys Hly Hys.
    induction Hxs as [|x xs Hx Hxs IHx]; intros [|y ys] Hly Hys;
      try discriminate; constructor.
    + apply IH; [assumption | now apply Forall_inv in Hys].
    + apply IHx; [now injection Hly | now apply Forall_inv_tail in Hys].
Qed.

Lemma tall2_shaped (ok : matrix -> matrix -> bool) :
  (forall x y, has_shape [n1; d1] (Mat x) = true ->
               has_shape [n2; d2] (Mat y) = true -> ok x y = true) ->
  forall lead q k, has_shape (lead ++ [n1; d1]) q = true ->
                   has_shape (lead ++ [n2; d2]) k = true ->
                   tall2 ok q k = true.
Proof.
  intros Hok. apply (shaped2_ind (fun _ q k => tall2 ok q k = true)).
  - intros x y Hx Hy. cbn [tall2]. now apply Hok.
  - intros a lead xs ys _ _ H. cbn [tall2].
    induction H as [|x y xs ys Hxy _ IH]; [reflexivity|].
    now rewrite Hxy, IH.
Qed.

Lemma tzip_ext_shaped (f g : matrix -> matrix -> matrix) :
  (forall x y, has_shape [n1; d1] (Mat x) = true ->
               has_shape [n2; d2] (Mat y) = true -> f x y = g x y) ->
  forall lead q k, has_shape (lead ++ [n1; d1]) q = true ->
                   has_shape (lead ++ [n2; d2]) k = true ->
                   tzip f q k = tzip g q k.
Proof.
  intros Hfg. apply (shaped2_ind (fun _ q k => tzip f q k = tzip g q k)).
  - intros x y Hx Hy. cbn [tzip]. f_equal. now apply Hfg.
  - intros a lead xs ys _ _ H. cbn [tzip]. f_equal.
    induction H as [|x y xs ys Hxy _ IH]; [reflexivity|].
    now rewrite Hxy, IH.
Qed.

Lemma tzip_shaped (f : matrix -> matrix -> matrix) (n3 d3 : nat) :
  (forall x y, has_shape [n1; d1] (Mat x) = true ->
               has_shape [n2; d2] (Mat y) = true ->
               has_shape [n3; d3] (Mat (f x y)) = true) ->
  forall lead q k, has_shape (lead ++ [n1; d1]) q = true ->
                   has_shape (lead ++ [n2; d2]) k = true ->
                   has_shape (lead ++ [n3; d3]) (tzip f q k) = true.
Proof.
  intros Hf.
  apply (shaped2_ind
           (fun lead q k => has_shape (lead ++ [n3; d3]) (tzip f q k) = true)).
  - intros x y Hx Hy. cbn [tzip app]. now apply Hf.
  - intros a lead xs ys Hlx Hly H. cbn [tzip app].
    apply has_shape_cons_intro.
    + subst a. clear Hly.
      induction H as [|x y xs ys _ _ IH]; [reflexivity|].
      simpl. now rewrite IH.
    + clear Hlx Hly.
      induction H as [|x y xs ys Hxy _ IH]; constructor; assumption.
Qed.

Lemma tmap_shaped (f : matrix -> matrix) (n3 d3 : nat) :
  (forall x, has_shape [n1; d1] (Mat x) = true ->
             has_shape [n3; d3] (Mat (f x)) = true) ->
  forall lead t, has_shape (lead ++ [n1; d1]) t = true ->
                 has_shape (lead ++ [n3; d3]) (tmap f t) = true.
Proof.
  intros Hf.
  apply (shaped1_ind
           (fun lead t => has_shape (lead ++ [n3; d3]) (tmap f t) = true)).
  - intros x Hx. cbn [tmap app]. now apply Hf.
  - intros a lead xs Hl H. cbn [tmap app].
    apply has_shape_cons_intro.
    + now rewrite length_map.
    + apply Forall_map. exact H.
Qed.



End Shaped.

(** ** Matrices of a given shape *)

Lemma map_nth_seq_id {A : Type} (d0 : A) (l : list A) :
  map (fun j => nth j l d0) (seq 0 (length l)) = l.
Proof.
  apply (nth_ext _ _ d0 d0).
  - now rewrite length_map, length_seq.
  - intros i Hi. rewrite length_map, length_seq in Hi.
    rewrite (nth_indep _ d0 (nth 0 l d0)) by now rewrite length_map, length_seq.
    rewrite (map_nth (fun j => nth j l d0) (seq 0 (length l)) 0%nat i).
    now rewrite seq_nth.
Qed.

Lemma Mat_shape_inv (n d : nat) (x : matrix) :
  has_shape [n; d] (Mat x) = true ->
  length x = n /\ Forall (fun r => length r = d) x.
Proof.
  intros H. apply has_shape_nil_inv in H. destruct H as (m & E & H1 & H2).
  injection E as <-. auto.
Qed.

Lemma mat_transpose_involutive (m d : nat) (y : matrix) :
  (0 < d)%nat -> has_shape [m; d] (Mat y) = true ->
  mat_transpose (mat_transpose y) = y.
Proof.
  intros Hd Hy. apply Mat_shape_inv in Hy. destruct Hy as [Hl Hr].
  destruct y as [|r0 y'] eqn:Ey; [reflexivity|]. rewrite <- Ey in *.
  assert (Hw : width y = d).
  { subst y. apply Forall_inv in Hr. exact Hr. }
  assert (Hwt : width (mat_transpose y) = length y).
  { unfold mat_transpose at 1. rewrite Hw. unfold width.
    destruct d as [|d']; [lia|]. simpl. now rewrite length_map. }
  unfold mat_transpose at 1. rewrite Hwt.
  transitivity (map (fun i => nth i y []) (seq 0 (length y)));
    [|apply map_nth_seq_id].
  apply map_ext_in. intros i Hi. apply in_seq in Hi.
  unfold mat_transpose. rewrite Hw, map_map.
  assert (Hri : length (nth i y []) = d).
  { rewrite Forall_forall in Hr. apply Hr. apply nth_In. lia. }
  transitivity (map (fun j => nth j (nth i y []) 0)
                    (seq 0 (length (nth i y []))));
    [|apply map_nth_seq_id].
  rewrite Hri. apply map_ext. intros j.
  rewrite (nth_indep _ 0 ((fun row : list R => nth j row 0) []))
    by (rewrite length_map; lia).
  now rewrite (map_nth (fun row : list R => nth j row 0)).
Qed.

Lemma rectangular_shaped (n d : nat) (x : matrix) :
  has_shape [n; d] (Mat x) = true ->
  rectangular x = true /\ (x = [] \/ width x = d).
Proof.
  intros H. apply Mat_shape_inv in H. destruct H as [_ Hr].
  destruct x as [|r x'].
  - split; [reflexivity | now left].
  - assert (Hw : width (r :: x') = d) by (now apply Forall_inv in Hr).
    split; [|now right]. unfold rectangular. rewrite Hw.
    apply forallb_forall. intros r' Hin. rewrite Forall_forall in Hr.
    apply Nat.eqb_eq. now apply Hr.
Qed.

Lemma matmul_ok_tb_shaped (n m d : nat) (x y : matrix) :
  has_shape [n; d] (Mat x) = true -> has_shape [m; d] (Mat y) = true ->
  matmul_ok true x y = true.
Proof.
  intros Hx Hy. unfold matmul_ok.
  destruct (rectangular_shaped _ _ _ Hx) as [-> Hwx].
  destruct (rectangular_shaped _ _ _ Hy) as [-> Hwy]. cbn [andb].
  destruct Hwx as [->|Hwx]; [reflexivity|].
  destruct Hwy as [->|Hwy]; [now rewrite orb_true_r|].
  now rewrite Hwx, Hwy, Nat.eqb_refl, !orb_true_r.
Qed.

Lemma matmul_ok_shaped (n m dv : nat) (w v : matrix) :
  has_shape [n; m] (Mat w) = true -> has_shape [m; dv] (Mat v) = true ->
  matmul_ok false w v = true.
Proof.
  intros Hw Hv. unfold matmul_ok.
  destruct (rectangular_shaped _ _ _ Hw) as [-> Hww].
  destruct (rectangular_shaped _ _ _ Hv) as [-> _]. cbn [andb].
  destruct Hww as [->|Hww]; [reflexivity|].
  apply Mat_shape_inv in Hv. destruct Hv as [Hl _].
  now rewrite Hww, Hl, Nat.eqb_refl, orb_true_r.
Qed.

Lemma mat_mul_tb_shaped (n m d d' : nat) (x y : matrix) :
  has_shape [n; d] (Mat x) = true -> has_shape [m; d'] (Mat y) = true ->
  has_shape [n; m] (Mat (mat_mul_tb x y)) = true.
Proof.
  intros Hx Hy. apply Mat_shape_inv in Hx, Hy.
  destruct Hx as [Hlx _]. destruct Hy as [Hly _].
  apply has_shape_nil_intro.
  - unfold mat_mul_tb. now rewrite length_map.
  - unfold mat_mul_tb. apply Forall_map, Forall_forall. intros r _.
    now rewrite length_map.
Qed.

Lemma mat_map_shaped (f : R -> R) (n d : nat) (x : matrix) :
  has_shape [n; d] (Mat x) = true ->
  has_shape [n; d] (Mat (mat_map f x)) = true.
Proof.
  intros Hx. apply Mat_shape_inv in Hx. destruct Hx as [Hl Hr].
  apply has_shape_nil_intro.
  - unfold mat_map. now rewrite length_map.
  - unfold mat_map. apply Forall_map. revert Hr. apply Forall_impl.
    intros r Hr. now rewrite length_map.
Qed.

Lemma softmax_shaped (n d : nat) (x : matrix) :
  has_shape [n; d] (Mat x) = true ->
  has_shape [n; d] (Mat (map softmax_row x)) = true.
Proof.
  intros Hx. apply Mat_shape_inv in Hx. destruct Hx as [Hl Hr].
  apply has_shape_nil_intro.
  - now rewrite length_map.
  - apply Forall_map. revert Hr. apply Forall_impl.
    intros r Hr. unfold softmax_row. now rewrite length_map.
Qed.

Lemma mat_mul_transpose (n m d : nat) (x y : matrix) :
  (0 < d)%nat ->
  has_shape [n; d] (Mat x) = true -> has_shape [m; d] (Mat y) = true ->
  mat_mul x (mat_transpose y) = mat_mul_tb x y.
Proof.
  intros Hd _ Hy. unfold mat_mul.
  now rewrite (mat_transpose_involutive m d).
Qed.

(** ** softmax *)




(** ** scaled_dot_product_attention *)

Lemma attention_logits_code (lead : list nat) (n m d : nat) (q k : tdata) :
  (0 < d)%nat ->
  has_shape (lead ++ [n; d]) q = true ->
  has_shape (lead ++ [m; d]) k = true ->
  tmap (mat_map (fun x => x / sqrt (INR (last (shape k) 0%nat))))
       (tzip mat_mul_tb q k)
  = attention_logits_spec q k /\
  has_shape (lead ++ [n; m]) (attention_logits_spec q k) = true.
Proof.
  intros Hd Hq Hk.
  assert (E : tzip mat_mul_tb q k
              = tzip (fun x y => mat_mul x (mat_transpose y)) q k).
  { apply (tzip_ext_shaped n d m d) with (lead := lead); auto.
    intros x y Hx Hy. symmetry. now apply (mat_mul_transpose n m d). }
  unfold attention_logits_spec. rewrite <- E. split; [reflexivity|].
  apply (tmap_shaped n m _ n m).
  - intros x Hx. now apply mat_map_shaped.
  - apply (tzip_shaped n d m d _ n m); auto.
    intros x y Hx Hy. now apply (mat_mul_tb_shaped n m d d).
Qed.

(** C4, amended. For [float32] tensors [Q], [K], [V] of shapes
    (..., seq_q, depth), (..., seq_k, depth), (..., seq_k, depth_v) with the
    same leading dimensions, and for no mask or a [float32] mask that
    broadcasts to (..., seq_q, seq_k), the function returns the pair
    (output, attention_weights) with attention_weights the softmax over the
    last axis of [Q K^T / sqrt(depth) + mask * -1e9] (no mask term without
    a mask) and output the product of attention_weights and [V]. The
    function is a pure function of its arguments. *)
Theorem scaled_dot_product_attention_formula (lead : list nat)
  (n m d dv : nat) (q k v : Tensor) (mask : option Tensor) :
  (0 < d)%nat ->
  dtype q = float32 -> dtype k = float32 -> dtype v = float32 ->
  has_shape (lead ++ [n; d]) (data q) = true ->
  has_shape (lead ++ [m; d]) (data k) = true ->
  has_shape (lead ++ [m; dv]) (data v) = true ->
  mask_ok (lead ++ [n; m]) (attention_logits_spec (data q) (data k)) mask
  = true ->
  exists out w,
    scaled_dot_product_attention q k v mask = Ok (out, w) /\
    data w = attention_weights_spec (data q) (data k) (option_map data mask) /\
    data out = attention_output_spec (data w) (data v) /\
    dtype w = float32 /\ dtype out = float32.
Proof.
  intros Hd Dq Dk Dv Hq Hk Hv Hmask.
  destruct (attention_logits_code lead n m d _ _ Hd Hq Hk) as [EL SL].
  unfold scaled_dot_product_attention, tf_matmul at 1.
  rewrite Dq, Dk. cbn [DType_eqb guard bind].
  rewrite (tall2_shaped n d m d (matmul_ok true)
             (matmul_ok_tb_shaped n m d) lead _ _ Hq Hk).
  cbn [guard bind]. unfold tf_truediv, tf_sqrt, tf_last_dim.
  cbn [dtype data sdtype sval DType_eqb guard bind].
  assert (ELs : tmap (mat_map (fun x =>
                   x / sqrt (INR (last (shape (data k)) 0%nat))))
                  (tzip mat_mul_tb (data q) (data k))
                = attention_logits_spec (data q) (data k)) by exact EL.
  rewrite ELs. clear ELs EL.
  set (L := attention_logits_spec (data q) (data k)) in *.
  assert (Hfin : forall L' : tdata,
             has_shape (lead ++ [n; m]) L' = true ->
             exists out w,
               (let attention_weights := tf_softmax (mkTensor float32 L') in
                output <- tf_matmul attention_weights v false ;;
                Ok (output, attention_weights)) = Ok (out, w) /\
               data w = tmap (map softmax_row) L' /\
               data out = attention_output_spec (data w) (data v) /\
               dtype w = float32 /\ dtype out = float32).
  { intros L' HL'. cbn zeta. unfold tf_matmul, tf_softmax.
    cbn [dtype data]. rewrite Dv. cbn [DType_eqb guard bind].
    assert (HW : has_shape (lead ++ [n; m]) (tmap (map softmax_row) L')
                 = true).
    { apply (tmap_shaped n m _ n m); [|assumption].
      intros x Hx. now apply softmax_shaped. }
    rewrite (tall2_shaped n m m dv (matmul_ok false)
               (matmul_ok_shaped n m dv) lead _ _ HW Hv).
    cbn [guard bind]. eexists. eexists.
    split; [reflexivity|]. cbn [data dtype]. repeat split; reflexivity. }
  destruct mask as [mk|]; cbn [mask_ok option_map] in *.
  - apply andb_prop in Hmask. destruct Hmask as [Hmask HS].
    apply andb_prop in Hmask. destruct Hmask as [HD HB].
    apply DType_eqb_eq in HD.
    unfold tf_add, tf_mul_const. cbn [dtype data]. rewrite HD.
    cbn [DType_eqb guard bind]. rewrite HB. cbn [guard bind].
    destruct (Hfin _ HS) as (out & w & E & Hw & Ho & D1 & D2).
    exists out, w. cbn zeta in E. rewrite E.
    unfold attention_weights_spec, masked_logits_spec. fold L. auto.
  - cbn [bind].
    destruct (Hfin _ SL) as (out & w & E & Hw & Ho & D1 & D2).
    exists out, w. cbn zeta in E. rewrite E.
    unfold attention_weights_spec, masked_logits_spec. fold L. auto.
Qed.

Lemma scaled_dot_product_attention_formula_witness :
  exists out w,
    scaled_dot_product_attention example_q example_k example_v
      (Some example_mask) = Ok (out, w) /\
    data w = attention_weights_spec (data example_q) (data example_k)
               (Some (data example_mask)) /\
    data out = attention_output_spec (data w) (data example_v).
Proof.
  assert (Hd : (0 < 2)%nat) by lia.
  assert (Hm : mask_ok ([] ++ [2; 2]%nat)
                 (attention_logits_spec (data example_q) (data example_k))
                 (Some example_mask) = true) by (vm_compute; reflexivity).
  destruct (scaled_dot_product_attention_formula [] 2 2 2 2
              example_q example_k example_v (Some example_mask)
              Hd eq_refl eq_refl eq_refl eq_refl eq_refl eq_refl Hm)
    as (out & w & E & Hw & Ho & _).
  exists out, w. auto.
Defined.

(** C4 as stated fails on tensors that are not [float32]: the scale is
    cast to [tf.float32], and the division of a [float64] product by it
    raises. *)
Lemma scaled_dot_product_attention_float64_raises :
  scaled_dot_product_attention
    (mkTensor float64 (Mat [[1; 0]; [0; 1]]))
    (mkTensor float64 (Mat [[1; 2]; [3; 4]]))
    (mkTensor float64 (Mat [[5; 6]; [7; 8]])) None
  = Raise InvalidArgumentError.
Proof. reflexivity. Qed.



(** * Further properties of the layers *)

(** ** Sums of tensors of the same shape *)

Lemma bcast2_zipwith {A B : Type} (f : A -> A -> B) (xs ys : list A) :
  length xs = length ys -> bcast2 f xs ys = zipwith f xs ys.
Proof.
  destruct xs as [|x [|x' xs']]; destruct ys as [|y [|y' ys']];
    simpl; intros H; try discriminate; reflexivity.
Qed.

Lemma zipwith_ext_in {A B C : Type} (f g : A -> B -> C) (a : list A)
  (b : list B) :
  (forall u v, In u a -> In v b -> f u v = g u v) ->
  zipwith f a b = zipwith g a b.
Proof.
  revert b. induction a as [|x a IH]; intros [|y b] H; simpl; auto.
  rewrite H by (simpl; auto). f_equal. apply IH. intros u v Hu Hv.
  apply H; simpl; auto.
Qed.

Lemma zipwith_length {A B C : Type} (f : A -> B -> C) (a : list A)
  (b : list B) :
  length a = length b -> length (zipwith f a b) = length a.
Proof.
  revert b. induction a as [|x a IH]; intros [|y b] H; simpl in *;
    try discriminate; auto.
Qed.

Lemma mat_bc_add_same_shape (s c : nat) (a b : matrix) :
  has_shape [s; c] (Mat a) = true -> has_shape [s; c] (Mat b) = true ->
  mat_bc_add a b = mat_add a b.
Proof.
  intros Ha Hb. apply Mat_shape_inv in Ha, Hb.
  destruct Ha as [Hla Hra]. destruct Hb as [Hlb Hrb].
  unfold mat_bc_add, mat_add. rewrite bcast2_zipwith by congruence.
  apply zipwith_ext_in. intros u v Hu Hv.
  rewrite Forall_forall in Hra, Hrb.
  apply bcast2_zipwith. rewrite (Hra u Hu), (Hrb v Hv). reflexivity.
Qed.

Lemma mat_add_shaped (s c : nat) (a b : matrix) :
  has_shape [s; c] (Mat a) = true -> has_shape [s; c] (Mat b) = true ->
  has_shape [s; c] (Mat (mat_add a b)) = true.
Proof.
  intros Ha Hb. apply Mat_shape_inv in Ha, Hb.
  destruct Ha as [Hla Hra]. destruct Hb as [Hlb Hrb].
  apply has_shape_nil_intro.
  - unfold mat_add. rewrite zipwith_length; congruence.
  - unfold mat_add. clear Hla Hlb. revert b Hrb.
    induction Hra as [|u a Hu _ IH]; intros [|v b] Hrb; simpl; constructor.
    + rewrite zipwith_length; [assumption|].
      apply Forall_inv in Hrb. congruence.
    + apply IH. now apply Forall_inv_tail in Hrb.
Qed.

Lemma bc_add_batch_single (ms : list matrix) (w : matrix) :
  bc_add (Batch (map Mat ms)) (Batch [Mat w])
  = Batch (map (fun m => Mat (mat_bc_add m w)) ms).
Proof.
  destruct ms as [|m0 [|m1 ms']]; try reflexivity.
  cbn -[mat_bc_add]. now rewrite map_map.
Qed.

Lemma rank_batch_mats (ms : list matrix) : rank (Batch (map Mat ms)) = 3%nat.
Proof. destruct ms; reflexivity. Qed.

Lemma bc_add_rank3 (ms ms' : list matrix) :
  length ms = length ms' ->
  bc_add (Batch (map Mat ms)) (Batch (map Mat ms'))
  = Batch (zipwith (fun a b => Mat (mat_bc_add a b)) ms ms').
Proof.
  intros Hl.
  assert (Hgo : forall xs ys : list matrix,
             (fix go (xs ys : list tdata) : list tdata :=
                match xs, ys with
                | x :: xs', y :: ys' => bc_add x y :: go xs' ys'
                | _, _ => []
                end) (map Mat xs) (map Mat ys)
             = zipwith (fun a b => Mat (mat_bc_add a b)) xs ys).
  { induction xs as [|x xs IH]; intros [|y ys]; try reflexivity.
    cbn -[mat_bc_add]. f_equal. apply IH. }
  destruct ms as [|m0 [|m1 ms1]]; destruct ms' as [|m0' [|m1' ms1']];
    try discriminate; try reflexivity.
  specialize (Hgo (m0 :: m1 :: ms1) (m0' :: m1' :: ms1')).
  cbn -[mat_bc_add] in Hgo |- *. f_equal. exact Hgo.
Qed.

Lemma bc_ok_rank3 (ms ms' : list matrix) :
  length ms = length ms' ->
  bc_ok (Batch (map Mat ms)) (Batch (map Mat ms'))
  = forallb (fun b => b) (zipwith mat_bc_ok ms ms').
Proof.
  intros Hl.
  assert (Hgo : forall xs ys : list matrix,
             length xs = length ys ->
             (fix go (xs ys : list tdata) : bool :=
                match xs, ys with
                | x :: xs', y :: ys' => bc_ok x y && go xs' ys'
                | _, _ => true
                end) (map Mat xs) (map Mat ys)
             = forallb (fun b => b) (zipwith mat_bc_ok xs ys)).
  { induction xs as [|x xs IH]; intros [|y ys] H; try reflexivity;
      try discriminate.
    cbn -[mat_bc_ok]. f_equal. apply IH. now injection H. }
  destruct ms as [|m0 [|m1 ms1]]; destruct ms' as [|m0' [|m1' ms1']];
    try discriminate.
  - reflexivity.
  - cbn -[mat_bc_ok]. now rewrite andb_true_r.
  - specialize (Hgo (m0 :: m1 :: ms1) (m0' :: m1' :: ms1') Hl).
    cbn -[mat_bc_ok] in Hgo |- *.
    rewrite !length_map. simpl in Hl. injection Hl as Hl.
    rewrite Hl, bcast_len_ok_refl. exact Hgo.
Qed.

Lemma forallb_zipwith_mat_bc_ok (s c : nat) (ms ms' : list matrix) :
  Forall (fun m => has_shape [s; c] (Mat m) = true) ms ->
  Forall (fun m => has_shape [s; c] (Mat m) = true) ms' ->
  forallb (fun b => b) (zipwith mat_bc_ok ms ms') = true.
Proof.
  intros H H'. apply forallb_zipwith. intros u v Hu Hv.
  rewrite Forall_forall in H, H'.
  now apply (mat_bc_ok_same_shape s c); [apply H | apply H'].
Qed.

Lemma zipwith_mat_add_shaped (s c : nat) (ms ms' : list matrix) :
  length ms = length ms' ->
  Forall (fun m => has_shape [s; c] (Mat m) = true) ms ->
  Forall (fun m => has_shape [s; c] (Mat m) = true) ms' ->
  has_shape [length ms; s; c]
    (Batch (zipwith (fun a b => Mat (mat_bc_add a b)) ms ms')) = true.
Proof.
  intros Hl H H'. cbn [has_shape].
  rewrite zipwith_length, Nat.eqb_refl by assumption. cbn [andb].
  clear Hl. revert ms' H'.
  induction H as [|m ms Hm _ IH]; intros [|m' ms'] H'; try reflexivity.
  cbn [zipwith forallb]. rewrite IH by now apply Forall_inv_tail in H'.
  apply Forall_inv in H'.
  rewrite (mat_bc_add_same_shape s c) by assumption.
  now rewrite (mat_add_shaped s c).
Qed.

(** The sum of two tensors of one rank-3 shape and one dtype is defined and
    has that shape and dtype. *)
Lemma tf_add_rank3 (a b : Tensor) (B S C : nat) :
  dtype a = dtype b ->
  has_shape [B; S; C] (data a) = true ->
  has_shape [B; S; C] (data b) = true ->
  exists t, tf_add a b = Ok t /\ dtype t = dtype a /\
            has_shape [B; S; C] (data t) = true.
Proof.
  intros Hd Ha Hb.
  apply has_shape_rank3_inv in Ha. destruct Ha as (ms & Ea & Hla & Hma).
  apply has_shape_rank3_inv in Hb. destruct Hb as (ms' & Eb & Hlb & Hmb).
  unfold tf_add. rewrite Hd, DType_eqb_refl. cbn [guard bind].
  rewrite Ea, Eb, bc_ok_rank3, bc_add_rank3 by congruence.
  rewrite (forallb_zipwith_mat_bc_ok S C) by assumption. cbn [guard bind].
  eexists. split; [reflexivity|]. cbn [dtype data]. split; [reflexivity|].
  rewrite <- Hla. apply zipwith_mat_add_shaped; congruence.
Qed.

(** ** AddPositionEmbs: build, then call *)

Lemma AddPositionEmbs_build_Ok (glorot_uniform : Initializer)
  (self : AddPositionEmbs) (b s c : nat) :
  AddPositionEmbs_build glorot_uniform self [b; s; c]
  = Ok (mkAddPositionEmbs (posemb_init self)
          (Some (add_weight glorot_uniform [1%nat; s; c] (posemb_init self)))).
Proof. reflexivity. Qed.

Lemma add_weight_single (glorot_uniform : Initializer) (s c : nat)
  (init : option Initializer) :
  exists w, add_weight glorot_uniform [1%nat; s; c] init
            = mkTensor float32 (Batch [Mat w]) /\
            has_shape [s; c] (Mat w) = true.
Proof.
  pose proof (add_weight_shape glorot_uniform 1 s c init) as H.
  apply has_shape_rank3_inv in H. destruct H as (ws & E & Hl & Hs).
  destruct ws as [|w [|? ?]]; try discriminate.
  exists w. split; [|now apply Forall_inv in Hs].
  unfold add_weight in *. cbn [data] in E. now rewrite E.
Qed.

(** X1. After [build] on a shape (batch0, seq_len, channels), [call] on
    an input of shape (batch, seq_len, channels), of any batch size and
    any floating dtype, returns the input with the one parameter matrix
    added entrywise to every batch element, in the dtype of the input, and
    leaves the layer as it is. *)
Theorem AddPositionEmbs_build_call (glorot_uniform : Initializer)
  (self self' : AddPositionEmbs) (x : Tensor) (b0 b s c : nat) :
  AddPositionEmbs_build glorot_uniform self [b0; s; c] = Ok self' ->
  has_shape [b; s; c] (data x) = true ->
  exists ms w,
    data x = Batch (map Mat ms) /\
    pos_embedding self' = Some (mkTensor float32 (Batch [Mat w])) /\
    has_shape [s; c] (Mat w) = true /\
    AddPositionEmbs_call self' x
    = Ok (mkTensor (dtype x) (Batch (map (fun m => Mat (mat_add m w)) ms)),
          self').
Proof.
  intros Hb Hx. rewrite AddPositionEmbs_build_Ok in Hb. injection Hb as <-.
  destruct (add_weight_single glorot_uniform s c (posemb_init self))
    as (w & Ew & Hw).
  pose proof Hx as Hx'.
  apply has_shape_rank3_inv in Hx'. destruct Hx' as (ms & Ex & Hl & Hms).
  exists ms, w. split; [exact Ex|]. cbn [pos_embedding].
  split; [now rewrite Ew|]. split; [exact Hw|].
  unfold AddPositionEmbs_call. cbn [pos_embedding getattr bind].
  rewrite Ew. unfold tf_add, tf_cast. cbn [dtype data].
  rewrite DType_eqb_refl. cbn [guard bind].
  rewrite (bc_ok_batch_single b s c); [|assumption|].
  - cbn [guard bind]. rewrite Ex, bc_add_batch_single.
    assert (Hmap : map (fun m => Mat (mat_bc_add m w)) ms
                   = map (fun m => Mat (mat_add m w)) ms).
    { apply map_ext_in. intros m Hm. f_equal.
      rewrite Forall_forall in Hms.
      apply (mat_bc_add_same_shape s c); [now apply Hms | exact Hw]. }
    now rewrite Hmap.
  - cbn [has_shape length Nat.eqb andb forallb].
    cbn [has_shape] in Hw. now rewrite Hw.
Qed.

Lemma AddPositionEmbs_build_call_witness :
  exists self' ms w,
    AddPositionEmbs_build zeros (AddPositionEmbs_init (Some ones)) [7; 1; 2]%nat
    = Ok self' /\
    data (mkTensor float64 (Batch [Mat [[3; 4]]; Mat [[5; 6]]]))
    = Batch (map Mat ms) /\
    AddPositionEmbs_call self'
      (mkTensor float64 (Batch [Mat [[3; 4]]; Mat [[5; 6]]]))
    = Ok (mkTensor float64 (Batch (map (fun m => Mat (mat_add m w)) ms)),
          self').
Proof.
  destruct (AddPositionEmbs_build_call zeros
              (AddPositionEmbs_init (Some ones)) _
              (mkTensor float64 (Batch [Mat [[3; 4]]; Mat [[5; 6]]]))
              7 2 1 2 eq_refl eq_refl) as (ms & w & E & _ & _ & Hc).
  eexists. exists ms, w. split; [reflexivity|]. split; [exact E | exact Hc].
Defined.

(** ** Reshaping *)

Lemma concat_chunk_n {A : Type} (n k : nat) (l : list A) :
  (n * k <= length l)%nat -> concat (chunk_n n k l) = firstn (n * k) l.
Proof.
  revert l. induction n as [|n IH]; intros l H; simpl; [reflexivity|].
  rewrite IH by (rewrite length_skipn; simpl in H; lia).
  rewrite <- (firstn_skipn k l) at 3.
  rewrite firstn_app, length_firstn.
  replace (Nat.min k (length l)) with k by (simpl in H; lia).
  replace (k + n * k - k)%nat with (n * k)%nat by lia.
  rewrite firstn_firstn. f_equal.
  replace (Nat.min (k + n * k) k) with k by lia.
  reflexivity.
Qed.

Lemma firstn_length_app {A : Type} (r x : list A) :
  firstn (length r) (r ++ x) = r.
Proof. induction r as [|a r IH]; simpl; [now destruct x | now rewrite IH]. Qed.

Lemma skipn_length_app {A : Type} (r x : list A) :
  skipn (length r) (r ++ x) = x.
Proof. induction r as [|a r IH]; simpl; auto. Qed.

Lemma chunk_n_concat {A : Type} (k : nat) (m : list (list A)) (rest : list A) :
  Forall (fun r => length r = k) m ->
  chunk_n (length m) k (concat m ++ rest) = m.
Proof.
  induction 1 as [|r m Hr _ IH]; simpl; [reflexivity|].
  subst k. rewrite <- app_assoc, firstn_length_app, skipn_length_app.
  now rewrite IH.
Qed.

Lemma build_shape_cons (a : nat) (s : list nat) (l : list R) :
  (2 <= length s)%nat ->
  build_shape (a :: s) l
  = Batch (map (build_shape s) (chunk_n a (prod_dims s) l)).
Proof.
  destruct s as [|x [|y s']]; simpl; intros H; solve [lia | reflexivity].
Qed.

Lemma prod_dims_nd (n d : nat) : prod_dims [n; d] = (n * d)%nat.
Proof. simpl. lia. Qed.

Lemma flatten_length (n d : nat) :
  forall lead t, has_shape (lead ++ [n; d]) t = true ->
    length (flatten t) = prod_dims (lead ++ [n; d]).
Proof.
  apply (shaped1_ind n d
           (fun lead t => length (flatten t) = prod_dims (lead ++ [n; d]))).
  - intros x Hx. apply Mat_shape_inv in Hx. destruct Hx as [Hl Hr].
    cbn [flatten app]. rewrite prod_dims_nd. subst n.
    induction Hr as [|r x Hrl _ IH]; simpl; [reflexivity|].
    rewrite length_app, IH. lia.
  - intros a lead xs Hl H. cbn [flatten app]. subst a.
    change (prod_dims (length xs :: lead ++ [n; d]))
      with (length xs * prod_dims (lead ++ [n; d]))%nat.
    induction H as [|x xs Hx _ IH]; simpl; [reflexivity|].
    rewrite length_app, Hx, IH. reflexivity.
Qed.

Lemma build_shape_flatten (n d : nat) :
  forall lead t, has_shape (lead ++ [n; d]) t = true ->
    build_shape (lead ++ [n; d]) (flatten t) = t.
Proof.
  induction lead as [|a lead IH]; intros t Ht.
  - cbn [app] in *. apply has_shape_nil_inv in Ht.
    destruct Ht as (m & -> & Hl & Hr). cbn [build_shape flatten].
    f_equal. subst n. rewrite <- (app_nil_r (concat m)).
    now apply chunk_n_concat.
  - cbn [app] in Ht |- *. pose proof Ht as Ht'.
    apply has_shape_cons_inv in Ht'. destruct Ht' as (ts & -> & Hl & Hts).
    rewrite build_shape_cons by apply length_lead.
    cbn [flatten]. f_equal. rewrite flat_map_concat_map.
    assert (Hch : chunk_n a (prod_dims (lead ++ [n; d]))
                    (concat (map flatten ts)) = map flatten ts).
    { rewrite <- Hl, <- (length_map flatten ts).
      rewrite <- (app_nil_r (concat (map flatten ts))).
      apply chunk_n_concat. apply Forall_map. revert Hts.
      apply Forall_impl. intros t. apply flatten_length. }
    rewrite Hch, map_map. clear Hch Hl Ht.
    induction Hts as [|t ts Hx _ IHts]; simpl; [reflexivity|].
    now rewrite IH, IHts.
Qed.

Lemma has_shape_build_shape (n d : nat) :
  forall lead l, (prod_dims (lead ++ [n; d]) <= length l)%nat ->
    has_shape (lead ++ [n; d]) (build_shape (lead ++ [n; d]) l) = true.
Proof.
  induction lead as [|a lead IH]; intros l Hl.
  - cbn [app] in *. rewrite prod_dims_nd in Hl. cbn [build_shape].
    now apply has_shape_Mat_chunk.
  - cbn [app] in *. rewrite build_shape_cons by apply length_lead.
    change (prod_dims (a :: lead ++ [n; d]))
      with (a * prod_dims (lead ++ [n; d]))%nat in Hl.
    apply has_shape_cons_intro.
    + now rewrite length_map, chunk_n_length.
    + apply Forall_map. apply chunk_n_Forall in Hl.
      revert Hl. apply Forall_impl. intros ch Hch. apply IH. lia.
Qed.

Lemma flatten_build_shape (n d : nat) :
  forall lead l, (prod_dims (lead ++ [n; d]) <= length l)%nat ->
    flatten (build_shape (lead ++ [n; d]) l)
    = firstn (prod_dims (lead ++ [n; d])) l.
Proof.
  induction lead as [|a lead IH]; intros l Hl.
  - cbn [app] in *. rewrite prod_dims_nd in *. cbn [build_shape flatten].
    now apply concat_chunk_n.
  - cbn [app] in *. rewrite build_shape_cons by apply length_lead.
    change (prod_dims (a :: lead ++ [n; d]))
      with (a * prod_dims (lead ++ [n; d]))%nat in *.
    cbn [flatten]. rewrite flat_map_concat_map, map_map.
    rewrite <- (concat_chunk_n a _ l Hl). f_equal.
    pose proof (chunk_n_Forall a _ l Hl) as Hch.
    rewrite <- (map_id (chunk_n a (prod_dims (lead ++ [n; d])) l)) at 2.
    apply map_ext_in. intros ch Hin. rewrite Forall_forall in Hch.
    specialize (Hch ch Hin). rewrite IH by lia.
    rewrite <- Hch. apply firstn_all.
Qed.

Lemma known_dims_of_nat (l : list nat) :
  known_dims (map Z.of_nat l) = map Z.of_nat l.
Proof.
  unfold known_dims. induction l as [|x l IH]; simpl; [reflexivity|].
  destruct (Z.of_nat x =? -1)%Z eqn:E; [apply Z.eqb_eq in E; lia|].
  simpl. now rewrite IH.
Qed.

Lemma fold_mul_of_nat (l : list nat) :
  fold_right Z.mul 1%Z (map Z.of_nat l) = Z.of_nat (prod_dims l).
Proof.
  unfold prod_dims. induction l as [|x l IH]; simpl; [reflexivity|].
  rewrite IH. lia.
Qed.

Lemma prod_dims_pos (l : list nat) :
  Forall (fun x => (0 < x)%nat) l -> (0 < prod_dims l)%nat.
Proof.
  unfold prod_dims. induction 1 as [|x l Hx _ IH]; simpl; [lia|].
  apply Nat.mul_pos_pos; assumption.
Qed.

(** [-1] in second place stands for the size that makes the total right. *)
Lemma infer_dims_minus1 (B T : nat) (rest : list nat) :
  (0 < B)%nat -> Forall (fun x => (0 < x)%nat) rest ->
  infer_dims (B * (T * prod_dims rest))
    (Z.of_nat B :: (-1)%Z :: map Z.of_nat rest)
  = Ok (B :: T :: rest).
Proof.
  intros HB Hrest. pose proof (prod_dims_pos rest Hrest) as Hp.
  unfold infer_dims.
  assert (Hk : known_dims (Z.of_nat B :: (-1)%Z :: map Z.of_nat rest)
               = map Z.of_nat (B :: rest)).
  { pose proof (known_dims_of_nat rest) as Hr. unfold known_dims in *.
    cbn [filter map].
    destruct (Z.of_nat B =? -1)%Z eqn:E; [apply Z.eqb_eq in E; lia|].
    cbn [negb]. rewrite Z.eqb_refl. cbn [negb]. now rewrite Hr. }
  rewrite Hk, fold_mul_of_nat.
  assert (Hnn : forallb (fun d => (0 <=? d)%Z) (map Z.of_nat (B :: rest))
                = true).
  { apply forallb_forall. intros z Hz. apply in_map_iff in Hz.
    destruct Hz as (x & <- & _). apply Z.leb_le. lia. }
  rewrite Hnn. cbn [guard bind].
  cbn [length map]. rewrite !length_map.
  rewrite Nat.leb_refl. cbn [guard bind].
  assert (Hne : Nat.eqb (S (S (length rest))) (S (length rest)) = false).
  { apply Nat.eqb_neq. lia. }
  rewrite Hne.
  change (prod_dims (B :: rest)) with (B * prod_dims rest)%nat.
  assert (Hpos : (0 < B * prod_dims rest)%nat) by now apply Nat.mul_pos_pos.
  assert (Htot : (B * (T * prod_dims rest) = T * (B * prod_dims rest))%nat)
    by lia.
  rewrite Htot. set (K := (B * prod_dims rest)%nat) in *.
  rewrite (Nat2Z.inj_mul T K), Z.mod_mul by lia.
  destruct (Z.of_nat K =? 0)%Z eqn:E0; [apply Z.eqb_eq in E0; lia|].
  cbn [negb andb guard bind]. rewrite Z.eqb_refl. cbn [guard bind]. f_equal.
  rewrite Z.div_mul by lia. cbn [map]. rewrite Z.eqb_refl.
  destruct (Z.of_nat B =? -1)%Z eqn:E; [apply Z.eqb_eq in E; lia|].
  rewrite !Nat2Z.id. do 2 f_equal.
  clear. induction rest as [|x l IH]; simpl; [reflexivity|].
  destruct (Z.of_nat x =? -1)%Z eqn:E; [apply Z.eqb_eq in E; lia|].
  now rewrite Nat2Z.id, IH.
Qed.

Lemma tf_reshape_minus1 (x : Tensor) (B T : nat) (rest : list nat) :
  (0 < B)%nat -> Forall (fun x => (0 < x)%nat) rest ->
  (1 <= length rest)%nat ->
  length (flatten (data x)) = (B * (T * prod_dims rest))%nat ->
  tf_reshape x (Z.of_nat B :: (-1)%Z :: map Z.of_nat rest)
  = Ok (mkTensor (dtype x) (build_shape (B :: T :: rest) (flatten (data x)))).
Proof.
  intros HB Hrest Hl Hlen. unfold tf_reshape.
  cbn [length Nat.leb guard bind].
  now rewrite Hlen, infer_dims_minus1.
Qed.

(** ** Exchanging two axes *)

Section Ltranspose.

Context {A : Type}.
Variable d0 : A.

Lemma ltranspose_length (xss : list (list A)) (n k : nat) :
  (0 < n)%nat -> length xss = n -> Forall (fun xs => length xs = k) xss ->
  length (ltranspose d0 xss) = k /\
  Forall (fun ys => length ys = n) (ltranspose d0 xss).
Proof.
  intros Hn Hl Hk. unfold ltranspose.
  assert (Hhd : length (hd [] xss) = k).
  { destruct xss as [|xs xss]; [simpl in Hl; lia|].
    now apply Forall_inv in Hk. }
  rewrite Hhd. split.
  - now rewrite length_map, length_seq.
  - apply Forall_map, Forall_forall. intros j _. now rewrite length_map.
Qed.

Lemma ltranspose_In (P : A -> Prop) (xss : list (list A)) (k : nat) :
  Forall (fun xs => length xs = k) xss ->
  Forall (Forall P) xss -> Forall (Forall P) (ltranspose d0 xss).
Proof.
  intros Hk HP. unfold ltranspose.
  assert (Hhd : (length (hd [] xss) <= k)%nat).
  { destruct xss as [|xs xss]; [simpl; lia|].
    apply Forall_inv in Hk. simpl. lia. }
  apply Forall_map, Forall_forall. intros j Hj. apply in_seq in Hj.
  apply Forall_map, Forall_forall. intros xs Hxs.
  rewrite Forall_forall in Hk, HP.
  specialize (Hk xs Hxs). specialize (HP xs Hxs).
  rewrite Forall_forall in HP. apply HP, nth_In. lia.
Qed.

Lemma ltranspose_involutive (xss : list (list A)) (n k : nat) :
  (0 < n)%nat -> (0 < k)%nat ->
  length xss = n -> Forall (fun xs => length xs = k) xss ->
  ltranspose d0 (ltranspose d0 xss) = xss.
Proof.
  intros Hn Hk Hl Hr.
  assert (Hhd : length (hd [] xss) = k).
  { destruct xss as [|xs xss]; [simpl in Hl; lia|].
    now apply Forall_inv in Hr. }
  assert (Hhd' : length (hd [] (ltranspose d0 xss)) = n).
  { unfold ltranspose. rewrite Hhd. destruct k as [|k']; [lia|].
    simpl. now rewrite length_map. }
  unfold ltranspose at 1. rewrite Hhd', <- Hl.
  transitivity (map (fun i => nth i xss []) (seq 0 (length xss)));
    [|apply map_nth_seq_id].
  apply map_ext_in. intros i Hi. apply in_seq in Hi.
  unfold ltranspose. rewrite Hhd, map_map.
  assert (Hri : length (nth i xss []) = k).
  { rewrite Forall_forall in Hr. apply Hr. apply nth_In. lia. }
  transitivity (map (fun j => nth j (nth i xss []) d0)
                    (seq 0 (length (nth i xss []))));
    [|apply map_nth_seq_id].
  rewrite Hri. apply map_ext. intros j.
  rewrite (nth_indep _ d0 ((fun xs : list A => nth j xs d0) []))
    by (rewrite length_map; lia).
  now rewrite (map_nth (fun xs : list A => nth j xs d0)).
Qed.

End Ltranspose.

Lemma mapM_unMat (ms : list matrix) : mapM unMat (map Mat ms) = Ok ms.
Proof.
  induction ms as [|m ms IH]; simpl; [reflexivity|]. now rewrite IH.
Qed.

Lemma swap_middle_mats (ms : list matrix) :
  swap_middle (Batch (map Mat ms)) = Ok (Batch (map Mat (ltranspose [] ms))).
Proof. unfold swap_middle. now rewrite mapM_unMat. Qed.

Lemma has_shape_rank3_intro (b s c : nat) (ms : list matrix) :
  length ms = b ->
  Forall (fun m => length m = s /\ Forall (fun r => length r = c) m) ms ->
  has_shape [b; s; c] (Batch (map Mat ms)) = true.
Proof.
  intros Hl Hm. apply (has_shape_cons_intro b [] s c).
  - now rewrite length_map.
  - apply Forall_map. revert Hm. apply Forall_impl. intros m [H1 H2].
    now apply has_shape_nil_intro.
Qed.

Lemma has_shape_rank3_inv' (b s c : nat) (t : tdata) :
  has_shape [b; s; c] t = true ->
  exists ms, t = Batch (map Mat ms) /\ length ms = b /\
    Forall (fun m => length m = s /\ Forall (fun r => length r = c) m) ms.
Proof.
  intros H. apply has_shape_rank3_inv in H.
  destruct H as (ms & E & Hl & Hm). exists ms. repeat split; auto.
  revert Hm. apply Forall_impl. intros m Hm. now apply Mat_shape_inv.
Qed.

(** Exchanging the first two axes of an array of shape (s, h, d). *)
Lemma swap_middle_shaped (s h d : nat) (t : tdata) :
  (0 < s)%nat -> has_shape [s; h; d] t = true ->
  exists t', swap_middle t = Ok t' /\ has_shape [h; s; d] t' = true /\
             (0 < h -> swap_middle t' = Ok t)%nat.
Proof.
  intros Hs Ht. apply has_shape_rank3_inv' in Ht.
  destruct Ht as (ms & -> & Hl & Hm).
  assert (Hlen : Forall (fun m : matrix => length m = h) ms).
  { revert Hm. apply Forall_impl. tauto. }
  assert (Hrow : Forall (Forall (fun r : vector => length r = d)) ms).
  { revert Hm. apply Forall_impl. tauto. }
  destruct (ltranspose_length [] ms s h Hs Hl Hlen) as [Hl' Hlen'].
  pose proof (ltranspose_In [] _ ms h Hlen Hrow) as Hrow'.
  eexists. split; [apply swap_middle_mats|]. split.
  - apply has_shape_rank3_intro; [assumption|].
    apply Forall_forall. intros m Hin. rewrite Forall_forall in Hlen', Hrow'.
    split; [now apply Hlen' | now apply Hrow'].
  - intros Hh. rewrite swap_middle_mats.
    now rewrite (ltranspose_involutive [] ms s h).
Qed.

Lemma mapM_swap_middle (s h d : nat) (ts : list tdata) :
  (0 < s)%nat ->
  Forall (fun t => has_shape [s; h; d] t = true) ts ->
  exists ts', mapM swap_middle ts = Ok ts' /\ length ts' = length ts /\
              Forall (fun t => has_shape [h; s; d] t = true) ts' /\
              (0 < h -> mapM swap_middle ts' = Ok ts)%nat.
Proof.
  intros Hs. induction 1 as [|t ts Ht _ IH].
  - exists []. repeat split; auto.
  - destruct IH as (ts' & E & Hl & Hf & Hinv).
    destruct (swap_middle_shaped s h d t Hs Ht) as (t' & Et & Ht' & Hti).
    exists (t' :: ts'). simpl. rewrite Et, E. simpl.
    repeat split; auto.
    intros Hh. rewrite (Hti Hh). simpl. now rewrite (Hinv Hh).
Qed.

Lemma has_shape_rank4_inv (b s h d : nat) (t : tdata) :
  has_shape [b; s; h; d] t = true ->
  exists ts, t = Batch ts /\ length ts = b /\
             Forall (fun t' => has_shape [s; h; d] t' = true) ts.
Proof. apply (has_shape_cons_inv b [s] h d). Qed.

Lemma has_shape_rank4_intro (b s h d : nat) (ts : list tdata) :
  length ts = b -> Forall (fun t' => has_shape [s; h; d] t' = true) ts ->
  has_shape [b; s; h; d] (Batch ts) = true.
Proof. apply (has_shape_cons_intro b [s] h d). Qed.

(** [tf.transpose(x, perm=[0, 2, 1, 3])] on a tensor of shape
    (b, s, h, d): the result has shape (b, h, s, d), and transposing it
    again gives [x] back. *)
Lemma tf_transpose_0213_shaped (x : Tensor) (b s h d : nat) :
  (0 < s)%nat -> has_shape [b; s; h; d] (data x) = true ->
  exists y, tf_transpose_0213 x = Ok y /\ dtype y = dtype x /\
            has_shape [b; h; s; d] (data y) = true /\
            (0 < h -> tf_transpose_0213 y = Ok x)%nat.
Proof.
  intros Hs Hx. destruct x as [dt dx]. cbn [data dtype] in *.
  apply has_shape_rank4_inv in Hx. destruct Hx as (ts & -> & Hl & Hts).
  destruct (mapM_swap_middle s h d ts Hs Hts) as (ts' & E & Hl' & Hf & Hinv).
  unfold tf_transpose_0213. cbn [data dtype]. rewrite E. cbn [bind].
  eexists. split; [reflexivity|]. cbn [data dtype].
  split; [reflexivity|]. split.
  - apply has_shape_rank4_intro; [congruence | assumption].
  - intros Hh. now rewrite (Hinv Hh).
Qed.

(** ** split_heads *)

Lemma nth_chunk_n {A : Type} (n k i : nat) (l : list A) :
  (i < n)%nat -> nth i (chunk_n n k l) [] = firstn k (skipn (i * k) l).
Proof.
  revert i l. induction n as [|n IH]; intros i l Hi; [lia|].
  destruct i as [|i]; simpl; [reflexivity|].
  rewrite IH by lia. now rewrite skipn_skipn, Nat.add_comm.
Qed.

Lemma chunk_n_map_nth {A : Type} (n k : nat) (l : list A) :
  chunk_n n k l = map (fun i => firstn k (skipn (i * k) l)) (seq 0 n).
Proof.
  apply (nth_ext _ _ [] []).
  - now rewrite chunk_n_length, length_map, length_seq.
  - intros i Hi. rewrite chunk_n_length in Hi.
    rewrite nth_chunk_n by assumption.
    rewrite (nth_indep _ [] ((fun i => firstn k (skipn (i * k) l)) 0%nat))
      by now rewrite length_map, length_seq.
    rewrite (map_nth (fun i => firstn k (skipn (i * k) l))).
    now rewrite seq_nth.
Qed.

Lemma reshape_rows_to_heads (B T H D : nat) (ms : list matrix) :
  has_shape [B; T; (H * D)%nat] (Batch (map Mat ms)) = true ->
  build_shape [B; T; H; D] (flatten (Batch (map Mat ms)))
  = Batch (map (fun m => Batch (map Mat (map (chunk_n H D) m))) ms).
Proof.
  intros Hx. apply has_shape_rank3_inv' in Hx.
  destruct Hx as (ms' & E & Hl & Hm).
  injection E as E. apply (f_equal (map (fun t => match t with
                                                  | Mat m => m
                                                  | Batch _ => []
                                                  end))) in E.
  rewrite !map_map, !map_id in E. subst ms'.
  set (x4 := Batch (map (fun m => Batch (map Mat (map (chunk_n H D) m))) ms)).
  assert (Hs : has_shape ([B; T] ++ [H; D]) x4 = true).
  { apply has_shape_rank4_intro; [now rewrite length_map|].
    apply Forall_map. revert Hm. apply Forall_impl. intros m [Hlm Hr].
    apply has_shape_rank3_intro; [now rewrite length_map|].
    apply Forall_map. revert Hr. apply Forall_impl. intros r Hr.
    split; [apply chunk_n_length | apply chunk_n_Forall; lia]. }
  assert (Hf : flatten x4 = flatten (Batch (map Mat ms))).
  { subst x4. cbn [flatten]. rewrite !flat_map_concat_map, !map_map.
    f_equal. apply map_ext_in. intros m Hin. cbn [flatten].
    rewrite Forall_forall in Hm. destruct (Hm m Hin) as [_ Hr].
    rewrite flat_map_concat_map, map_map. cbn [flatten].
    clear - Hr. induction Hr as [|r m Hr _ IH]; simpl; [reflexivity|].
    rewrite IH, concat_chunk_n by lia. rewrite <- Hr. now rewrite firstn_all. }
  rewrite <- Hf. exact (build_shape_flatten H D [B; T] x4 Hs).
Qed.

Lemma ltranspose_chunks (T H D : nat) (m : matrix) :
  (0 < T)%nat -> length m = T ->
  ltranspose [] (map (chunk_n H D) m)
  = map (fun h => head_slice D h m) (seq 0 H).
Proof.
  intros HT Hl. unfold ltranspose.
  assert (Hhd : length (hd [] (map (chunk_n H D) m)) = H).
  { destruct m as [|r m]; [simpl in Hl; lia|]. simpl. apply chunk_n_length. }
  rewrite Hhd. apply map_ext_in. intros h Hh. apply in_seq in Hh.
  rewrite map_map. unfold head_slice. apply map_ext. intros r.
  apply nth_chunk_n. lia.
Qed.

(** X2. [split_heads] on a tensor of shape
    (batch, seq_len, num_heads * depth): head [h] of batch element [b] is
    the matrix of the columns [h * depth .. (h + 1) * depth - 1] of that
    element, and the result has shape (batch, num_heads, seq_len, depth). *)
Theorem split_heads_slices (self : MultiHeadAttention) (x : Tensor)
  (B T : nat) :
  (0 < mha_num_heads self)%Z -> (0 < depth self)%Z ->
  (0 < B)%nat -> (0 < T)%nat ->
  has_shape [B; T; (Z.to_nat (mha_num_heads self) * Z.to_nat (depth self))%nat]
            (data x) = true ->
  exists ms,
    data x = Batch (map Mat ms) /\
    split_heads self x B
    = Ok (mkTensor (dtype x)
            (Batch (map (heads (Z.to_nat (mha_num_heads self))
                               (Z.to_nat (depth self))) ms))) /\
    has_shape [B; Z.to_nat (mha_num_heads self); T; Z.to_nat (depth self)]
      (Batch (map (heads (Z.to_nat (mha_num_heads self))
                         (Z.to_nat (depth self))) ms)) = true.
Proof.
  intros Hh Hd HB HT Hx.
  set (H := Z.to_nat (mha_num_heads self)) in *.
  set (D := Z.to_nat (depth self)) in *.
  pose proof Hx as Hx'. apply has_shape_rank3_inv' in Hx'.
  destruct Hx' as (ms & Ex & Hl & Hm). exists ms. split; [exact Ex|].
  assert (Hlen : length (flatten (data x))
                 = (B * (T * prod_dims [H; D]))%nat).
  { rewrite (flatten_length T (H * D) [B] _ Hx). simpl. lia. }
  assert (Hdims : [Z.of_nat B; (-1)%Z; mha_num_heads self; depth self]
                  = Z.of_nat B :: (-1)%Z :: map Z.of_nat [H; D]).
  { subst H D. cbn [map]. now rewrite !Z2Nat.id by lia. }
  assert (Hpos : Forall (fun n => (0 < n)%nat) [H; D])
    by (repeat constructor; subst H D; lia).
  assert (Hl1 : (1 <= length [H; D])%nat) by (simpl; lia).
  assert (Hsplit : split_heads self x B
            = Ok (mkTensor (dtype x) (Batch (map (heads H D) ms)))).
  { unfold split_heads. rewrite Hdims.
    rewrite (tf_reshape_minus1 x B T [H; D] HB Hpos Hl1 Hlen).
    cbn [bind]. unfold tf_transpose_0213. cbn [data dtype].
    rewrite Ex in Hx |- *. rewrite reshape_rows_to_heads by assumption.
    assert (Hsw : mapM swap_middle
                    (map (fun m => Batch (map Mat (map (chunk_n H D) m))) ms)
                  = Ok (map (heads H D) ms)).
    { clear - Hm HT. induction Hm as [|m ms [Hlm _] _ IH]; [reflexivity|].
      cbn [map mapM]. rewrite swap_middle_mats, IH. cbn [bind].
      unfold heads at 2. rewrite (ltranspose_chunks T H D m HT Hlm).
      now rewrite map_map. }
    rewrite Hsw. reflexivity. }
  split; [exact Hsplit|].
  unfold split_heads in Hsplit. rewrite Hdims in Hsplit.
  rewrite (tf_reshape_minus1 x B T [H; D] HB Hpos Hl1 Hlen) in Hsplit.
  cbn [bind] in Hsplit.
  destruct (tf_transpose_0213_shaped
              (mkTensor (dtype x) (build_shape [B; T; H; D] (flatten (data x))))
              B T H D HT) as (y & Ey & _ & Hy & _).
  { cbn [data]. apply (has_shape_build_shape H D [B; T]).
    rewrite Hlen. simpl. lia. }
  rewrite Ey in Hsplit. injection Hsplit as ->. exact Hy.
Qed.

Lemma split_heads_slices_witness :
  exists ms,
    data (mkTensor float32 (Batch [Mat [[1; 2; 3; 4]; [5; 6; 7; 8]]]))
    = Batch (map Mat ms) /\
    split_heads (new_MultiHeadAttention 4 2 true relu)
      (mkTensor float32 (Batch [Mat [[1; 2; 3; 4]; [5; 6; 7; 8]]])) 1
    = Ok (mkTensor float32 (Batch (map (heads 2 2) ms))).
Proof.
  assert (H1 : (0 < 1)%nat) by lia. assert (H2 : (0 < 2)%nat) by lia.
  destruct (split_heads_slices (new_MultiHeadAttention 4 2 true relu)
              (mkTensor float32 (Batch [Mat [[1; 2; 3; 4]; [5; 6; 7; 8]]]))
              1 2 eq_refl eq_refl H1 H2 eq_refl) as (ms & E & Hs & _).
  exists ms. split; [exact E | exact Hs].
Defined.

Lemma tensor_eta (x : Tensor) : mkTensor (dtype x) (data x) = x.
Proof. now destruct x. Qed.

(** Merging the heads of a tensor of shape (b, h, t, d): the transposition
    followed by the reshape to (b, -1, h * d) gives shape (b, t, h * d). *)
Lemma merge_heads_shaped (z : Tensor) (B H T D : nat) (dm : Z) :
  (0 < B)%nat -> (0 < H)%nat -> (0 < D)%nat ->
  dm = Z.of_nat (H * D) ->
  has_shape [B; H; T; D] (data z) = true ->
  exists y c,
    tf_transpose_0213 z = Ok y /\
    tf_reshape y [Z.of_nat B; (-1)%Z; dm] = Ok c /\
    dtype c = dtype z /\
    has_shape [B; T; (H * D)%nat] (data c) = true.
Proof.
  intros HB HH HD -> Hz.
  destruct (tf_transpose_0213_shaped z B H T D HH Hz)
    as (y & Ey & Dy & Hy & _).
  assert (Hlen : length (flatten (data y))
                 = (B * (T * prod_dims [(H * D)%nat]))%nat).
  { rewrite (flatten_length H D [B; T] _ Hy). simpl. lia. }
  assert (Hpos : Forall (fun n => (0 < n)%nat) [(H * D)%nat]).
  { repeat constructor. now apply Nat.mul_pos_pos. }
  exists y. eexists. split; [exact Ey|].
  change [Z.of_nat B; (-1)%Z; Z.of_nat (H * D)]
    with (Z.of_nat B :: (-1)%Z :: map Z.of_nat [(H * D)%nat]).
  rewrite (tf_reshape_minus1 y B T [(H * D)%nat] HB Hpos (le_n 1) Hlen).
  split; [reflexivity|]. cbn [dtype data]. split; [exact Dy|].
  apply (has_shape_build_shape T (H * D) [B]).
  rewrite Hlen. simpl. lia.
Qed.

(** X3. Merging heads undoes [split_heads]: for [x] of shape
    (batch, seq_len, d_model), with [d_model = num_heads * depth], the
    transposition with [perm=[0, 2, 1, 3]] and the reshape to
    (batch, -1, d_model) that [call] applies to the attention output map
    [split_heads(x)] back to [x]. *)
Theorem merge_split_heads (self : MultiHeadAttention) (x : Tensor)
  (B T : nat) :
  (0 < mha_num_heads self)%Z -> (0 < depth self)%Z ->
  d_model self = (mha_num_heads self * depth self)%Z ->
  (0 < B)%nat -> (0 < T)%nat ->
  has_shape [B; T; Z.to_nat (d_model self)] (data x) = true ->
  exists y,
    split_heads self x B = Ok y /\
    (z <- tf_transpose_0213 y ;;
     tf_reshape z [Z.of_nat B; (-1)%Z; d_model self]) = Ok x.
Proof.
  intros Hh Hd Hdm HB HT Hx.
  set (H := Z.to_nat (mha_num_heads self)) in *.
  set (D := Z.to_nat (depth self)) in *.
  assert (HM : Z.to_nat (d_model self) = (H * D)%nat).
  { rewrite Hdm. subst H D. rewrite Z2Nat.inj_mul by lia. reflexivity. }
  rewrite HM in Hx.
  assert (HH : (0 < H)%nat) by (subst H; lia).
  assert (HD : (0 < D)%nat) by (subst D; lia).
  assert (Hlen : length (flatten (data x))
                 = (B * (T * prod_dims [H; D]))%nat).
  { rewrite (flatten_length T (H * D) [B] _ Hx). simpl. lia. }
  assert (Hdims : [Z.of_nat B; (-1)%Z; mha_num_heads self; depth self]
                  = Z.of_nat B :: (-1)%Z :: map Z.of_nat [H; D]).
  { subst H D. cbn [map]. now rewrite !Z2Nat.id by lia. }
  assert (Hpos : Forall (fun n => (0 < n)%nat) [H; D])
    by (repeat constructor; assumption).
  assert (Hl1 : (1 <= length [H; D])%nat) by (simpl; lia).
  unfold split_heads. rewrite Hdims.
  rewrite (tf_reshape_minus1 x B T [H; D] HB Hpos Hl1 Hlen). cbn [bind].
  set (x4 := mkTensor (dtype x) (build_shape [B; T; H; D] (flatten (data x)))).
  assert (Hx4 : has_shape [B; T; H; D] (data x4) = true).
  { cbn [data]. apply (has_shape_build_shape H D [B; T]).
    rewrite Hlen. simpl. lia. }
  destruct (tf_transpose_0213_shaped x4 B T H D HT Hx4)
    as (y & Ey & _ & _ & Hinv).
  exists y. split; [exact Ey|]. rewrite (Hinv HH). cbn [bind].
  assert (Hf4 : flatten (data x4) = flatten (data x)).
  { unfold x4. cbn [data]. rewrite (flatten_build_shape H D [B; T]) by
      (rewrite Hlen; simpl; lia).
    rewrite <- (firstn_all (flatten (data x))) at 2. f_equal.
    rewrite Hlen. simpl. lia. }
  assert (Hlen4 : length (flatten (data x4))
                  = (B * (T * prod_dims [(H * D)%nat]))%nat).
  { rewrite Hf4, Hlen. simpl. lia. }
  assert (Hpos' : Forall (fun n => (0 < n)%nat) [(H * D)%nat]).
  { repeat constructor. now apply Nat.mul_pos_pos. }
  assert (Hdm' : [Z.of_nat B; (-1)%Z; d_model self]
                 = Z.of_nat B :: (-1)%Z :: map Z.of_nat [(H * D)%nat]).
  { cbn [map]. rewrite <- HM, Z2Nat.id by lia. reflexivity. }
  rewrite Hdm'.
  rewrite (tf_reshape_minus1 x4 B T [(H * D)%nat] HB Hpos' (le_n 1) Hlen4).
  rewrite Hf4. unfold x4. cbn [dtype].
  pose proof (build_shape_flatten T (H * D) [B] _ Hx) as Hb.
  cbn [app] in Hb. rewrite Hb. now rewrite tensor_eta.
Qed.

Lemma merge_split_heads_witness :
  exists y,
    split_heads (new_MultiHeadAttention 4 2 true relu)
      (mkTensor float32 (Batch [Mat [[1; 2; 3; 4]; [5; 6; 7; 8]]])) 1 = Ok y /\
    (z <- tf_transpose_0213 y ;; tf_reshape z [1%Z; (-1)%Z; 4%Z])
    = Ok (mkTensor float32 (Batch [Mat [[1; 2; 3; 4]; [5; 6; 7; 8]]])).
Proof.
  assert (H1 : (0 < 1)%nat) by lia. assert (H2 : (0 < 2)%nat) by lia.
  exact (merge_split_heads (new_MultiHeadAttention 4 2 true relu)
           (mkTensor float32 (Batch [Mat [[1; 2; 3; 4]; [5; 6; 7; 8]]]))
           1 2 eq_refl eq_refl eq_refl H1 H2 eq_refl).
Defined.

(** ** Shapes of the attention outputs *)

Lemma mat_transpose_shaped (m d : nat) (v : matrix) :
  (0 < m)%nat -> has_shape [m; d] (Mat v) = true ->
  has_shape [d; m] (Mat (mat_transpose v)) = true.
Proof.
  intros Hm Hv. apply Mat_shape_inv in Hv. destruct Hv as [Hl Hr].
  destruct (ltranspose_length 0 v m d Hm Hl Hr) as [H1 H2].
  now apply has_shape_nil_intro.
Qed.

Lemma mat_mul_shaped (n m dv : nat) (w v : matrix) :
  (0 < m)%nat ->
  has_shape [n; m] (Mat w) = true -> has_shape [m; dv] (Mat v) = true ->
  has_shape [n; dv] (Mat (mat_mul w v)) = true.
Proof.
  intros Hm Hw Hv. unfold mat_mul.
  apply (mat_mul_tb_shaped n dv m m); [assumption|].
  now apply mat_transpose_shaped.
Qed.

Lemma scaled_dot_product_attention_unmasked (lead : list nat)
  (n m d dv : nat) (q k v : Tensor) :
  dtype q = float32 -> dtype k = float32 -> dtype v = float32 ->
  has_shape (lead ++ [n; d]) (data q) = true ->
  has_shape (lead ++ [m; d]) (data k) = true ->
  has_shape (lead ++ [m; dv]) (data v) = true ->
  exists out w,
    scaled_dot_product_attention q k v None = Ok (out, w) /\
    dtype out = float32 /\ dtype w = float32 /\
    has_shape (lead ++ [n; m]) (data w) = true /\
    ((0 < m)%nat -> has_shape (lead ++ [n; dv]) (data out) = true).
Proof.
  intros Dq Dk Dv Hq Hk Hv.
  unfold scaled_dot_product_attention, tf_matmul at 1.
  rewrite Dq, Dk. cbn [DType_eqb guard bind].
  rewrite (tall2_shaped n d m d (matmul_ok true)
             (matmul_ok_tb_shaped n m d) lead _ _ Hq Hk).
  cbn [guard bind]. unfold tf_truediv, tf_sqrt, tf_last_dim.
  cbn [dtype data sdtype sval DType_eqb guard bind].
  set (L := tmap _ (tzip mat_mul_tb (data q) (data k))).
  assert (HL : has_shape (lead ++ [n; m]) L = true).
  { apply (tmap_shaped n m _ n m).
    - intros x Hx. now apply mat_map_shaped.
    - apply (tzip_shaped n d m d _ n m); auto.
      intros x y Hx Hy. now apply (mat_mul_tb_shaped n m d d). }
  assert (HW : has_shape (lead ++ [n; m]) (tmap (map softmax_row) L) = true).
  { apply (tmap_shaped n m _ n m); [|assumption].
    intros x Hx. now apply softmax_shaped. }
  unfold tf_matmul, tf_softmax. cbn [dtype data]. rewrite Dv.
  cbn [DType_eqb guard bind].
  rewrite (tall2_shaped n m m dv (matmul_ok false)
             (matmul_ok_shaped n m dv) lead _ _ HW Hv).
  cbn [guard bind]. eexists. eexists. split; [reflexivity|].
  cbn [dtype data]. repeat split; auto.
  intros Hm. apply (tzip_shaped n m m dv _ n dv); auto.
  intros x y Hx Hy. now apply (mat_mul_shaped n m dv).
Qed.

(** X4. Without a mask, for [float32] tensors of shapes
    (..., seq_len_q, depth), (..., seq_len_k, depth) and
    (..., seq_len_k, depth_v) with [seq_len_k > 0], the function returns
    attention weights of shape (..., seq_len_q, seq_len_k) and an output of
    shape (..., seq_len_q, depth_v), both [float32]. *)
Theorem scaled_dot_product_attention_shapes (lead : list nat)
  (n m d dv : nat) (q k v : Tensor) :
  (0 < m)%nat ->
  dtype q = float32 -> dtype k = float32 -> dtype v = float32 ->
  has_shape (lead ++ [n; d]) (data q) = true ->
  has_shape (lead ++ [m; d]) (data k) = true ->
  has_shape (lead ++ [m; dv]) (data v) = true ->
  exists out w,
    scaled_dot_product_attention q k v None = Ok (out, w) /\
    has_shape (lead ++ [n; m]) (data w) = true /\
    has_shape (lead ++ [n; dv]) (data out) = true /\
    dtype out = float32 /\ dtype w = float32.
Proof.
  intros Hm Dq Dk Dv Hq Hk Hv.
  destruct (scaled_dot_product_attention_unmasked lead n m d dv q k v
              Dq Dk Dv Hq Hk Hv) as (out & w & E & D1 & D2 & Hw & Ho).
  exists out, w. auto.
Qed.

Lemma scaled_dot_product_attention_shapes_witness :
  exists out w,
    scaled_dot_product_attention example_q example_k example_v None
    = Ok (out, w) /\
    has_shape [2; 2]%nat (data w) = true /\
    has_shape [2; 2]%nat (data out) = true.
Proof.
  assert (H2 : (0 < 2)%nat) by lia.
  destruct (scaled_dot_product_attention_shapes [] 2 2 2 2
              example_q example_k example_v H2
              eq_refl eq_refl eq_refl eq_refl eq_refl eq_refl)
    as (out & w & E & Hw & Ho & _).
  exists out, w. auto.
Defined.

(** ** The Keras sublayers on inputs of shape (batch, seq_len, width) *)

Lemma map_rows_shaped (f : vector -> vector) (t c u : nat) (x : matrix) :
  (forall r, length r = c -> length (f r) = u) ->
  has_shape [t; c] (Mat x) = true ->
  has_shape [t; u] (Mat (map f x)) = true.
Proof.
  intros Hf Hx. apply Mat_shape_inv in Hx. destruct Hx as [Hl Hr].
  apply has_shape_nil_intro; [now rewrite length_map|].
  apply Forall_map. revert Hr. apply Forall_impl. exact Hf.
Qed.

Lemma tmap_rows_shaped (f : vector -> vector) (b t c u : nat) (x : tdata) :
  (forall r, length r = c -> length (f r) = u) ->
  has_shape [b; t; c] x = true ->
  has_shape [b; t; u] (tmap (map f) x) = true.
Proof.
  intros Hf Hx.
  apply (tmap_shaped t c (map f) t u) with (lead := [b]); [|exact Hx].
  intros m Hm. now apply (map_rows_shaped f t c u).
Qed.

Lemma last_dim_is_shaped (b t c : nat) (x : tdata) :
  has_shape [b; t; c] x = true -> last_dim_is c x = true.
Proof.
  intros Hx. apply has_shape_rank3_inv' in Hx.
  destruct Hx as (ms & -> & _ & Hm). cbn [last_dim_is].
  rewrite forallb_map_comp. apply forallb_forall. intros m Hin.
  rewrite Forall_forall in Hm. destruct (Hm m Hin) as [_ Hr].
  cbn [last_dim_is]. apply forallb_forall. intros r Hr'.
  rewrite Forall_forall in Hr. apply Nat.eqb_eq. now apply Hr.
Qed.

Lemma last_shape_shaped (b t c : nat) (x : tdata) :
  (0 < b)%nat -> (0 < t)%nat -> has_shape [b; t; c] x = true ->
  last (shape x) 0%nat = c.
Proof.
  intros Hb Ht Hx. apply has_shape_rank3_inv' in Hx.
  destruct Hx as (ms & -> & Hl & Hm).
  destruct ms as [|m ms]; [simpl in Hl; lia|].
  apply Forall_inv in Hm. destruct Hm as [Hlm Hr].
  destruct m as [|r m]; [simpl in Hlm; lia|].
  apply Forall_inv in Hr. simpl. exact Hr.
Qed.

Lemma layer_norm_row_length (eps : R) (gamma beta row : vector) (c : nat) :
  length gamma = c -> length beta = c -> length row = c ->
  length (layer_norm_row eps gamma beta row) = c.
Proof.
  intros Hg Hb Hr. unfold layer_norm_row.
  apply vadd_length; [|assumption].
  rewrite zipwith_length; rewrite length_map; congruence.
Qed.

Lemma init_matrix_spec (init : Initializer) (r c : nat) :
  length (init_matrix init r c) = r /\
  Forall (fun row => length row = c) (init_matrix init r c).
Proof.
  unfold init_matrix. split; [apply chunk_n_length|].
  apply chunk_n_Forall. rewrite fill_length. simpl. lia.
Qed.

Section Sublayers.

Variable glorot_uniform : Initializer.

Lemma LayerNormalization_call_shaped (l : LayerNormalization) (x : Tensor)
  (b t c : nat) :
  (0 < b)%nat -> (0 < t)%nat ->
  LayerNormalization_fits c l ->
  has_shape [b; t; c] (data x) = true ->
  exists y l',
    LayerNormalization_call l x = Ok (y, l') /\
    dtype y = float32 /\ has_shape [b; t; c] (data y) = true /\
    LayerNormalization_built (Some l') = true /\
    LayerNormalization_fits c l'.
Proof.
  intros Hb Ht Hfit Hx. unfold LayerNormalization_call.
  cbn [keras_autocast tf_cast data dtype].
  rewrite (last_shape_shaped b t c _ Hb Ht Hx).
  unfold LayerNormalization_fits in Hfit.
  assert (Hw : exists gamma beta,
             ln_weights (match ln_weights l with
                         | Some _ => l
                         | None => LayerNormalization_build l c
                         end) = Some (gamma, beta) /\
             length gamma = c /\ length beta = c).
  { destruct (ln_weights l) as [[g be]|] eqn:E.
    - exists g, be. rewrite E. tauto.
    - eexists. eexists. cbn [LayerNormalization_build ln_weights].
      split; [reflexivity|]. split; apply init_vector_length. }
  destruct Hw as (gamma & beta & Ew & Hg & Hbe).
  set (l' := match ln_weights l with
             | Some _ => l
             | None => LayerNormalization_build l c
             end) in *.
  rewrite Ew, Hg, (last_dim_is_shaped b t c) by assumption.
  cbn [guard bind]. eexists. exists l'. split; [reflexivity|].
  cbn [dtype data]. split; [reflexivity|]. split.
  - apply (tmap_rows_shaped _ b t c c); [|assumption].
    intros r Hr. now apply layer_norm_row_length.
  - unfold LayerNormalization_built, LayerNormalization_fits.
    rewrite Ew. auto.
Qed.

Lemma Dense_call_shaped (d : Dense) (x : Tensor) (b t c : nat) :
  (0 < b)%nat -> (0 < t)%nat ->
  Dense_fits c d ->
  has_shape [b; t; c] (data x) = true ->
  exists y d',
    Dense_call glorot_uniform d x = Ok (y, d') /\
    dtype y = float32 /\
    has_shape [b; t; Z.to_nat (units d)] (data y) = true /\
    Dense_built d' = true /\ units d' = units d /\ Dense_fits c d'.
Proof.
  intros Hb Ht Hfit Hx. unfold Dense_call.
  cbn [keras_autocast tf_cast data dtype].
  rewrite (last_shape_shaped b t c _ Hb Ht Hx).
  unfold Dense_fits in Hfit.
  assert (Hw : exists kernel bias,
             dense_weights (match dense_weights d with
                            | Some _ => d
                            | None => Dense_build glorot_uniform d c
                            end) = Some (kernel, bias) /\
             length kernel = c /\
             Forall (fun r => length r = Z.to_nat (units d)) kernel /\
             length bias = Z.to_nat (units d) /\
             units (match dense_weights d with
                    | Some _ => d
                    | None => Dense_build glorot_uniform d c
                    end) = units d).
  { destruct (dense_weights d) as [[ke bi]|] eqn:E.
    - exists ke, bi. rewrite E. tauto.
    - eexists. eexists. cbn [Dense_build dense_weights units].
      split; [reflexivity|].
      destruct (init_matrix_spec glorot_uniform c (Z.to_nat (units d)))
        as [H1 H2].
      repeat split; auto using init_vector_length. }
  destruct Hw as (kernel & bias & Ew & Hk & Hrows & Hbi & Hu).
  set (d' := match dense_weights d with
             | Some _ => d
             | None => Dense_build glorot_uniform d c
             end) in *.
  rewrite Ew, Hk, (last_dim_is_shaped b t c) by assumption.
  cbn [guard bind]. eexists. exists d'. split; [reflexivity|].
  cbn [dtype data]. split; [reflexivity|]. split.
  - apply (tmap_rows_shaped _ b t c (Z.to_nat (units d))); [|assumption].
    intros r Hr. now apply axpy_rows_length.
  - unfold Dense_built, Dense_fits. rewrite Ew, Hu. cbn [is_some]. auto.
Qed.

Lemma Activation_call_shaped (a : Activation) (x : Tensor) (b t c : nat) :
  has_shape [b; t; c] (data x) = true ->
  dtype (Activation_call a x) = float32 /\
  has_shape [b; t; c] (data (Activation_call a x)) = true.
Proof.
  intros Hx. unfold Activation_call. cbn [keras_autocast tf_cast data dtype].
  split; [reflexivity|].
  apply (tmap_rows_shaped (map (activation_fn a)) b t c c); [|assumption].
  intros r Hr. now rewrite length_map.
Qed.

End Sublayers.

(** ** MultiHeadAttention.call with normalisation *)

Lemma tf_shape_0_shaped (b t c : nat) (x : Tensor) :
  has_shape [b; t; c] (data x) = true -> tf_shape_0 x = b.
Proof.
  intros Hx. apply has_shape_rank3_inv' in Hx.
  destruct Hx as (ms & E & Hl & _). unfold tf_shape_0. rewrite E.
  cbn [shape hd]. now rewrite length_map.
Qed.

Lemma split_heads_shaped (self : MultiHeadAttention) (x : Tensor)
  (B T : nat) :
  (0 < mha_num_heads self)%Z -> (0 < depth self)%Z ->
  (0 < B)%nat -> (0 < T)%nat ->
  has_shape [B; T; (Z.to_nat (mha_num_heads self) * Z.to_nat (depth self))%nat]
            (data x) = true ->
  exists y,
    split_heads self x B = Ok y /\ dtype y = dtype x /\
    has_shape [B; Z.to_nat (mha_num_heads self); T; Z.to_nat (depth self)]
      (data y) = true.
Proof.
  intros Hh Hd HB HT Hx.
  set (H := Z.to_nat (mha_num_heads self)) in *.
  set (D := Z.to_nat (depth self)) in *.
  assert (Hlen : length (flatten (data x))
                 = (B * (T * prod_dims [H; D]))%nat).
  { rewrite (flatten_length T (H * D) [B] _ Hx). simpl. lia. }
  assert (Hdims : [Z.of_nat B; (-1)%Z; mha_num_heads self; depth self]
                  = Z.of_nat B :: (-1)%Z :: map Z.of_nat [H; D]).
  { subst H D. cbn [map]. now rewrite !Z2Nat.id by lia. }
  assert (Hpos : Forall (fun n => (0 < n)%nat) [H; D])
    by (repeat constructor; subst H D; lia).
  assert (Hl1 : (1 <= length [H; D])%nat) by (simpl; lia).
  unfold split_heads. rewrite Hdims.
  rewrite (tf_reshape_minus1 x B T [H; D] HB Hpos Hl1 Hlen). cbn [bind].
  destruct (tf_transpose_0213_shaped
              (mkTensor (dtype x) (build_shape [B; T; H; D] (flatten (data x))))
              B T H D HT) as (y & Ey & Dy & Hy & _).
  { cbn [data]. apply (has_shape_build_shape H D [B; T]).
    rewrite Hlen. simpl. lia. }
  exists y. auto.
Qed.

Section AttentionBlock.

Variable glorot_uniform : Initializer.

Lemma MultiHeadAttention_call_shaped (self : MultiHeadAttention) (x : Tensor)
  (B T : nat) :
  MultiHeadAttention_fits self ->
  (0 < mha_num_heads self)%Z -> (0 < depth self)%Z ->
  d_model self = (mha_num_heads self * depth self)%Z ->
  (0 < B)%nat -> (0 < T)%nat ->
  has_shape [B; T; Z.to_nat (d_model self)] (data x) = true ->
  exists y self',
    MultiHeadAttention_call glorot_uniform self x None = Ok (y, self') /\
    dtype y = float32 /\
    has_shape [B; T; Z.to_nat (d_model self)] (data y) = true /\
    MultiHeadAttention_built self' = true /\
    MultiHeadAttention_fits self' /\
    mha_num_heads self' = mha_num_heads self /\
    depth self' = depth self /\ d_model self' = d_model self.
Proof.
  intros Hfit Hh Hd Hdm HB HT Hx.
  destruct Hfit as (Uq & Uk & Uv & Ud & Fq & Fk & Fv & Fd
                    & (l1 & El1 & Fl1) & (l2 & El2 & Fl2)).
  set (M := Z.to_nat (d_model self)) in *.
  set (H := Z.to_nat (mha_num_heads self)) in *.
  set (D := Z.to_nat (depth self)) in *.
  assert (HM : M = (H * D)%nat).
  { subst M H D. rewrite Hdm, Z2Nat.inj_mul by lia. reflexivity. }
  assert (HH : (0 < H)%nat) by (subst H; lia).
  assert (HD : (0 < D)%nat) by (subst D; lia).
  unfold MultiHeadAttention_call.
  rewrite (tf_shape_0_shaped B T M x Hx). cbn zeta.
  rewrite El1. cbn [getattr bind].
  destruct (LayerNormalization_call_shaped l1 x B T M HB HT Fl1 Hx)
    as (x1 & l1' & E1 & D1 & S1 & B1 & F1).
  rewrite E1. cbn [bind].
  destruct (Dense_call_shaped glorot_uniform (wq self) x1 B T M HB HT Fq S1)
    as (q & wq' & Eq & Dq & Sq & Bq & Uq' & Fq').
  rewrite Eq. cbn [bind].
  destruct (Dense_call_shaped glorot_uniform (wk self) x1 B T M HB HT Fk S1)
    as (k & wk' & Ek & Dk & Sk & Bk & Uk' & Fk').
  rewrite Ek. cbn [bind].
  destruct (Dense_call_shaped glorot_uniform (wv self) x1 B T M HB HT Fv S1)
    as (v & wv' & Ev & Dv & Sv & Bv & Uv' & Fv').
  rewrite Ev. cbn [bind].
  rewrite Uq in Sq. rewrite Uk in Sk. rewrite Uv in Sv.
  fold M in Sq, Sk, Sv. rewrite HM in Sq, Sk, Sv.
  destruct (split_heads_shaped self q B T Hh Hd HB HT Sq)
    as (q4 & Eq4 & Dq4 & Sq4).
  destruct (split_heads_shaped self k B T Hh Hd HB HT Sk)
    as (k4 & Ek4 & Dk4 & Sk4).
  destruct (split_heads_shaped self v B T Hh Hd HB HT Sv)
    as (v4 & Ev4 & Dv4 & Sv4).
  rewrite Eq4. cbn [bind]. rewrite Ek4. cbn [bind]. rewrite Ev4. cbn [bind].
  fold H D in Sq4, Sk4, Sv4.
  destruct (scaled_dot_product_attention_unmasked [B; H] T T D D q4 k4 v4)
    as (att & w & Ea & Da & _ & _ & Sa); try congruence; try assumption.
  rewrite Ea. cbn [bind]. specialize (Sa HT). cbn [app] in Sa.
  destruct (merge_heads_shaped att B H T D (d_model self) HB HH HD)
    as (att' & c & Et & Ec & Dc & Sc); [| exact Sa |].
  { rewrite <- HM. subst M. rewrite Z2Nat.id; lia. }
  rewrite Et. cbn [bind]. rewrite Ec. cbn [bind].
  rewrite <- HM in Sc.
  destruct (tf_add_rank3 x1 c B T M) as (r1 & Er1 & Dr1 & Sr1);
    [congruence | assumption | assumption |].
  rewrite Er1. cbn [bind]. rewrite El2. cbn [getattr bind].
  destruct (LayerNormalization_call_shaped l2 r1 B T M HB HT Fl2 Sr1)
    as (o1 & l2' & E2 & D2 & S2 & B2 & F2).
  rewrite E2. cbn [bind].
  destruct (Dense_call_shaped glorot_uniform (dense self) o1 B T M HB HT Fd S2)
    as (o2 & dn' & Eo2 & Do2 & So2 & Bd & Ud' & Fd').
  rewrite Eo2. cbn [bind]. rewrite Ud in So2. fold M in So2.
  destruct (Activation_call_shaped (activation_layer self) o2 B T M So2)
    as [Do3 So3].
  destruct (tf_add_rank3 (Activation_call (activation_layer self) o2) r1 B T M)
    as (out & Eout & Dout & Sout); [congruence | assumption | assumption |].
  rewrite Eout. cbn [bind].
  eexists. eexists. split; [reflexivity|].
  split; [congruence|]. split; [exact Sout|].
  split.
  - unfold MultiHeadAttention_built.
    cbn [wq wk wv layer_norm1 layer_norm2 dense].
    now rewrite Bq, Bk, Bv, B1, B2, Bd.
  - split; [|cbn; auto].
    unfold MultiHeadAttention_fits.
    cbn [wq wk wv layer_norm1 layer_norm2 dense d_model]. fold M.
    repeat split; try congruence; try assumption; eauto.
Qed.

End AttentionBlock.

Lemma new_MultiHeadAttention_fits (d h : Z) (act : Activation) :
  MultiHeadAttention_fits (new_MultiHeadAttention d h true act).
Proof.
  unfold MultiHeadAttention_fits, new_MultiHeadAttention, Dense_fits.
  cbn. repeat split; auto; eexists; (split; [reflexivity|]);
    exact I.
Qed.

Lemma new_MultiHeadAttention_dims (d h : Z) (un : bool) (act : Activation) :
  (0 < d)%Z -> (0 < h)%Z -> (d mod h = 0)%Z ->
  let m := new_MultiHeadAttention d h un act in
  (0 < mha_num_heads m)%Z /\ (0 < depth m)%Z /\
  d_model m = (mha_num_heads m * depth m)%Z.
Proof.
  intros Hd Hh Hm. cbn.
  assert (E : d = (h * (d / h))%Z) by (apply Z.div_exact; lia).
  repeat split; [assumption | nia | exact E].
Qed.

(** X5. A [MultiHeadAttention] constructed with [use_norm=True], called
    without a mask on an input of shape (batch, seq_len, d_model) with
    [batch > 0] and [seq_len > 0], returns a [float32] tensor of the same
    shape, and after the call all its sublayers hold their weights. *)
Theorem MultiHeadAttention_call_shape (glorot_uniform : Initializer)
  (d h : Z) (act : Activation) (self : MultiHeadAttention) (x : Tensor)
  (B T : nat) :
  MultiHeadAttention_init d h true act = Ok self ->
  (0 < d)%Z -> (0 < h)%Z -> (0 < B)%nat -> (0 < T)%nat ->
  has_shape [B; T; Z.to_nat d] (data x) = true ->
  exists y self',
    MultiHeadAttention_call glorot_uniform self x None = Ok (y, self') /\
    has_shape [B; T; Z.to_nat d] (data y) = true /\
    dtype y = float32 /\
    MultiHeadAttention_built self' = true.
Proof.
  intros Hi Hd Hh HB HT Hx. apply MultiHeadAttention_init_inv in Hi.
  destruct Hi as (_ & Hm & ->).
  destruct (new_MultiHeadAttention_dims d h true act Hd Hh Hm)
    as (H1 & H2 & H3).
  destruct (MultiHeadAttention_call_shaped glorot_uniform
              (new_MultiHeadAttention d h true act) x B T
              (new_MultiHeadAttention_fits d h act) H1 H2 H3 HB HT Hx)
    as (y & self' & E & Dy & Sy & By & _).
  exists y, self'. auto.
Qed.

Lemma MultiHeadAttention_call_shape_witness :
  exists self y self',
    MultiHeadAttention_init 4 2 true relu = Ok self /\
    MultiHeadAttention_call zeros self
      (mkTensor float32 (Batch [Mat [[1; 2; 3; 4]; [5; 6; 7; 8]]])) None
    = Ok (y, self') /\
    has_shape [1; 2; 4]%nat (data y) = true.
Proof.
  assert (H1 : (0 < 1)%nat) by lia. assert (H2 : (0 < 2)%nat) by lia.
  destruct (MultiHeadAttention_call_shape zeros 4 2 relu
              (new_MultiHeadAttention 4 2 true relu)
              (mkTensor float32 (Batch [Mat [[1; 2; 3; 4]; [5; 6; 7; 8]]]))
              1 2 eq_refl eq_refl eq_refl H1 H2 eq_refl)
    as (y & self' & E & Sy & _).
  eexists. exists y, self'. split; [reflexivity|]. split; [exact E | exact Sy].
Defined.

(** ** Graph_ViT.call *)

Section Transformer.

Variable glorot_uniform : Initializer.

Lemma apply_layers_shaped (layers : list MultiHeadAttention) (x : Tensor)
  (B T M : nat) :
  Forall (fun m => MultiHeadAttention_fits m /\
                   (0 < mha_num_heads m)%Z /\ (0 < depth m)%Z /\
                   d_model m = (mha_num_heads m * depth m)%Z /\
                   Z.to_nat (d_model m) = M) layers ->
  (0 < B)%nat -> (0 < T)%nat ->
  has_shape [B; T; M] (data x) = true ->
  exists y ls,
    apply_layers glorot_uniform layers x = Ok (y, ls) /\
    has_shape [B; T; M] (data y) = true /\
    forallb MultiHeadAttention_built ls = true.
Proof.
  intros Hl HB HT. revert x.
  induction Hl as [|m layers (Hf & Hh & Hd & Hdm & HM) _ IH]; intros x Hx.
  - exists x, []. cbn. auto.
  - cbn [apply_layers]. unfold MultiHeadAttention___call__.
    subst M.
    destruct (MultiHeadAttention_call_shaped glorot_uniform m
                (keras_autocast x) B T Hf Hh Hd Hdm HB HT Hx)
      as (y & m' & E & _ & Sy & Bm & _).
    rewrite E. cbn [bind].
    destruct (IH y Sy) as (z & ls & Ez & Sz & Bl).
    rewrite Ez. cbn [bind]. exists z, (m' :: ls).
    split; [reflexivity|]. split; [exact Sz|].
    cbn [forallb]. now rewrite Bm, Bl.
Qed.

Lemma Graph_ViT_build_inv p kd nh pe nl act ln (self self' : Graph_ViT)
  (b n c : nat) :
  Graph_ViT_init p kd nh pe nl act ln = Ok self ->
  Graph_ViT_build glorot_uniform self [b; n; c] = Ok self' ->
  (Z.of_nat n mod embed_filter_size self = 0)%Z /\
  embed self'
  = mkConv1D (kd * nh) (int_four_pow p) (int_four_pow p)
      (Some (init_kernel3 glorot_uniform (Z.to_nat (int_four_pow p)) c
               (Z.to_nat (kd * nh)),
             init_vector zeros (Z.to_nat (kd * nh)))) /\
  mha_layers self' = mha_layers self /\
  embed_filter_size self' = embed_filter_size self /\
  embedding_size self' = embedding_size self.
Proof.
  intros Hi Hb.
  destruct (Z.eq_dec (Z.of_nat n mod embed_filter_size self) 0) as [Hm|Hm].
  - rewrite (Graph_ViT_build_Ok _ _ _ _ _ _ _ _ _ _ _ _ Hi Hm) in Hb.
    injection Hb as <-. apply Graph_ViT_init_inv in Hi.
    destruct Hi as (_ & _ & _ & ->). cbn. auto.
  - rewrite (Graph_ViT_build_Raise _ _ _ _ _ _ _ _ _ _ _ _ Hi Hm) in Hb.
    discriminate.
Qed.

(** X6. A [Graph_ViT] constructed with [layer_norm=True] and positive
    [key_dim] and [num_heads], built on (batch, n_nodes, channels) with
    [batch > 0] and [n_nodes > 0], and called on an input of that shape,
    returns a tensor of shape
    (batch, n_nodes / embed_filter_size, embedding_size); after the call
    the embedding and all attention blocks hold their weights. *)
Theorem Graph_ViT_call_shape p kd nh pe nl act (g0 g1 : Graph_ViT)
  (x : Tensor) (b n c : nat) :
  Graph_ViT_init p kd nh pe nl act true = Ok g0 ->
  (0 < kd)%Z -> (0 < nh)%Z -> (0 < b)%nat -> (0 < n)%nat ->
  Graph_ViT_build glorot_uniform g0 [b; n; c] = Ok g1 ->
  has_shape [b; n; c] (data x) = true ->
  exists y g2,
    Graph_ViT_call glorot_uniform g1 x = Ok (y, g2) /\
    has_shape [b; (n / Z.to_nat (embed_filter_size g0))%nat;
               Z.to_nat (embedding_size g0)] (data y) = true /\
    Graph_ViT_built g2 = true.
Proof.
  intros Hi Hkd Hnh Hb Hn Hbuild Hx.
  destruct (Graph_ViT_build_inv _ _ _ _ _ _ _ _ _ _ _ _ Hi Hbuild)
    as (Hm & Eemb & Emha & _ & _).
  pose proof Hi as Hi'. apply Graph_ViT_init_inv in Hi'.
  destruct Hi' as (Hp & Hnl & _ & ->).
  pose proof (int_four_pow_pos p Hp) as Hpos.
  cbn [new_Graph_ViT embed_filter_size embedding_size mha_layers] in *.
  set (k := Z.to_nat (int_four_pow p)) in *.
  set (E := Z.to_nat (kd * nh)) in *.
  assert (Hk : (0 < k)%nat) by (subst k; lia).
  assert (Hnk : (n mod k = 0)%nat).
  { apply Nat2Z.inj. subst k. rewrite Nat2Z.inj_mod, Z2Nat.id by lia.
    exact Hm. }
  assert (HP : (0 < n / k)%nat).
  { apply Nat.Div0.div_exact in Hnk.
    destruct (n / k)%nat; [lia | lia]. }
  unfold Graph_ViT_call. rewrite Eemb, Emha.
  destruct (Conv1D_call_patches glorot_uniform (kd * nh) (int_four_pow p)
              x b n c Hpos Hm Hx) as (y & e' & Ey & Sy).
  fold k E in Sy, Ey. rewrite Ey. cbn [bind].
  assert (Ee : e' = mkConv1D (kd * nh) (int_four_pow p) (int_four_pow p)
                      (Some (init_kernel3 glorot_uniform k c E,
                             init_vector zeros E))).
  { now apply Conv1D_call_built in Ey. }
  assert (Hlayers :
            Forall (fun m => MultiHeadAttention_fits m /\
                             (0 < mha_num_heads m)%Z /\ (0 < depth m)%Z /\
                             d_model m = (mha_num_heads m * depth m)%Z /\
                             Z.to_nat (d_model m) = E)
                   (repeat (new_MultiHeadAttention (kd * nh) nh true act)
                           (Z.to_nat nl))).
  { apply Forall_forall. intros m Hin. apply repeat_spec in Hin. subst m.
    destruct (new_MultiHeadAttention_dims (kd * nh) nh true act)
      as (H1 & H2 & H3); [nia | lia | apply Z.mod_mul; lia |].
    split; [apply new_MultiHeadAttention_fits|]. auto. }
  destruct (apply_layers_shaped _ y b (n / k) E Hlayers Hb HP Sy)
    as (z & ls & Ez & Sz & Bl).
  rewrite Ez. cbn [bind]. eexists. eexists. split; [reflexivity|].
  split; [exact Sz|].
  unfold Graph_ViT_built. cbn [embed mha_layers]. rewrite Ee, Bl.
  reflexivity.
Qed.

End Transformer.

Lemma Graph_ViT_call_shape_witness :
  exists g0 g1 y g2,
    Graph_ViT_init (PyInt 2) 1 2 true 1 relu true = Ok g0 /\
    Graph_ViT_build zeros g0 [1; 16; 1]%nat = Ok g1 /\
    Graph_ViT_call zeros g1 example_input = Ok (y, g2) /\
    has_shape [1; 1; 2]%nat (data y) = true.
Proof.
  assert (Hi : Graph_ViT_init (PyInt 2) 1 2 true 1 relu true
               = Ok (new_Graph_ViT (PyInt 2) 1 2 true 1 relu true)).
  { apply Graph_ViT_init_Ok; [unfold py_gt_1; simpl; lra | lia | lia]. }
  pose proof (Graph_ViT_build_Ok zeros _ _ _ _ _ _ _ _ 1 16 1 Hi eq_refl)
    as Hb.
  assert (H1 : (0 < 1)%nat) by lia. assert (H16 : (0 < 16)%nat) by lia.
  destruct (Graph_ViT_call_shape zeros _ _ _ _ _ _ _ _ example_input 1 16 1
              Hi eq_refl eq_refl H1 H16 Hb eq_refl)
    as (y & g2 & E & Sy & _).
  eexists. eexists. exists y, g2.
  split; [exact Hi|]. split; [exact Hb|]. split; [exact E | exact Sy].
Defined.

(** ** Graph_ViT without normalisation *)

Lemma Graph_ViT_build_mha_layers (glorot_uniform : Initializer)
  (self self' : Graph_ViT) (s : list nat) :
  Graph_ViT_build glorot_uniform self s = Ok self' ->
  mha_layers self' = mha_layers self.
Proof.
  unfold Graph_ViT_build. intros H.
  apply bind_Ok in H. destruct H as (n & _ & H).
  apply bind_Ok in H. destruct H as (r & _ & H).
  apply bind_Ok in H. destruct H as (u & _ & H).
  apply bind_Ok in H. destruct H as (e & _ & H).
  apply bind_Ok in H. destruct H as (pe & _ & H).
  injection H as <-. reflexivity.
Qed.

(** X7. A [Graph_ViT] constructed with [layer_norm=False] never returns
    from [call], before or after [build]: the first attention block reads
    its missing [layer_norm1], so whenever the patch embedding itself
    succeeds the call raises [AttributeError]. *)
Theorem Graph_ViT_call_without_norm (glorot_uniform : Initializer)
  p kd nh pe nl act (g0 g1 : Graph_ViT) (x : Tensor) :
  Graph_ViT_init p kd nh pe nl act false = Ok g0 ->
  mha_layers g1 = mha_layers g0 ->
  is_ok (Graph_ViT_call glorot_uniform g1 x) = false /\
  (is_ok (Conv1D_call glorot_uniform (embed g1) x) = true ->
   Graph_ViT_call glorot_uniform g1 x
   = Raise (AttributeError "layer_norm1")).
Proof.
  intros Hi Hl. apply Graph_ViT_init_inv in Hi.
  destruct Hi as (_ & Hnl & _ & ->).
  cbn [new_Graph_ViT mha_layers] in Hl.
  assert (Hrep : exists rest,
             mha_layers g1
             = new_MultiHeadAttention (kd * nh) nh false act :: rest).
  { rewrite Hl. destruct (Z.to_nat nl) as [|k] eqn:E; [lia|].
    simpl. eauto. }
  destruct Hrep as (rest & Er).
  unfold Graph_ViT_call. rewrite Er.
  destruct (Conv1D_call glorot_uniform (embed g1) x) as [[y e']|e];
    cbn [bind is_ok]; [|split; [reflexivity | discriminate]].
  cbn. auto.
Qed.

Lemma Graph_ViT_call_without_norm_witness :
  exists g0 g1,
    Graph_ViT_init (PyInt 2) 1 2 true 1 relu false = Ok g0 /\
    Graph_ViT_build zeros g0 [1; 16; 1]%nat = Ok g1 /\
    Graph_ViT_call zeros g1 example_input
    = Raise (AttributeError "layer_norm1").
Proof.
  assert (Hi : Graph_ViT_init (PyInt 2) 1 2 true 1 relu false
               = Ok (new_Graph_ViT (PyInt 2) 1 2 true 1 relu false)).
  { apply Graph_ViT_init_Ok; [unfold py_gt_1; simpl; lra | lia | lia]. }
  pose proof (Graph_ViT_build_Ok zeros _ _ _ _ _ _ _ _ 1 16 1 Hi eq_refl)
    as Hb.
  eexists. eexists. split; [exact Hi|]. split; [exact Hb|].
  refine (proj2 (Graph_ViT_call_without_norm zeros _ _ _ _ _ _ _ _
                   example_input Hi
                   (Graph_ViT_build_mha_layers zeros _ _ _ Hb)) _).
  vm_compute. reflexivity.
Defined.

(** ** What the constructors establish *)

(** X8. A constructed [MultiHeadAttention] splits [d_model] exactly:
    [depth * num_heads = d_model]; it has its two normalisation layers
    exactly when [use_norm] is set, and none of its sublayers has weights
    yet. *)
Theorem MultiHeadAttention_init_invariant (d h : Z) (un : bool)
  (act : Activation) (m : MultiHeadAttention) :
  MultiHeadAttention_init d h un act = Ok m ->
  (depth m * mha_num_heads m = d_model m)%Z /\
  d_model m = d /\ mha_num_heads m = h /\ use_norm m = un /\
  is_some (layer_norm1 m) = un /\ is_some (layer_norm2 m) = un /\
  MultiHeadAttention_built m = false.
Proof.
  intros H. apply MultiHeadAttention_init_inv in H.
  destruct H as (Hh & Hm & ->).
  split.
  - cbn. rewrite Z.mul_comm. symmetry. apply Z.div_exact; assumption.
  - destruct un; cbn; repeat split; reflexivity.
Qed.

Lemma MultiHeadAttention_init_invariant_witness :
  exists m, MultiHeadAttention_init 12 3 true relu = Ok m /\
            (depth m * mha_num_heads m = d_model m)%Z /\ depth m = 4%Z.
Proof.
  exists (new_MultiHeadAttention 12 3 true relu).
  split; [reflexivity|].
  split; [|reflexivity].
  exact (proj1 (MultiHeadAttention_init_invariant 12 3 true relu _ eq_refl)).
Defined.

(** X9. A constructed [Graph_ViT] has exactly [n_layers] attention
    blocks, each with [d_model = embedding_size = key_dim * num_heads],
    [num_heads] heads of size [key_dim] and [use_norm = layer_norm]; the
    patch embedding has [embedding_size] filters and kernel size and stride
    both equal to the positive [embed_filter_size]; a positional encoder
    exists exactly when [positional_encoding] is set. *)
Theorem Graph_ViT_init_invariant p kd nh pe nl act ln (g : Graph_ViT) :
  Graph_ViT_init p kd nh pe nl act ln = Ok g ->
  Z.of_nat (length (mha_layers g)) = nl /\
  Forall (fun m => d_model m = embedding_size g /\
                   mha_num_heads m = nh /\ depth m = kd /\
                   use_norm m = ln) (mha_layers g) /\
  embedding_size g = (kd * nh)%Z /\
  filters (embed g) = embedding_size g /\
  kernel_size (embed g) = embed_filter_size g /\
  strides (embed g) = embed_filter_size g /\
  (0 < embed_filter_size g)%Z /\
  is_some (pos_encoder g) = pe.
Proof.
  intros H. apply Graph_ViT_init_inv in H.
  destruct H as (Hp & Hnl & Hh & ->). cbn.
  split; [rewrite repeat_length; lia|].
  split.
  - apply Forall_forall. intros m Hin. apply repeat_spec in Hin. subst m.
    cbn. repeat split; auto. now apply Z.div_mul.
  - repeat split; auto using int_four_pow_pos. now destruct pe.
Qed.

Lemma Graph_ViT_init_invariant_witness :
  exists g, Graph_ViT_init (PyInt 2) 8 2 true 3 relu true = Ok g /\
            length (mha_layers g) = 3%nat /\
            Forall (fun m => d_model m = 16%Z /\ depth m = 8%Z)
                   (mha_layers g).
Proof.
  assert (Hi : Graph_ViT_init (PyInt 2) 8 2 true 3 relu true
               = Ok (new_Graph_ViT (PyInt 2) 8 2 true 3 relu true)).
  { apply Graph_ViT_init_Ok; [unfold py_gt_1; simpl; lra | lia | lia]. }
  destruct (Graph_ViT_init_invariant _ _ _ _ _ _ _ _ Hi)
    as (Hl & Hf & _).
  eexists. split; [exact Hi|]. split; [reflexivity|].
  revert Hf. apply Forall_impl. intros m (H1 & _ & H3 & _). auto.
Defined.

(** ** Calling a layer again *)

Section Again.

Variable glorot_uniform : Initializer.

Lemma Dense_call_again (d d' : Dense) (x y : Tensor) :
  Dense_call glorot_uniform d x = Ok (y, d') ->
  Dense_built d' = true /\ Dense_call glorot_uniform d' x = Ok (y, d').
Proof.
  unfold Dense_call, Dense_built. cbn zeta.
  cbn [keras_autocast tf_cast data dtype].
  destruct (dense_weights d) as [[k b]|] eqn:E.
  - rewrite E. destruct (guard _ _) eqn:G; cbn [bind]; [|discriminate].
    intros H. injection H as <- <-. rewrite E. cbv iota. rewrite E, G.
    cbn [bind is_some]. auto.
  - cbn [Dense_build dense_weights units].
    destruct (guard _ _) eqn:G; cbn [bind]; [|discriminate].
    intros H. injection H as <- <-.
    repeat (cbn [Dense_build dense_weights units is_some]; cbv iota).
    rewrite G. cbn [bind]. auto.
Qed.

Lemma LayerNormalization_call_again (l l' : LayerNormalization)
  (x y : Tensor) :
  LayerNormalization_call l x = Ok (y, l') ->
  LayerNormalization_built (Some l') = true /\
  LayerNormalization_call l' x = Ok (y, l').
Proof.
  unfold LayerNormalization_call, LayerNormalization_built. cbn zeta.
  cbn [keras_autocast tf_cast data dtype].
  destruct (ln_weights l) as [[g b]|] eqn:E.
  - rewrite E. destruct (guard _ _) eqn:G; cbn [bind]; [|discriminate].
    intros H. injection H as <- <-. rewrite E. cbv iota. rewrite E, G.
    cbn [bind is_some]. auto.
  - cbn [LayerNormalization_build ln_weights epsilon].
    destruct (guard _ _) eqn:G; cbn [bind]; [|discriminate].
    intros H. injection H as <- <-.
    repeat (cbn [LayerNormalization_build ln_weights epsilon is_some];
            cbv iota).
    rewrite G. cbn [bind]. auto.
Qed.

Lemma Conv1D_call_again (c c' : Conv1D) (x y : Tensor) :
  Conv1D_call glorot_uniform c x = Ok (y, c') ->
  Conv1D_built c' = true /\ Conv1D_call glorot_uniform c' x = Ok (y, c').
Proof.
  unfold Conv1D_call, Conv1D_built. cbn zeta.
  cbn [keras_autocast tf_cast data dtype].
  destruct (guard (is_rank3 _) _) eqn:G0; cbn [bind]; [|discriminate].
  destruct (conv_weights c) as [[k b]|] eqn:E.
  - cbn [bind]. rewrite E.
    destruct (guard (last_dim_is _ _) _) eqn:G; cbn [bind]; [|discriminate].
    intros H. injection H as <- <-. rewrite E. cbn [bind]. rewrite E, G.
    cbn [bind is_some]. auto.
  - unfold Conv1D_build.
    destruct (guard (Nat.eqb _ _) _) eqn:G1; cbn [bind]; [|discriminate].
    cbn [conv_weights kernel_size strides filters].
    destruct (guard (last_dim_is _ _) _) eqn:G; cbn [bind]; [|discriminate].
    intros H. injection H as <- <-.
    cbn [conv_weights kernel_size strides filters is_some bind].
    rewrite G. cbn [bind]. auto.
Qed.

End Again.

Tactic Notation "inv_bind" hyp(H) "as" ident(a) ident(E) :=
  apply bind_Ok in H; destruct H as (a & E & H).

Section AgainBlock.

Variable glorot_uniform : Initializer.

Lemma MultiHeadAttention_call_again (self self' : MultiHeadAttention)
  (x y : Tensor) (mask : option Tensor) :
  MultiHeadAttention_call glorot_uniform self x mask = Ok (y, self') ->
  MultiHeadAttention_built self' = true /\
  MultiHeadAttention_call glorot_uniform self' x mask = Ok (y, self').
Proof.
  unfold MultiHeadAttention_call, split_heads. cbn zeta. intros H.
  inv_bind H as l1 E1.
  inv_bind H as p2 E2. destruct p2 as [x1 l1'].
  inv_bind H as p3 E3. destruct p3 as [q wq'].
  inv_bind H as p4 E4. destruct p4 as [k wk'].
  inv_bind H as p5 E5. destruct p5 as [v wv'].
  inv_bind H as q4 E6. inv_bind H as k4 E7. inv_bind H as v4 E8.
  inv_bind H as p9 E9. destruct p9 as [att w].
  inv_bind H as att' E10. inv_bind H as c E11. inv_bind H as r1 E12.
  inv_bind H as l2 E13.
  inv_bind H as p14 E14. destruct p14 as [o1 l2'].
  inv_bind H as p15 E15. destruct p15 as [o2 dn'].
  inv_bind H as out E16.
  injection H as <- <-.
  apply LayerNormalization_call_again in E2. destruct E2 as [B1 E2].
  apply (Dense_call_again glorot_uniform) in E3. destruct E3 as [Bq E3].
  apply (Dense_call_again glorot_uniform) in E4. destruct E4 as [Bk E4].
  apply (Dense_call_again glorot_uniform) in E5. destruct E5 as [Bv E5].
  apply LayerNormalization_call_again in E14. destruct E14 as [B2 E14].
  apply (Dense_call_again glorot_uniform) in E15. destruct E15 as [Bd E15].
  split.
  - unfold MultiHeadAttention_built.
    cbn [wq wk wv layer_norm1 layer_norm2 dense].
    now rewrite Bq, Bk, Bv, B1, B2, Bd.
  - cbn [wq wk wv layer_norm1 layer_norm2 dense mha_num_heads depth d_model
         activation_layer use_norm getattr bind].
    rewrite E2. cbn [bind]. rewrite E3. cbn [bind]. rewrite E4. cbn [bind].
    rewrite E5. cbn [bind]. rewrite E6. cbn [bind]. rewrite E7. cbn [bind].
    rewrite E8. cbn [bind]. rewrite E9. cbn [bind]. rewrite E10. cbn [bind].
    rewrite E11. cbn [bind]. rewrite E12. cbn [bind]. rewrite E14.
    cbn [bind]. rewrite E15. cbn [bind]. rewrite E16. cbn [bind].
    reflexivity.
Qed.

Lemma apply_layers_again (layers layers' : list MultiHeadAttention)
  (x y : Tensor) :
  apply_layers glorot_uniform layers x = Ok (y, layers') ->
  forallb MultiHeadAttention_built layers' = true /\
  apply_layers glorot_uniform layers' x = Ok (y, layers').
Proof.
  revert layers' x y.
  induction layers as [|m layers IH]; intros layers' x y H.
  - cbn in H. injection H as <- <-. cbn. auto.
  - cbn [apply_layers] in H. unfold MultiHeadAttention___call__ in *.
    inv_bind H as p1 E1. destruct p1 as [x1 m'].
    inv_bind H as p2 E2. destruct p2 as [x2 ls'].
    injection H as <- <-.
    apply MultiHeadAttention_call_again in E1. destruct E1 as [Bm E1].
    apply IH in E2. destruct E2 as [Bl E2].
    cbn [forallb apply_layers]. rewrite Bm, Bl.
    split; [reflexivity|].
    unfold MultiHeadAttention___call__. rewrite E1. cbn [bind].
    rewrite E2. reflexivity.
Qed.

Lemma Graph_ViT_call_again (self self' : Graph_ViT) (x y : Tensor) :
  Graph_ViT_call glorot_uniform self x = Ok (y, self') ->
  Graph_ViT_built self' = true /\
  Graph_ViT_call glorot_uniform self' x = Ok (y, self').
Proof.
  unfold Graph_ViT_call. intros H.
  inv_bind H as p1 E1. destruct p1 as [x1 e'].
  inv_bind H as p2 E2. destruct p2 as [x2 ls'].
  injection H as <- <-.
  apply Conv1D_call_again in E1. destruct E1 as [Be E1].
  apply apply_layers_again in E2. destruct E2 as [Bl E2].
  unfold Graph_ViT_built. cbn [embed mha_layers]. rewrite Be, Bl.
  split; [reflexivity|]. rewrite E1. cbn [bind]. rewrite E2. reflexivity.
Qed.

End AgainBlock.

(** X10. Once [MultiHeadAttention.call] has returned, the block is built,
    and calling the block it left behind on the same input and mask returns
    the same output and leaves the block as it is: the sublayers create
    their weights on the first call only. *)
Theorem MultiHeadAttention_call_idempotent (glorot_uniform : Initializer)
  (self self' : MultiHeadAttention) (x y : Tensor) (mask : option Tensor) :
  MultiHeadAttention_call glorot_uniform self x mask = Ok (y, self') ->
  MultiHeadAttention_built self' = true /\
  MultiHeadAttention_call glorot_uniform self' x mask = Ok (y, self').
Proof.
  apply MultiHeadAttention_call_again.
Qed.

Lemma MultiHeadAttention_call_idempotent_witness :
  exists y self',
    MultiHeadAttention_built (new_MultiHeadAttention 4 2 true relu) = false /\
    MultiHeadAttention_call zeros (new_MultiHeadAttention 4 2 true relu)
      (mkTensor float32 (Batch [Mat [[1; 2; 3; 4]; [5; 6; 7; 8]]])) None
    = Ok (y, self') /\
    MultiHeadAttention_built self' = true /\
    MultiHeadAttention_call zeros self'
      (mkTensor float32 (Batch [Mat [[1; 2; 3; 4]; [5; 6; 7; 8]]])) None
    = Ok (y, self').
Proof.
  assert (Hok : is_ok (MultiHeadAttention_call zeros
                         (new_MultiHeadAttention 4 2 true relu)
                         (mkTensor float32
                            (Batch [Mat [[1; 2; 3; 4]; [5; 6; 7; 8]]])) None)
                = true) by (vm_compute; reflexivity).
  destruct (MultiHeadAttention_call zeros
              (new_MultiHeadAttention 4 2 true relu)
              (mkTensor float32 (Batch [Mat [[1; 2; 3; 4]; [5; 6; 7; 8]]]))
              None) as [[y self']|e] eqn:E; [|discriminate Hok].
  exists y, self'. split; [reflexivity|]. split; [reflexivity|].
  exact (MultiHeadAttention_call_idempotent zeros _ _ _ _ _ E).
Defined.

(** X11. Once [Graph_ViT.call] has returned, the patch embedding and every
    attention block are built, and calling the model it left behind on the
    same input returns the same output and leaves the model as it is. *)
Theorem Graph_ViT_call_idempotent (glorot_uniform : Initializer)
  (self self' : Graph_ViT) (x y : Tensor) :
  Graph_ViT_call glorot_uniform self x = Ok (y, self') ->
  Graph_ViT_built self' = true /\
  Graph_ViT_call glorot_uniform self' x = Ok (y, self').
Proof.
  apply Graph_ViT_call_again.
Qed.

Lemma Graph_ViT_call_idempotent_witness :
  exists y self',
    Graph_ViT_built (new_Graph_ViT (PyInt 2) 1 2 false 1 relu true) = false /\
    Graph_ViT_call zeros (new_Graph_ViT (PyInt 2) 1 2 false 1 relu true)
      example_input = Ok (y, self') /\
    Graph_ViT_built self' = true /\
    Graph_ViT_call zeros self' example_input = Ok (y, self').
Proof.
  assert (Hok : is_ok (Graph_ViT_call zeros
                         (new_Graph_ViT (PyInt 2) 1 2 false 1 relu true)
                         example_input) = true) by (vm_compute; reflexivity).
  destruct (Graph_ViT_call zeros
              (new_Graph_ViT (PyInt 2) 1 2 false 1 relu true) example_input)
    as [[y self']|e] eqn:E; [|discriminate Hok].
  exists y, self'. split; [reflexivity|]. split; [reflexivity|].
  exact (Graph_ViT_call_idempotent zeros _ _ _ _ E).
Defined.

(** ** Position embeddings of another length *)

Lemma mat_bc_ok_length (a b : matrix) :
  bcast_len_ok (length a) (length b) = false -> mat_bc_ok a b = false.
Proof.
  intros H. unfold mat_bc_ok, bcast_ok. now rewrite H.
Qed.

Lemma bc_ok_batch_single_false (m0 w : matrix) (ms : list matrix) :
  mat_bc_ok m0 w = false ->
  bc_ok (Batch (map Mat (m0 :: ms))) (Batch [Mat w]) = false.
Proof.
  intros H. destruct ms as [|m1 ms].
  - cbn -[mat_bc_ok]. now rewrite H.
  - cbn -[mat_bc_ok]. now rewrite H.
Qed.

(** X12. A layer built for sequences of length [s] refuses an input whose
    sequence length [s'] differs from [s], neither of them being one: the
    sum [inputs + pos_embedding] cannot be broadcast and [call] raises
    [InvalidArgumentError], whatever the batch size and the channels. *)
Theorem AddPositionEmbs_call_length_mismatch (glorot_uniform : Initializer)
  (self self' : AddPositionEmbs) (x : Tensor) (b0 s c b s' c' : nat) :
  AddPositionEmbs_build glorot_uniform self [b0; s; c] = Ok self' ->
  has_shape [b; s'; c'] (data x) = true ->
  (0 < b)%nat -> s' <> s -> s' <> 1%nat -> s <> 1%nat ->
  AddPositionEmbs_call self' x = Raise InvalidArgumentError.
Proof.
  intros Hb Hx Hpos Hne Hs' Hs.
  rewrite AddPositionEmbs_build_Ok in Hb. injection Hb as <-.
  destruct (add_weight_single glorot_uniform s c (posemb_init self))
    as (w & Ew & Hw).
  apply Mat_shape_inv in Hw. destruct Hw as [Hlw _].
  apply has_shape_rank3_inv' in Hx. destruct Hx as (ms & Ex & Hl & Hms).
  destruct ms as [|m0 ms]; [simpl in Hl; lia|].
  apply Forall_inv in Hms. destruct Hms as [Hlm _].
  unfold AddPositionEmbs_call. cbn [pos_embedding getattr bind].
  rewrite Ew. unfold tf_add, tf_cast. cbn [dtype data].
  rewrite DType_eqb_refl. cbn [guard bind].
  rewrite Ex, bc_ok_batch_single_false; [reflexivity|].
  apply mat_bc_ok_length. rewrite Hlm, Hlw. unfold bcast_len_ok.
  apply Nat.eqb_neq in Hne, Hs', Hs. now rewrite Hne, Hs', Hs.
Qed.

Lemma AddPositionEmbs_call_length_mismatch_witness :
  exists self',
    AddPositionEmbs_build zeros (AddPositionEmbs_init None) [1; 3; 2]%nat
    = Ok self' /\
    AddPositionEmbs_call self'
      (mkTensor float32 (Batch [Mat [[1; 2]; [3; 4]]]))
    = Raise InvalidArgumentError.
Proof.
  eexists. split; [reflexivity|].
  assert (H1 : (0 < 1)%nat) by lia.
  assert (H2 : 2%nat <> 3%nat) by lia.
  assert (H3 : 2%nat <> 1%nat) by lia.
  assert (H4 : 3%nat <> 1%nat) by lia.
  exact (AddPositionEmbs_call_length_mismatch zeros
           (AddPositionEmbs_init None) _
           (mkTensor float32 (Batch [Mat [[1; 2]; [3; 4]]]))
           1 3 2 1 2 2 eq_refl eq_refl H1 H2 H3 H4).
Defined.
